(** * Key derivation, box geometry and batch handling of the ADE S3 pipeline

    A shallow embedding of [ade_s3_handler.py] and
    [visual_grounding_helper.py].  Python [str] values are byte strings
    ([string]); [pathlib.PurePosixPath] is modelled by its parsed form
    (root and list of segments); the S3 client, the parser client, the PDF
    renderer and the image library are collaborators passed in a record. *)

From Stdlib Require Import String Ascii List Bool Arith ZArith QArith Lia.
From Stdlib Require Import DecimalString.
Import ListNotations.
Close Scope Q_scope.
Open Scope string_scope.

(** ** Python string operations *)

Module PyStr.

(** [s.startswith(p)] *)
Definition startswith (s p : string) : bool := prefix p s.

(** [s[n:]] for [0 <= n] *)
Fixpoint drop (n : nat) (s : string) : string :=
  match n, s with
  | O, _ => s
  | S _, EmptyString => EmptyString
  | S k, String _ s' => drop k s'
  end.

(** [s[:n]] for [0 <= n] *)
Fixpoint take (n : nat) (s : string) : string :=
  match n, s with
  | O, _ => EmptyString
  | S _, EmptyString => EmptyString
  | S k, String c s' => String c (take k s')
  end.

(** [s.endswith(p)] *)
Definition endswith (s p : string) : bool :=
  (String.length p <=? String.length s)%nat && (drop (String.length s - String.length p) s =? p).

(** [s.split(sep)] for a one-character separator: never the empty list *)
Fixpoint split (sep : ascii) (s : string) : list string :=
  match s with
  | EmptyString => [EmptyString]
  | String c s' =>
      if Ascii.eqb c sep then EmptyString :: split sep s'
      else match split sep s' with
           | [] => [String c EmptyString]
           | h :: t => String c h :: t
           end
  end.

(** [sep.join(parts)] *)
Definition join (sep : string) (parts : list string) : string :=
  String.concat sep parts.

(** [s.rfind(c)] for a one-character needle; [None] stands for [-1] *)
Fixpoint rfind (c : ascii) (s : string) : option nat :=
  match s with
  | EmptyString => None
  | String a s' =>
      match rfind c s' with
      | Some i => Some (S i)
      | None => if Ascii.eqb a c then Some O else None
      end
  end.

(** [s.replace(old, new)] for a non-empty [old]: occurrences are replaced
    from left to right and do not overlap.  [skip] counts the characters
    of a matched occurrence still to be passed over. *)
Fixpoint replace_from (old new : string) (skip : nat) (s : string) : string :=
  match s with
  | EmptyString => EmptyString
  | String c s' =>
      match skip with
      | S k => replace_from old new k s'
      | O =>
          if prefix old s
          then new ++ replace_from old new (String.length old - 1) s'
          else String c (replace_from old new 0 s')
      end
  end.

Definition replace (old new s : string) : string := replace_from old new 0 s.

(** [old in s] for a non-empty [old] *)
Fixpoint contains (old s : string) : bool :=
  match s with
  | EmptyString => false
  | String _ s' => prefix old s || contains old s'
  end.

(** [c.lower()] on one byte: only [A-Z] change *)
Definition lower_ascii (c : ascii) : ascii :=
  let n := nat_of_ascii c in
  if ((65 <=? n) && (n <=? 90))%nat then ascii_of_nat (n + 32) else c.

(** [s.lower()] *)
Fixpoint lower (s : string) : string :=
  match s with
  | EmptyString => EmptyString
  | String c s' => String (lower_ascii c) (lower s')
  end.

(** a string is truthy when it is not empty *)
Definition truthy (s : string) : bool := negb (s =? "").

End PyStr.

(** ** [posixpath] and [pathlib.PurePosixPath]

    The parse, [str], [parts], [parent], [name], [stem] and the joining of
    several arguments follow CPython's [pathlib] and [posixpath]. *)

Module PosixPath.
Import PyStr.

Definition sep : ascii := "/"%char.

(** [os.path.basename(p)]: [p[p.rfind('/') + 1:]] *)
Definition basename (p : string) : string :=
  match rfind sep p with
  | Some i => drop (S i) p
  | None => p
  end.

(** one step of the loop of [posixpath.join] *)
Definition join_step (path b : string) : string :=
  if startswith b "/" then b
  else if (path =? "") || endswith path "/" then path ++ b
  else path ++ "/" ++ b.

(** [posixpath.join(a, *p)] *)
Definition join2 (a : string) (p : list string) : string :=
  fold_left join_step p a.

(** [posixpath.splitroot(p)] without the (always empty) drive *)
Definition splitroot (p : string) : string * string :=
  if negb (take 1 p =? "/") then ("", p)
  else if negb (take 1 (drop 1 p) =? "/") || (take 1 (drop 2 p) =? "/")
       then ("/", drop 1 p)
       else ("//", drop 2 p).

(** a parsed path: its root ([""], ["/"] or ["//"]) and its segments *)
Record PurePath : Type := mkPath { root : string; tail : list string }.

(** segments kept by the parser: [x and x != '.'] *)
Definition kept (x : string) : bool := negb (x =? "") && negb (x =? ".").

(** [PurePosixPath(p)] *)
Definition Path (p : string) : PurePath :=
  let '(r, rel) := splitroot p in
  {| root := r; tail := filter kept (split sep rel) |}.

(** [PurePosixPath] applied to several arguments: the arguments are joined, then parsed *)
Definition Path_of (args : list string) : PurePath :=
  match args with
  | [] => Path ""
  | a :: p => Path (join2 a p)
  end.

(** [str(path)] *)
Definition str (p : PurePath) : string :=
  let s := root p ++ join "/" (tail p) in
  if s =? "" then "." else s.

(** [path.parts] *)
Definition parts (p : PurePath) : list string :=
  if root p =? "" then tail p else root p :: tail p.

(** [path.parent] *)
Definition parent (p : PurePath) : PurePath :=
  match tail p with
  | [] => p
  | _ :: _ => {| root := root p; tail := removelast (tail p) |}
  end.

(** [path.name] *)
Definition name (p : PurePath) : string := last (tail p) "".

(** [path.stem], on the name: the name up to its last dot, when that dot
    is neither the first nor the last character *)
Definition stem_of (nm : string) : string :=
  match rfind "."%char nm with
  | Some i => if ((0 <? i) && (i <? String.length nm - 1))%nat then take i nm else nm
  | None => nm
  end.


Definition stem (p : PurePath) : string := stem_of (name p).

Fixpoint segments_eqb (a b : list string) : bool :=
  match a, b with
  | [], [] => true
  | x :: a', y :: b' => (x =? y) && segments_eqb a' b'
  | _, _ => false
  end.

(** [p == q] on pure POSIX paths *)
Definition eqb (p q : PurePath) : bool :=
  (root p =? root q) && segments_eqb (tail p) (tail q).

(** [p / key] *)
Definition div (p : PurePath) (key : string) : PurePath :=
  Path (join2 (str p) [key]).

End PosixPath.

(** ** Key derivation of [ade_handler] *)

Record Config : Type := mkConfig {
  INPUT_FOLDER : string;
  OUTPUT_FOLDER : string;
  FORCE_REPROCESS : bool;
  ADE_MODEL : string
}.

(** the defaults of the environment variables *)
Definition default_config : Config :=
  {| INPUT_FOLDER := "input/"; OUTPUT_FOLDER := "output/";
     FORCE_REPROCESS := false; ADE_MODEL := "dpt-2-latest" |}.

Module KeyMapper.
Import PyStr.

(** line 68: [key[len(INPUT_FOLDER):] if key.startswith(INPUT_FOLDER) else key] *)
Definition relative_path (cfg : Config) (key : string) : string :=
  if startswith key (INPUT_FOLDER cfg)
  then drop (String.length (INPUT_FOLDER cfg)) key else key.

(** line 72 *)
Definition subfolder (rel : string) : string :=
  let path_parts := PosixPath.Path rel in
  if negb (PosixPath.eqb (PosixPath.parent path_parts) (PosixPath.Path "."))
  then PosixPath.str (PosixPath.parent path_parts) else "".

(** line 73 *)
Definition filename (rel : string) : string :=
  PosixPath.name (PosixPath.Path rel).

(** line 77 *)
Definition filename_without_ext (rel : string) : string :=
  PosixPath.stem (PosixPath.Path (filename rel)).

(** lines 80-83 *)
Definition output_key_of (cfg : Config) (sub fwe : string) : string :=
  if truthy sub && negb (sub =? ".")
  then OUTPUT_FOLDER cfg ++ sub ++ "/" ++ fwe ++ ".md"
  else OUTPUT_FOLDER cfg ++ fwe ++ ".md".

(** lines 68-83: the markdown key of an input key *)
Definition output_key (cfg : Config) (key : string) : string :=
  let rel := relative_path cfg key in
  output_key_of cfg (subfolder rel) (filename_without_ext rel).

(** the names bound by lines 127-144; [grounding_folder] is bound in the
    first branch only *)
Record GroundingKeys : Type := mkGroundingKeys {
  grounding_folder : option string;
  grounding_key : string;
  chunks_folder : string
}.

(** lines 127-144 *)
Definition grounding_keys (output_key : string) : GroundingKeys :=
  let path_parts := PosixPath.parts (PosixPath.Path output_key) in
  if (2 <=? List.length path_parts)%nat then
    let base_folder := PosixPath.str (PosixPath.Path_of (firstn 2 path_parts)) in
    let relative_path :=
      if (2 <? List.length path_parts)%nat
      then PosixPath.Path_of (skipn 2 path_parts)
      else PosixPath.Path (last path_parts "") in
    let grounding_folder := base_folder ++ "_grounding" in
    let chunks_folder := base_folder ++ "_chunks/" in
    let grounding_filename :=
      replace ".md" "_grounding.json" (PosixPath.str relative_path) in
    let grounding_key :=
      PosixPath.str (PosixPath.div (PosixPath.Path grounding_folder) grounding_filename) in
    {| grounding_folder := Some grounding_folder;
       grounding_key := grounding_key;
       chunks_folder := chunks_folder |}
  else
    {| grounding_folder := None;
       grounding_key := replace ".md" "_grounding.json" output_key;
       chunks_folder := "output/chunks/" |}.

(** line 253: the key of one chunk file *)
Definition chunk_key (chunks_folder fwe chunk_id : string) : string :=
  chunks_folder ++ fwe ++ "_" ++ chunk_id ++ ".json".

(** the keys derived for one input key *)
Definition derive (cfg : Config) (key : string) : string * GroundingKeys :=
  let k := output_key cfg key in (k, grounding_keys k).

End KeyMapper.

(** ** Python values, exceptions and the handler monad *)

#[local] Set Warnings "-register-all".

(** The values carried by an S3 event, a parser response and the JSON
    documents the handler builds.  [VObj] is a plain object: it has a
    [__dict__] and exactly the listed data attributes.  A dict is an
    association list in insertion order; its keys are strings. *)
Inductive pyval : Type :=
| VNone
| VBool (b : bool)
| VInt (n : Z)
| VFloat (q : Q)
| VStr (s : string)
| VList (l : list pyval)
| VDict (d : list (string * pyval))
| VObj (attrs : list (string * pyval)).

Definition bytes : Type := list Byte.byte.

Inductive exn_class : Type :=
| ClientError | AttributeError | TypeError | OtherException.

(** a raised exception (a subclass of [Exception]) and its [str(e)] *)
Record exn : Type := mkExn { exn_cls : exn_class; exn_msg : string }.

Inductive result (A : Type) : Type :=
| Ok (a : A)
| Raise (e : exn).
Arguments Ok {A} a.
Arguments Raise {A} e.

Module Py.
Import PyStr.

Fixpoint assoc (k : string) (d : list (string * pyval)) : option pyval :=
  match d with
  | [] => None
  | (k', v) :: d' => if k' =? k then Some v else assoc k d'
  end.

(** [bool(v)] *)
Definition truthy (v : pyval) : bool :=
  match v with
  | VNone => false
  | VBool b => b
  | VInt n => negb (n =? 0)%Z
  | VFloat q => negb (Qeq_bool q 0%Q)
  | VStr s => negb (s =? "")
  | VList l => match l with [] => false | _ => true end
  | VDict d => match d with [] => false | _ => true end
  | VObj _ => true
  end.

(** [hasattr(v, '__dict__')] *)
Definition has_dict (v : pyval) : bool :=
  match v with VObj _ => true | _ => false end.

(** the data attribute [name] of [v], when [hasattr(v, name)] *)
Definition attr (v : pyval) (name : string) : option pyval :=
  match v with VObj attrs => assoc name attrs | _ => None end.

Definition hasattr (v : pyval) (name : string) : bool :=
  match attr v name with Some _ => true | None => false end.

(** [getattr(v, name, default)] *)
Definition getattr_default (v : pyval) (name : string) (default : pyval) : pyval :=
  match attr v name with Some x => x | None => default end.

(** [v.name] *)
Definition getattr (v : pyval) (name : string) : result pyval :=
  match attr v name with
  | Some x => Ok x
  | None => Raise (mkExn AttributeError ("object has no attribute '" ++ name ++ "'"))
  end.

(** [v.get(k, default)]: only a dict has the method *)
Definition dict_get (v : pyval) (k : string) (default : pyval) : result pyval :=
  match v with
  | VDict d => Ok (match assoc k d with Some x => x | None => default end)
  | _ => Raise (mkExn AttributeError "object has no attribute 'get'")
  end.

(** the elements [for x in v] visits *)
Definition iter (v : pyval) : result (list pyval) :=
  match v with
  | VList l => Ok l
  | VDict d => Ok (map (fun kv => VStr (fst kv)) d)
  | VStr s => Ok (map (fun c => VStr (String c "")) (list_ascii_of_string s))
  | _ => Raise (mkExn TypeError "object is not iterable")
  end.

(** [json.dumps] raises [TypeError] on a value that holds an object *)
Fixpoint json_serializable (v : pyval) : bool :=
  match v with
  | VNone | VBool _ | VInt _ | VFloat _ | VStr _ => true
  | VList l => forallb json_serializable l
  | VDict d => forallb (fun kv => json_serializable (snd kv)) d
  | VObj _ => false
  end.

End Py.

(** the [Body] of a [put_object] call *)
Inductive Body : Type :=
| Utf8Body (s : string)          (* [s.encode("utf-8")] *)
| JsonBody (v : pyval)           (* [json.dumps(v, indent=2).encode("utf-8")] *)
| RawBody (b : bytes).

(** one [put_object] call and whether the store accepted it *)
Record PutCall : Type := mkPut {
  put_bucket : string;
  put_key : string;
  put_body : option Body;
  put_content_type : option string;
  put_accepted : bool
}.

(** The collaborators.  [W] is their state (the bucket, the network, the
    parser service, the file system); every call may raise. *)
Record Collaborators (W : Type) : Type := mkCollaborators {
  s3_put_object : string -> string -> option Body -> option string -> W -> result unit * W;
  s3_head_object : string -> string -> W -> result unit * W;
  s3_get_object : string -> string -> W -> result bytes * W;
  s3_generate_presigned_url : string -> string -> W -> result string * W;
  write_bytes : string -> bytes -> W -> result unit * W;
  ade_parse : string -> string -> W -> result pyval * W;
  py_format : pyval -> string       (* [format(v)] of a value that is not a [str] *)
}.
Arguments s3_put_object {W}.
Arguments s3_head_object {W}.
Arguments s3_get_object {W}.
Arguments s3_generate_presigned_url {W}.
Arguments write_bytes {W}.
Arguments ade_parse {W}.
Arguments py_format {W}.

(** the state threaded through a run: the collaborators' state and the
    [put_object] calls made so far, oldest first *)
Record RunState (W : Type) : Type := mkRun { world : W; puts : list PutCall }.
Arguments mkRun {W}.
Arguments world {W}.
Arguments puts {W}.

Module Run.
Section Monad.
Context {W : Type}.

Definition M (A : Type) : Type := RunState W -> result A * RunState W.

Definition ret {A} (a : A) : M A := fun s => (Ok a, s).

Definition raise {A} (e : exn) : M A := fun s => (Raise e, s).

Definition bind {A B} (m : M A) (k : A -> M B) : M B :=
  fun s => match m s with
           | (Ok a, s') => k a s'
           | (Raise e, s') => (Raise e, s')
           end.

(** [try: m  except <classes accepted by handles>: h] *)
Definition try_except {A} (m : M A) (handles : exn -> bool) (h : exn -> M A) : M A :=
  fun s => match m s with
           | (Ok a, s') => (Ok a, s')
           | (Raise e, s') => if handles e then h e s' else (Raise e, s')
           end.

Definition lift {A} (r : result A) : M A := fun s => (r, s).

(** a call of a collaborator that is not logged *)
Definition call {A} (op : W -> result A * W) : M A :=
  fun s => let '(r, w') := op (world s) in (r, mkRun w' (puts s)).

(** [s3.put_object(...)], logged with its outcome *)
Definition put_object (C : Collaborators W) (bucket key : string)
    (body : option Body) (ctype : option string) : M unit :=
  fun s =>
    let '(r, w') := s3_put_object C bucket key body ctype (world s) in
    let ok := match r with Ok _ => true | Raise _ => false end in
    (r, mkRun w' (puts s ++ [mkPut bucket key body ctype ok])).

End Monad.
End Run.

Notation "x <- m ;; k" := (Run.bind m (fun x => k))
  (at level 61, m at next level, right associativity).
Notation "m ;;; k" := (Run.bind m (fun _ => k))
  (at level 61, right associativity).

(** [except Exception] *)
Definition any_exception (e : exn) : bool := true.

(** [except s3.exceptions.ClientError] *)
Definition is_client_error (e : exn) : bool :=
  match exn_cls e with ClientError => true | _ => false end.

(** ** [ade_handler] *)

(** one element of [event["Records"]]: the bucket name and the object key
    after [unquote_plus] *)
Record S3Record : Type := mkRecord { rec_bucket : string; rec_key : string }.

Module Handler.
Import PyStr Py Run.

Section WithCollaborators.
Context {W : Type}.
Variable C : Collaborators W.
Variable cfg : Config.

Local Abbreviation M := (@Run.M W).

(** [f"{v}"] *)
Definition format (v : pyval) : string :=
  match v with VStr s => s | _ => py_format C v end.

(** [json.dumps(v, indent=2).encode("utf-8")] *)
Definition json_dumps (v : pyval) : result Body :=
  if json_serializable v then Ok (JsonBody v)
  else Raise (mkExn TypeError "Object is not JSON serializable").

(** [v.encode("utf-8")] *)
Definition encode (v : pyval) : result Body :=
  match v with
  | VStr s => Ok (Utf8Body s)
  | _ => Raise (mkExn AttributeError "object has no attribute 'encode'")
  end.

Definition s3_uri (bucket key : string) : string :=
  "s3://" ++ bucket ++ "/" ++ key.

(** lines 18-24 *)
Definition ensure_s3_folders (bucket : string) : M unit :=
  fold_right
    (fun folder rest =>
       try_except (put_object C bucket folder None None) any_exception
                  (fun _ => ret tt) ;;;
       rest)
    (ret tt)
    [INPUT_FOLDER cfg; OUTPUT_FOLDER cfg].

(** lines 150-172: one chunk of the response as a dict *)
Definition chunk_to_dict (chunk : pyval) : pyval :=
  if has_dict chunk then
    let chunk_dict :=
      [("id", getattr_default chunk "id" (VStr ""));
       ("type", getattr_default chunk "type" (VStr ""));
       ("markdown", getattr_default chunk "markdown" (VStr ""))] in
    match attr chunk "grounding" with
    | Some grounding =>
        match attr grounding "page", attr grounding "box" with
        | Some page, Some box =>
            VDict (chunk_dict ++
              [("grounding",
                VDict [("page", page);
                       ("box", VDict [("left", getattr_default box "left" (VInt 0));
                                      ("top", getattr_default box "top" (VInt 0));
                                      ("right", getattr_default box "right" (VInt 0));
                                      ("bottom", getattr_default box "bottom" (VInt 0))])])])
        | _, _ => VDict chunk_dict
        end
    | None => VDict chunk_dict
    end
  else chunk.

(** lines 147-172 *)
Definition extract_chunks (response : pyval) : result (list pyval) :=
  match attr response "chunks" with
  | Some chunks =>
      match iter chunks with
      | Ok l => Ok (map chunk_to_dict l)
      | Raise e => Raise e
      end
  | None => Ok []
  end.

(** lines 177-186 *)
Definition split_to_dict (split : pyval) : pyval :=
  if has_dict split then
    VDict [("chunks", getattr_default split "chunks" (VList []));
           ("pages", getattr_default split "pages" (VList []));
           ("markdown", getattr_default split "markdown" (VStr ""));
           ("class_", getattr_default split "class_" (VStr ""))]
  else split.

(** lines 174-186 *)
Definition extract_splits (response : pyval) : result (list pyval) :=
  match attr response "splits" with
  | Some splits =>
      match iter splits with
      | Ok l => Ok (map split_to_dict l)
      | Raise e => Raise e
      end
  | None => Ok []
  end.

(** lines 188-202 *)
Definition extract_metadata (response : pyval) : pyval :=
  match attr response "metadata" with
  | Some metadata =>
      if has_dict metadata then
        VDict [("filename", getattr_default metadata "filename" (VStr ""));
               ("page_count", getattr_default metadata "page_count" (VInt 0));
               ("version", getattr_default metadata "version" (VStr ""));
               ("job_id", getattr_default metadata "job_id" (VStr ""));
               ("org_id", getattr_default metadata "org_id" (VStr ""));
               ("credit_usage", getattr_default metadata "credit_usage" (VInt 0));
               ("duration_ms", getattr_default metadata "duration_ms" (VInt 0))]
      else metadata
  | None => VDict []
  end.

(** what lines 228-253 do with one chunk: raise, [continue], or build
    the key and the JSON of its file *)
Inductive chunk_file : Type :=
| SkipChunk
| ChunkFile (chunk_key : string) (chunk_json : pyval).

(** lines 228-253 *)
Definition chunk_file_of (chunks_folder fwe : string) (chunk : pyval)
  : result chunk_file :=
  match dict_get chunk "id" (VStr "") with
  | Raise e => Raise e
  | Ok chunk_id =>
      if negb (truthy chunk_id) then Ok SkipChunk else
      match dict_get chunk "grounding" (VDict []) with
      | Raise e => Raise e
      | Ok grounding =>
          match dict_get grounding "box" (VDict []) with
          | Raise e => Raise e
          | Ok box =>
              match dict_get box "left" (VInt 0), dict_get box "top" (VInt 0),
                    dict_get box "right" (VInt 1), dict_get box "bottom" (VInt 1),
                    dict_get chunk "type" (VStr "text"),
                    dict_get chunk "markdown" (VStr ""),
                    dict_get grounding "page" (VInt 0) with
              | Ok l, Ok t, Ok r, Ok b, Ok ty, Ok md, Ok page =>
                  let bbox := VList [l; t; r; b] in
                  let chunk_json :=
                    VDict [("chunk_id", chunk_id);
                           ("chunk_type", ty);
                           ("text", md);
                           ("bbox", bbox);
                           ("page", page);
                           ("source_document", VStr fwe)] in
                  Ok (ChunkFile
                        (KeyMapper.chunk_key chunks_folder fwe (format chunk_id))
                        chunk_json)
              | Raise e, _, _, _, _, _, _ => Raise e
              | _, Raise e, _, _, _, _, _ => Raise e
              | _, _, Raise e, _, _, _, _ => Raise e
              | _, _, _, Raise e, _, _, _ => Raise e
              | _, _, _, _, Raise e, _, _ => Raise e
              | _, _, _, _, _, Raise e, _ => Raise e
              | _, _, _, _, _, _, Raise e => Raise e
              end
          end
      end
  end.

(** lines 227-260: the loop writing one file per chunk *)
Fixpoint write_chunk_files (bucket chunks_folder fwe : string)
    (chunks_data : list pyval) : M unit :=
  match chunks_data with
  | [] => ret tt
  | chunk :: rest =>
      f <- lift (chunk_file_of chunks_folder fwe chunk) ;;
      match f with
      | SkipChunk => write_chunk_files bucket chunks_folder fwe rest
      | ChunkFile chunk_key chunk_json =>
          body <- lift (json_dumps chunk_json) ;;
          put_object C bucket chunk_key (Some body) (Some "application/json") ;;;
          write_chunk_files bucket chunks_folder fwe rest
      end
  end.

(** lines 147-208: the grounding data built from a response *)
Definition grounding_record (response : pyval) : result pyval :=
  match extract_chunks response with
  | Raise e => Raise e
  | Ok chunks_data =>
      match extract_splits response with
      | Raise e => Raise e
      | Ok splits_data =>
          let metadata_data := extract_metadata response in
          Ok (VDict [("chunks", VList chunks_data);
                     ("splits", VList splits_data);
                     ("metadata", metadata_data)])
      end
  end.

(** [grounding_data['chunks']], a list by construction *)
Definition chunks_of (grounding_data : pyval) : list pyval :=
  match grounding_data with
  | VDict d => match assoc "chunks" d with Some (VList l) => l | _ => [] end
  | _ => []
  end.

(** lines 145-267: the grounding data of a response, inside its own
    [try] whose handler only prints *)
Definition save_grounding (bucket fwe : string) (keys : KeyMapper.GroundingKeys)
    (response : pyval) : M unit :=
  try_except
    (grounding_data <- lift (grounding_record response) ;;
     if truthy (VList (chunks_of grounding_data)) then
       body <- lift (json_dumps grounding_data) ;;
       put_object C bucket (KeyMapper.grounding_key keys) (Some body)
                  (Some "application/json") ;;;
       write_chunk_files bucket (KeyMapper.chunks_folder keys) fwe
                         (chunks_of grounding_data)
     else ret tt)
    any_exception
    (fun _ => ret tt).

(** lines 102-267: fetch, parse and write one document *)
Definition process_document (bucket key filename fwe output_key : string) : M unit :=
  file_bytes <- call (s3_get_object C bucket key) ;;
  let tmp_path := PosixPath.str (PosixPath.div (PosixPath.Path "/tmp") filename) in
  call (write_bytes C tmp_path file_bytes) ;;;
  response <- call (ade_parse C tmp_path (ADE_MODEL cfg)) ;;
  markdown <- lift (getattr response "markdown") ;;
  body <- lift (encode markdown) ;;
  put_object C bucket output_key (Some body) (Some "text/markdown") ;;;
  save_grounding bucket fwe (KeyMapper.grounding_keys output_key) response.

Definition skipped_result (bucket key output_key : string) : pyval :=
  VDict [("source", VStr (s3_uri bucket key));
         ("output", VStr (s3_uri bucket output_key));
         ("status", VStr "skipped");
         ("reason", VStr "already_processed")].

Definition success_result (bucket key output_key : string) : pyval :=
  VDict [("source", VStr (s3_uri bucket key));
         ("output", VStr (s3_uri bucket output_key));
         ("status", VStr "success")].

Definition failed_result (bucket key : string) (e : exn) : pyval :=
  VDict [("source", VStr (s3_uri bucket key));
         ("error", VStr (exn_msg e));
         ("status", VStr "failed")].

(** lines 86-99: [true] when the output exists and the record is to be
    skipped; an exception other than [ClientError] is not caught *)
Definition already_processed (bucket output_key : string) : M bool :=
  if negb (FORCE_REPROCESS cfg) then
    try_except
      (call (s3_head_object C bucket output_key) ;;; ret true)
      is_client_error
      (fun _ => ret false)
  else ret false.

(** lines 45-283: the body of the loop, returning [results] after it *)
Definition handle_record (record : S3Record) (results : list pyval)
  : M (list pyval) :=
  let bucket := rec_bucket record in
  let key := rec_key record in
  if endswith key "/" then ret results else
  let doc_id := PosixPath.basename key in
  if negb (PyStr.truthy doc_id) then ret results else
  ensure_s3_folders bucket ;;;
  if negb (startswith key (INPUT_FOLDER cfg)) then ret results else
  let relative_path := KeyMapper.relative_path cfg key in
  let subfolder := KeyMapper.subfolder relative_path in
  let filename := KeyMapper.filename relative_path in
  let filename_without_ext := KeyMapper.filename_without_ext relative_path in
  let output_key := KeyMapper.output_key_of cfg subfolder filename_without_ext in
  skip <- already_processed bucket output_key ;;
  if (skip : bool) then ret (results ++ [skipped_result bucket key output_key])%list else
  try_except
    (process_document bucket key filename filename_without_ext output_key ;;;
     ret (results ++ [success_result bucket key output_key])%list)
    any_exception
    (fun e => ret (results ++ [failed_result bucket key e])%list).

(** lines 44-283: the loop over the records *)
Fixpoint handle_records (records : list S3Record) (results : list pyval)
  : M (list pyval) :=
  match records with
  | [] => ret results
  | record :: rest =>
      results' <- handle_record record results ;;
      handle_records rest results'
  end.

(** lines 42-286 *)
Definition ade_handler (records : list S3Record) : M pyval :=
  results <- handle_records records [] ;;
  ret (VDict [("status", VStr "ok"); ("results", VList results)]).

End WithCollaborators.
End Handler.

(** ** Box geometry of [extract_chunk_image] *)

(** The arithmetic of Python floats that the geometry uses.  [to_int] is
    [int(x)], truncation toward zero; [of_int] is the conversion of an
    [int] operand of a mixed operation. *)
Class FloatOps (F : Type) : Type := {
  fmul : F -> F -> F;
  fdiv : F -> F -> F;
  of_int : Z -> F;
  to_int : F -> Z;
  fle : F -> F -> Prop;
  flt : F -> F -> Prop
}.

(** Order laws of the arithmetic.  Exact rational arithmetic satisfies
    them, and so does round-to-nearest binary floating point on finite
    values (rounding is monotone, [1 * c] and [0] are exact, and the error
    of [pw * (w / pw)] stays below one pixel for [w < 2^52]). *)
Class FloatLaws (F : Type) `{FloatOps F} : Prop := {
  fmul_le_mono_r : forall a b c, fle (of_int 0) c -> fle a b -> fle (fmul a c) (fmul b c);
  fmul_nonneg : forall a c, fle (of_int 0) a -> fle (of_int 0) c -> fle (of_int 0) (fmul a c);
  fmul_le_one : forall a c, fle a (of_int 1) -> fle (of_int 0) c -> fle (fmul a c) c;
  fdiv_nonneg : forall a b, fle (of_int 0) a -> flt (of_int 0) b -> fle (of_int 0) (fdiv a b);
  flt_le : forall a b, flt a b -> fle a b;
  of_int_nonneg : forall n, (0 <= n)%Z -> fle (of_int 0) (of_int n);
  to_int_mono : forall a b, fle a b -> (to_int a <= to_int b)%Z;
  to_int_nonneg : forall a, fle (of_int 0) a -> (0 <= to_int a)%Z;
  to_int_scale_back : forall pw n, flt (of_int 0) pw -> (0 <= n)%Z ->
      (to_int (fmul pw (fdiv (of_int n) pw)) <= n)%Z
}.

Module BoxGeometry.

Definition PixelBox : Type := (Z * Z * Z * Z)%type.

Section Geometry.
Context {F : Type} `{FloatOps F}.

(** lines 122-138, for a box of four components *)
Definition crop_box (norm_x0 norm_y0 norm_x1 norm_y1 : F)
    (page_width page_height : F) (img_width img_height : Z) (padding : Z)
  : PixelBox :=
  let pdf_x0 := fmul norm_x0 page_width in
  let pdf_y0 := fmul norm_y0 page_height in
  let pdf_x1 := fmul norm_x1 page_width in
  let pdf_y1 := fmul norm_y1 page_height in
  let scale_x := fdiv (of_int img_width) page_width in
  let scale_y := fdiv (of_int img_height) page_height in
  let crop_x0 := Z.max 0 (to_int (fmul pdf_x0 scale_x) - padding) in
  let crop_y0 := Z.max 0 (to_int (fmul pdf_y0 scale_y) - padding) in
  let crop_x1 := Z.min img_width (to_int (fmul pdf_x1 scale_x) + padding) in
  let crop_y1 := Z.min img_height (to_int (fmul pdf_y1 scale_y) + padding) in
  (crop_x0, crop_y0, crop_x1, crop_y1).

(** what lines 115-138 decide: the whole page, or a crop *)
Inductive crop_plan : Type :=
| FullPage
| CropTo (box : PixelBox).

(** line 115: [not bbox or len(bbox) != 4] *)
Definition use_full_page (bbox : list F) : bool :=
  match bbox with [] => true | _ => false end
  || negb (List.length bbox =? 4)%nat.

(** lines 115-138; the unpacking of line 122 raises [ValueError] on a
    list that has not four elements *)
Definition plan_crop (bbox : list F) (page_width page_height : F)
    (img_width img_height : Z) (padding : Z) : result crop_plan :=
  if use_full_page bbox then Ok FullPage
  else match bbox with
       | [norm_x0; norm_y0; norm_x1; norm_y1] =>
           Ok (CropTo (crop_box norm_x0 norm_y0 norm_x1 norm_y1
                                page_width page_height img_width img_height padding))
       | _ => Raise (mkExn OtherException "ValueError: not enough values to unpack")
       end.

End Geometry.

(** exact rational arithmetic *)
#[export] Instance Q_ops : FloatOps Q := {
  fmul := Qmult;
  fdiv := Qdiv;
  of_int := inject_Z;
  to_int := fun q => Z.quot (Qnum q) (Zpos (Qden q));
  fle := Qle;
  flt := Qlt
}.

End BoxGeometry.

(** ** [visual_grounding_helper.py] *)

(** PyMuPDF and Pillow, over an abstract type of images *)
Record Imaging (F Image : Type) : Type := mkImaging {
  DYNAMIC_CROPPING_ENABLED : bool;
  fitz_render : bytes -> Z -> Z -> result (Image * F * F);
  image_width : Image -> Z;
  image_height : Image -> Z;
  image_crop : Image -> BoxGeometry.PixelBox -> result Image;
  draw_rectangle : Image -> BoxGeometry.PixelBox -> string -> Z -> result Image;
  save_png : Image -> result bytes
}.
Arguments DYNAMIC_CROPPING_ENABLED {F Image}.
Arguments fitz_render {F Image}.
Arguments image_width {F Image}.
Arguments image_height {F Image}.
Arguments image_crop {F Image}.
Arguments draw_rectangle {F Image}.
Arguments save_png {F Image}.

Module VisualGrounding.
Import PyStr Run BoxGeometry.

(** lines 226-238 *)
Definition CHUNK_TYPE_COLORS : list (string * (Z * Z * Z)) :=
  [("text", (40, 167, 69));
   ("table", (0, 123, 255));
   ("marginalia", (111, 66, 193));
   ("figure", (255, 0, 255));
   ("logo", (144, 238, 144));
   ("card", (255, 165, 0));
   ("attestation", (0, 255, 255));
   ("scancode", (255, 193, 7));
   ("form", (220, 20, 60));
   ("tablecell", (173, 216, 230));
   ("default", (128, 128, 128))]%Z.

Fixpoint lookup {A} (k : string) (d : list (string * A)) : option A :=
  match d with
  | [] => None
  | (k', v) :: d' => if k' =? k then Some v else lookup k d'
  end.

(** [d[k]] *)
Definition subscript {A} (d : list (string * A)) (k : string) : result A :=
  match lookup k d with
  | Some v => Ok v
  | None => Raise (mkExn OtherException ("KeyError: '" ++ k ++ "'"))
  end.

(** line 240: the default is evaluated before the lookup *)
Definition rgb_color (chunk_type : string) : result (Z * Z * Z) :=
  match subscript CHUNK_TYPE_COLORS "default" with
  | Raise e => Raise e
  | Ok default =>
      Ok (match lookup (lower chunk_type) CHUNK_TYPE_COLORS with
          | Some c => c
          | None => default
          end)
  end.

(** one channel of an RGB triple *)
Definition channel (n : Z) : Prop := (0 <= n <= 255)%Z.

(** line 91 *)
Definition image_key (source_document chunk_id : string) : string :=
  "output/medical_chunk_images/" ++ source_document ++ "_" ++ chunk_id ++ ".png".

Section WithCollaborators.
Context {W F Image : Type} `{FloatOps F}.
Variable C : Collaborators W.
Variable I : Imaging F Image.

(** lines 28-54, at the default [dpi] *)
Definition render_pdf_page (pdf_bytes : bytes) (page_num : Z)
  : option (Image * F * F) :=
  if negb (DYNAMIC_CROPPING_ENABLED I) then None
  else match fitz_render I pdf_bytes page_num 150 with
       | Ok r => Some r
       | Raise _ => None
       end.

(** lines 115-156: the PNG bytes to upload *)
Definition chunk_image_data (img : Image) (page_width page_height : F)
    (bbox : list F) (highlight : bool) (padding : Z) : result bytes :=
  match plan_crop bbox page_width page_height
                  (image_width I img) (image_height I img) padding with
  | Raise e => Raise e
  | Ok FullPage => save_png I img
  | Ok (CropTo box) =>
      match image_crop I img box with
      | Raise e => Raise e
      | Ok chunk_img =>
          if highlight then
            match draw_rectangle I chunk_img
                    (padding, padding,
                     image_width I chunk_img - padding - 1,
                     image_height I chunk_img - padding - 1)%Z
                    "red" 3 with
            | Raise e => Raise e
            | Ok drawn => save_png I drawn
            end
          else save_png I chunk_img
      end
  end.

(** lines 57-177 *)
Definition extract_chunk_image (bucket source_pdf_key : string)
    (bbox : list F) (page_num : Z) (chunk_id source_document : string)
    (highlight : bool) (padding : Z) : @Run.M W (option string) :=
  if negb (DYNAMIC_CROPPING_ENABLED I) then ret None else
  try_except
    (let image_key := image_key source_document chunk_id in
     existing <-
       try_except
         (call (s3_head_object C bucket image_key) ;;;
          presigned_url <- call (s3_generate_presigned_url C bucket image_key) ;;
          ret (Some presigned_url))
         any_exception
         (fun _ => ret None) ;;
     match existing with
     | Some presigned_url => ret (Some presigned_url)
     | None =>
         pdf_bytes <- call (s3_get_object C bucket source_pdf_key) ;;
         match render_pdf_page pdf_bytes page_num with
         | None => ret None
         | Some (img, page_width, page_height) =>
             image_data <-
               lift (chunk_image_data img page_width page_height bbox highlight padding) ;;
             put_object C bucket image_key (Some (RawBody image_data))
                        (Some "image/png") ;;;
             presigned_url <- call (s3_generate_presigned_url C bucket image_key) ;;
             ret (Some presigned_url)
         end
     end)
    any_exception
    (fun _ => ret None).

End WithCollaborators.
End VisualGrounding.


(** ** Well-formed path segments, for the statements below *)

Module Segments.
Import PyStr.

(** a path segment as [pathlib] keeps it: not empty, not ["."], and
    without a separator *)
Definition segment (x : string) : bool :=
  PosixPath.kept x && negb (contains "/" x).

(** an output folder of one segment followed by the separator, as the
    default ["output/"] *)
Definition one_segment_folder (folder seg : string) : Prop :=
  folder = seg ++ "/" /\ segment seg = true.

(** a path of well-formed segments *)
Definition segments (l : list string) : Prop :=
  Forall (fun x => segment x = true) l.

(** whether the last character of [s] is [c], by recursion on [s] *)
Fixpoint last_is (c : ascii) (s : string) : bool :=
  match s with
  | EmptyString => false
  | String a EmptyString => Ascii.eqb a c
  | String _ s' => last_is c s'
  end.

End Segments.


(** ** An in-memory bucket, for the examples

    The bucket is the list of the objects put so far, newest first;
    [head_object] and [get_object] raise [ClientError] on a missing key;
    the parser answers by a table from the file written under [/tmp]. *)

Module InMemory.

Definition World : Type := list (string * option Body).

Fixpoint find (key : string) (w : World) : option (option Body) :=
  match w with
  | [] => None
  | (k, b) :: w' => if k =? key then Some b else find key w'
  end.

Definition not_found : exn := mkExn ClientError "An error occurred (404): Not Found".

Definition collaborators (parser : string -> result pyval) : Collaborators World :=
  {| s3_put_object := fun _ key body _ w => (Ok tt, (key, body) :: w);
     s3_head_object := fun _ key w =>
       (match find key w with Some _ => Ok tt | None => Raise not_found end, w);
     s3_get_object := fun _ key w =>
       (match find key w with
        | Some (Some (RawBody b)) => Ok b
        | Some _ => Ok []
        | None => Raise not_found
        end, w);
     s3_generate_presigned_url := fun bucket key w =>
       (Ok ("https://" ++ bucket ++ ".s3.amazonaws.com/" ++ key), w);
     write_bytes := fun _ _ w => (Ok tt, w);
     ade_parse := fun path _ w => (parser path, w);
     py_format := fun _ => "" |}.

(** a store whose existence check times out: the exception is not a
    [ClientError] *)
Definition timing_out (parser : string -> result pyval) : Collaborators World :=
  let C := collaborators parser in
  {| s3_put_object := s3_put_object C;
     s3_head_object := fun _ _ w =>
       (Raise (mkExn OtherException "Connect timeout on endpoint URL"), w);
     s3_get_object := s3_get_object C;
     s3_generate_presigned_url := s3_generate_presigned_url C;
     write_bytes := write_bytes C;
     ade_parse := ade_parse C;
     py_format := py_format C |}.

Definition start (w : World) : RunState World := mkRun w [].

End InMemory.


(** ** A stand-in for the renderer and the image library, for the examples

    An image is its size; a page of 612 x 792 points renders at 1275 x
    1650 pixels; cropping and drawing refuse a box whose right or lower
    edge lies before its left or upper edge, as Pillow does. *)

Module InMemoryImaging.

Definition Image : Type := (Z * Z)%type.

Definition inverted (box : BoxGeometry.PixelBox) : bool :=
  let '(x0, y0, x1, y1) := box in ((x1 <? x0) || (y1 <? y0))%Z.

Definition imaging : Imaging Q Image :=
  {| DYNAMIC_CROPPING_ENABLED := true;
     fitz_render := fun _ _ _ => Ok ((1275, 1650)%Z, 612%Q, 792%Q);
     image_width := fun img => fst img;
     image_height := fun img => snd img;
     image_crop := fun _ box =>
       if inverted box
       then Raise (mkExn OtherException "Coordinate 'right' is less than 'left'")
       else let '(x0, y0, x1, y1) := box in Ok (x1 - x0, y1 - y0)%Z;
     draw_rectangle := fun img box _ _ =>
       if inverted box
       then Raise (mkExn OtherException "x1 must be greater than or equal to x0")
       else Ok img;
     save_png := fun _ => Ok [] |}.

End InMemoryImaging.


(** ** Result records and document keys, for the statements below *)

Module Results.
Import PyStr.

(** the records for which the loop reaches the existence check: the key
    does not end in ["/"], has a file name, and lies under the input
    folder (lines 49, 56 and 63) *)
Definition is_document_key (cfg : Config) (key : string) : bool :=
  negb (endswith key "/")
  && PyStr.truthy (PosixPath.basename key)
  && startswith key (INPUT_FOLDER cfg).

Definition field (r : pyval) (k : string) : option pyval :=
  match r with VDict d => Py.assoc k d | _ => None end.

(** a per-document result record: its source, and a status that is
    ["success"], ["skipped"] with a reason, or ["failed"] with an error *)
Definition result_record_for (bucket key : string) (r : pyval) : Prop :=
  field r "source" = Some (VStr ("s3://" ++ bucket ++ "/" ++ key)) /\
  (field r "status" = Some (VStr "success")
   \/ (field r "status" = Some (VStr "skipped")
       /\ exists reason, field r "reason" = Some (VStr reason))
   \/ (field r "status" = Some (VStr "failed")
       /\ exists error, field r "error" = Some (VStr error))).

(** [chunk.get('id', '')] of a chunk dict *)
Definition id_of (d : list (string * pyval)) : pyval :=
  match Py.assoc "id" d with Some x => x | None => VStr "" end.

(** the value [ade_handler] returns *)
Definition handler_response (results : list pyval) : pyval :=
  VDict [("status", VStr "ok"); ("results", VList results)].

(** [head_object] raises nothing but [ClientError] *)
Definition head_raises_client_errors_only {W : Type} (C : Collaborators W) : Prop :=
  forall bucket key w e w',
    s3_head_object C bucket key w = (Raise e, w') -> is_client_error e = true.

End Results.


(** ** Variants of the collaborators, for the statements below *)

Module Variants.

(** the same collaborators with another existence check *)
Definition with_head_object {W : Type} (C : Collaborators W)
    (head : string -> string -> W -> result unit * W) : Collaborators W :=
  {| s3_put_object := s3_put_object C;
     s3_head_object := head;
     s3_get_object := s3_get_object C;
     s3_generate_presigned_url := s3_generate_presigned_url C;
     write_bytes := write_bytes C;
     ade_parse := ade_parse C;
     py_format := py_format C |}.

(** an in-memory store that accepts the markdown and folder objects and
    refuses every JSON object *)
Definition json_refusing (parser : string -> result pyval)
  : Collaborators InMemory.World :=
  let C := InMemory.collaborators parser in
  {| s3_put_object := fun bucket key body ctype w =>
       match ctype with
       | Some "application/json" =>
           (Raise (mkExn ClientError "An error occurred (AccessDenied)"), w)
       | _ => s3_put_object C bucket key body ctype w
       end;
     s3_head_object := s3_head_object C;
     s3_get_object := s3_get_object C;
     s3_generate_presigned_url := s3_generate_presigned_url C;
     write_bytes := write_bytes C;
     ade_parse := ade_parse C;
     py_format := py_format C |}.

(** the status of a result record is not ["skipped"] *)
Definition not_skipped (r : pyval) : Prop :=
  Results.field r "status" = Some (VStr "success")
  \/ Results.field r "status" = Some (VStr "failed").

End Variants.


(** ** The writes of one document, for the statements below *)

Module Writes.
Import PyStr.

(** a [put_object] call that belongs to a document: its markdown object,
    its grounding JSON, or a chunk file named after the document in its
    chunks folder *)
Definition document_put (bucket output_key fwe : string)
    (keys : KeyMapper.GroundingKeys) (p : PutCall) : Prop :=
  put_bucket p = bucket /\
  ((put_key p = output_key /\ put_content_type p = Some "text/markdown")
   \/ (put_key p = KeyMapper.grounding_key keys
       /\ put_content_type p = Some "application/json")
   \/ (startswith (put_key p) (KeyMapper.chunks_folder keys ++ fwe ++ "_") = true
       /\ put_content_type p = Some "application/json")).

End Writes.


(** ** The highlight of a cropped chunk, for the statements below *)

Module Highlight.
Import BoxGeometry.

(** lines 125-135: a normalized coordinate as a pixel of the rendered page,
    before padding and clamping *)
Definition pixel {F : Type} `{FloatOps F} (norm page : F) (size : Z) : Z :=
  to_int (fmul (fmul norm page) (fdiv (of_int size) page)).

(** line 147: the rectangle drawn on a crop of the given size *)
Definition highlight_rectangle (padding width height : Z) : PixelBox :=
  (padding, padding, width - padding - 1, height - padding - 1)%Z.

(** a rectangle of the crop, in the coordinates of the page *)
Definition on_page (crop rectangle : PixelBox) : PixelBox :=
  let '(x0, y0, _, _) := crop in
  let '(l, t, r, b) := rectangle in
  (x0 + l, y0 + t, x0 + r, y0 + b)%Z.

End Highlight.


(** ** Annotated page images of [visual_grounding_helper.py] *)

(** a comparison the code branches on: [x < y] on floats *)
Class FloatTests (F : Type) : Type := {
  fltb : F -> F -> bool
}.

(** a test that succeeds holds: on a NaN every test fails *)
Class FloatTestLaws (F : Type) `{FloatOps F} `{FloatTests F} : Prop := {
  fltb_flt : forall a b, fltb a b = true -> flt a b
}.

(** PyMuPDF and Pillow as [create_annotated_image_from_pdf] uses them.
    An [Image] is the content of an image object. *)
Record Annotator (Doc Page Image : Type) : Type := mkAnnotator {
  (* [fitz.open(stream=pdf_bytes, filetype="pdf")] *)
  fitz_open : bytes -> result Doc;
  (* [pdf_document[i]] *)
  load_page : Doc -> Z -> result Page;
  (* [page.get_pixmap(matrix=fitz.Matrix(dpi/72.0, dpi/72.0)).tobytes("png")] *)
  page_png : Page -> Z -> result bytes;
  (* [Image.open(io.BytesIO(img_data))], loaded by [ImageDraw.Draw(img)] *)
  image_open : bytes -> result Image;
  (* [img.size] *)
  image_size : Image -> Z * Z;
  (* [draw.rectangle(box, outline=color, width=w)]: the content of the
     image that [draw] was created on, after the call *)
  outline_rectangle : Image -> BoxGeometry.PixelBox -> Z * Z * Z -> Z -> result Image;
  (* [Image.new('RGBA', size, (0, 0, 0, 0))] with [box] filled *)
  filled_overlay : Z * Z -> BoxGeometry.PixelBox -> Z * Z * Z * Z -> result Image;
  (* [Image.alpha_composite(img.convert('RGBA'), overlay).convert('RGB')] *)
  alpha_composite : Image -> Image -> result Image;
  (* [img.save(img_bytes, format='PNG')], then [img_bytes.getvalue()] *)
  to_png : Image -> result bytes;
  (* [pdf_document.close()] *)
  close_document : Doc -> result unit
}.
Arguments fitz_open {Doc Page Image}.
Arguments load_page {Doc Page Image}.
Arguments page_png {Doc Page Image}.
Arguments image_open {Doc Page Image}.
Arguments image_size {Doc Page Image}.
Arguments outline_rectangle {Doc Page Image}.
Arguments filled_overlay {Doc Page Image}.
Arguments alpha_composite {Doc Page Image}.
Arguments to_png {Doc Page Image}.
Arguments close_document {Doc Page Image}.

Module Annotation.
Import PyStr Run BoxGeometry VisualGrounding.

(** a number of a box dict: an [int] or a [float] *)
Inductive number (F : Type) : Type :=
| NInt (n : Z)
| NFloat (x : F).
Arguments NInt {F}.
Arguments NFloat {F}.

(** a box: a dict from names to numbers *)
Definition Box (F : Type) : Type := list (string * number F).

(** a grounding dict: its ['page'] and its ['box'], when present *)
Record GroundingInfo (F : Type) : Type := mkGrounding {
  page : option Z;
  box : option (Box F)
}.
Arguments mkGrounding {F}.
Arguments page {F}.
Arguments box {F}.

(** the image that [draw] was created on, and the image that [img] names
    once line 282 has bound the name to a new image *)
Record Drawing (Image : Type) : Type := mkDrawing {
  canvas : Image;
  rebound : option Image
}.
Arguments mkDrawing {Image}.
Arguments canvas {Image}.
Arguments rebound {Image}.

(** the image that [img] names *)
Definition img_of {Image : Type} (d : Drawing Image) : Image :=
  match rebound d with
  | Some img => img
  | None => canvas d
  end.

Definition quote : ascii := "034"%char.

(** [s.lstrip(c)] for one character *)
Fixpoint lstrip (c : ascii) (s : string) : string :=
  match s with
  | EmptyString => EmptyString
  | String a s' => if Ascii.eqb a c then lstrip c s' else s
  end.

(** [s.rstrip(c)] for one character *)
Fixpoint rstrip (c : ascii) (s : string) : string :=
  match s with
  | EmptyString => EmptyString
  | String a s' =>
      match rstrip c s' with
      | EmptyString => if Ascii.eqb a c then EmptyString else String a EmptyString
      | r => String a r
      end
  end.

(** [s.strip(c)] for one character *)
Definition strip (c : ascii) (s : string) : string := rstrip c (lstrip c s).

(** [str(n)] of an [int] *)
Definition decimal (n : Z) : string := NilZero.string_of_int (Z.to_int n).

(** line 338 *)
Definition clean_chunk_id (chunk_id : string) : string :=
  strip quote (replace "></a>" "" (replace "<a id=" "" chunk_id)).

(** line 339 *)
Definition annotation_key (source_pdf_key : string) (page_num : Z)
    (chunk_id : string) : string :=
  "annotations/" ++ PosixPath.stem (PosixPath.Path source_pdf_key)
  ++ "_p" ++ decimal page_num ++ "_" ++ clean_chunk_id chunk_id ++ ".png".

(** line 392: the two quote characters of the pattern *)
Definition is_quote (c : ascii) : bool :=
  Ascii.eqb c quote || Ascii.eqb c "'"%char.

(** the rest of the pattern of line 392 after the opening quote: the
    shortest run of characters other than a newline that a quote and
    [></a>] follow *)
Fixpoint match_group (s : string) : option string :=
  match s with
  | EmptyString => None
  | String c s' =>
      if is_quote c && prefix "></a>" s' then Some EmptyString
      else if Ascii.eqb c "010"%char then None
      else match match_group s' with
           | Some g => Some (String c g)
           | None => None
           end
  end.

(** the match of the pattern at the start of [s] *)
Definition match_here (s : string) : option string :=
  if prefix "<a id=" s then
    match drop 6 s with
    | String q rest => if is_quote q then match_group rest else None
    | EmptyString => None
    end
  else None.

(** lines 379-398: [re.search] tries the positions from left to right *)
Fixpoint extract_chunk_id_from_markdown (markdown_text : string) : option string :=
  match match_here markdown_text with
  | Some g => Some g
  | None =>
      match markdown_text with
      | EmptyString => None
      | String _ s' => extract_chunk_id_from_markdown s'
      end
  end.

Section Clamp.
Context {F : Type} `{FloatOps F} `{FloatTests F}.

(** [float(v)] *)
Definition float (v : number F) : F :=
  match v with
  | NInt n => of_int n
  | NFloat x => x
  end.

(** [bbox.get(k, default)] *)
Definition get (bbox : Box F) (k : string) (default : number F) : number F :=
  match lookup k bbox with
  | Some v => v
  | None => default
  end.

(** [min(1, x)] for a float [x]: the second argument is taken when it is
    less than the first *)
Definition min_one (x : F) : number F :=
  if fltb x (of_int 1) then NFloat x else NInt 1.

(** [max(0, m)]: the second argument is taken when it is greater than the
    first *)
Definition max_zero (m : number F) : number F :=
  match m with
  | NFloat x => if fltb (of_int 0) x then NFloat x else NInt 0
  | NInt n => if (0 <? n)%Z then NInt n else NInt 0
  end.

(** lines 253-256: [max(0, min(1, x))] *)
Definition clamp (x : F) : number F := max_zero (min_one x).

(** lines 259-262: [int(c * size)] *)
Definition to_pixel (c : number F) (size : Z) : Z :=
  match c with
  | NInt n => (n * size)%Z
  | NFloat x => to_int (fmul x (of_int size))
  end.

(** line 244: [bbox and 'left' in bbox] *)
Definition drawable (bbox : Box F) : bool :=
  match bbox with [] => false | _ :: _ => true end
  && match lookup "left" bbox with Some _ => true | None => false end.

(** lines 247-262 *)
Definition annotation_box (bbox : Box F) (img_width img_height : Z) : PixelBox :=
  let left := float (get bbox "left" (NInt 0)) in
  let top := float (get bbox "top" (NInt 0)) in
  let right := float (get bbox "right" (NInt 1)) in
  let bottom := float (get bbox "bottom" (NInt 1)) in
  let left := clamp left in
  let top := clamp top in
  let right := clamp right in
  let bottom := clamp bottom in
  let x1 := to_pixel left img_width in
  let y1 := to_pixel top img_height in
  let x2 := to_pixel right img_width in
  let y2 := to_pixel bottom img_height in
  (x1, y1, x2, y2).

End Clamp.

Section WithCollaborators.
Context {W F Doc Page Image : Type} `{FloatOps F} `{FloatTests F}.
Variable C : Collaborators W.
Variable A : Annotator Doc Page Image.

(** lines 244-282, one turn of the loop: the outline goes to the image
    that [draw] was created on (line 220), the overlay is composed with
    the image that [img] names, and [img] is bound to the result *)
Definition draw_box (img_width img_height : Z) (rgb_color : Z * Z * Z)
    (bbox : Box F) (d : Drawing Image) : result (Drawing Image) :=
  if drawable bbox then
    let rectangle := annotation_box bbox img_width img_height in
    match outline_rectangle A (canvas d) rectangle rgb_color 3 with
    | Raise e => Raise e
    | Ok outlined =>
        let img := img_of (mkDrawing outlined (rebound d)) in
        let '(r, g, b) := rgb_color in
        let fill_color := (r, g, b, 30%Z) in
        match filled_overlay A (image_size A img) rectangle fill_color with
        | Raise e => Raise e
        | Ok overlay =>
            match alpha_composite A img overlay with
            | Raise e => Raise e
            | Ok composed => Ok (mkDrawing outlined (Some composed))
            end
        end
    end
  else Ok d.

(** lines 243-282 *)
Fixpoint draw_boxes (img_width img_height : Z) (rgb_color : Z * Z * Z)
    (bounding_boxes : list (Box F)) (d : Drawing Image) : result (Drawing Image) :=
  match bounding_boxes with
  | [] => Ok d
  | bbox :: rest =>
      match draw_box img_width img_height rgb_color bbox d with
      | Raise e => Raise e
      | Ok d' => draw_boxes img_width img_height rgb_color rest d'
      end
  end.

(** lines 272-282 alone: the overlays of the boxes composed onto [img]
    one after the other, no outline being drawn *)
Fixpoint overlays_only (img_width img_height : Z) (rgb_color : Z * Z * Z)
    (bounding_boxes : list (Box F)) (img : Image) : result Image :=
  match bounding_boxes with
  | [] => Ok img
  | bbox :: rest =>
      if drawable bbox then
        let rectangle := annotation_box bbox img_width img_height in
        let '(r, g, b) := rgb_color in
        let fill_color := (r, g, b, 30%Z) in
        match filled_overlay A (image_size A img) rectangle fill_color with
        | Raise e => Raise e
        | Ok overlay =>
            match alpha_composite A img overlay with
            | Raise e => Raise e
            | Ok composed => overlays_only img_width img_height rgb_color rest composed
            end
        end
      else overlays_only img_width img_height rgb_color rest img
  end.

(** line 211 *)
Definition page_index (page_num : Z) : Z :=
  if (0 <? page_num)%Z then (page_num - 1)%Z else page_num.

(** lines 211-282: the image to save *)
Definition annotated_image (pdf_document : Doc) (page_num : Z)
    (bounding_boxes : list (Box F)) (dpi : Z) (chunk_type : string)
  : result Image :=
  match load_page A pdf_document (page_index page_num) with
  | Raise e => Raise e
  | Ok page =>
      match page_png A page dpi with
      | Raise e => Raise e
      | Ok img_data =>
          match image_open A img_data with
          | Raise e => Raise e
          | Ok img =>
              let '(img_width, img_height) := image_size A img in
              match rgb_color chunk_type with
              | Raise e => Raise e
              | Ok rgb_color =>
                  match draw_boxes img_width img_height rgb_color bounding_boxes
                                   (mkDrawing img None) with
                  | Raise e => Raise e
                  | Ok d => Ok (img_of d)
                  end
              end
          end
      end
  end.

(** lines 180-310 *)
Definition create_annotated_image_from_pdf (pdf_bytes : bytes) (page_num : Z)
    (bounding_boxes : list (Box F)) (output_s3_key bucket : string)
    (dpi : Z) (chunk_type : string) : @Run.M W (option string) :=
  try_except
    (pdf_document <- lift (fitz_open A pdf_bytes) ;;
     img <- lift (annotated_image pdf_document page_num bounding_boxes dpi chunk_type) ;;
     img_bytes <- lift (to_png A img) ;;
     put_object C bucket output_s3_key (Some (RawBody img_bytes)) (Some "image/png") ;;;
     lift (close_document A pdf_document) ;;;
     presigned_url <- call (s3_generate_presigned_url C bucket output_s3_key) ;;
     ret (Some presigned_url))
    any_exception
    (fun _ => ret None).

(** lines 313-376 *)
Definition get_or_create_annotated_image (bucket source_pdf_key chunk_id : string)
    (grounding_info : GroundingInfo F) (chunk_type : string)
    (force_recreate : bool) : @Run.M W (option string) :=
  let page_num := match page grounding_info with Some p => p | None => 1%Z end in
  let annotation_key := annotation_key source_pdf_key page_num chunk_id in
  existing <-
    (if negb force_recreate then
       try_except
         (call (s3_head_object C bucket annotation_key) ;;;
          presigned_url <- call (s3_generate_presigned_url C bucket annotation_key) ;;
          ret (Some presigned_url))
         any_exception
         (fun _ => ret None)
     else ret None) ;;
  match existing with
  | Some presigned_url => ret (Some presigned_url)
  | None =>
      try_except
        (pdf_bytes <- call (s3_get_object C bucket source_pdf_key) ;;
         let bbox := match box grounding_info with Some b => b | None => [] end in
         create_annotated_image_from_pdf pdf_bytes page_num [bbox] annotation_key
                                         bucket 150 chunk_type)
        any_exception
        (fun _ => ret None)
  end.

End WithCollaborators.

(** exact rational arithmetic *)
#[export] Instance Q_tests : FloatTests Q := {
  fltb := fun a b => match Qcompare a b with Lt => true | _ => false end
}.

End Annotation.


(** ** A stand-in for the renderer and the image library of the
    annotations, for the examples

    A document is its number of pages, a page its index; an image is its
    size and the marks drawn on it, oldest first. *)

Module InMemoryAnnotator.
Import BoxGeometry.

Inductive Mark : Type :=
| Outlined (box : PixelBox) (color : Z * Z * Z)
| Filled (box : PixelBox) (color : Z * Z * Z * Z).

Record Image : Type := mkImage { size : Z * Z; marks : list Mark }.

Definition annotator : Annotator Z Z Image :=
  {| fitz_open := fun pdf_bytes => Ok (Z.of_nat (List.length pdf_bytes));
     load_page := fun doc i =>
       if ((- doc <=? i) && (i <? doc))%Z
       then Ok (if (i <? 0)%Z then (doc + i)%Z else i)
       else Raise (mkExn OtherException "IndexError: page not in document");
     page_png := fun _ _ => Ok [];
     image_open := fun _ => Ok (mkImage (1275, 1650)%Z []);
     image_size := size;
     outline_rectangle := fun img box color _ =>
       if InMemoryImaging.inverted box
       then Raise (mkExn OtherException "x1 must be greater than or equal to x0")
       else Ok (mkImage (size img) (marks img ++ [Outlined box color]));
     filled_overlay := fun sz box color => Ok (mkImage sz [Filled box color]);
     alpha_composite := fun img overlay =>
       Ok (mkImage (size img) (marks img ++ marks overlay));
     to_png := fun img => Ok (map (fun _ => Byte.x00) (marks img));
     close_document := fun _ => Ok tt |}.

(** two boxes of a page *)
Definition upper_box : Annotation.Box Q :=
  [("left", Annotation.NFloat (1 # 10)%Q); ("top", Annotation.NFloat (1 # 10)%Q);
   ("right", Annotation.NFloat (1 # 2)%Q); ("bottom", Annotation.NFloat (1 # 5)%Q)].

Definition lower_box : Annotation.Box Q :=
  [("left", Annotation.NFloat (1 # 2)%Q); ("top", Annotation.NFloat (1 # 2)%Q);
   ("right", Annotation.NFloat (9 # 10)%Q); ("bottom", Annotation.NFloat (3 # 5)%Q)].

End InMemoryAnnotator.


(** ** Anchor tags, for the statements below *)

Module Anchors.
Import PyStr.

(** the anchor tag of an id, its value between two quote characters *)
Definition anchor (opening closing : ascii) (id : string) : string :=
  "<a id=" ++ String opening (id ++ String closing "></a>").

(** the character does not occur in the string *)
Definition without (c : ascii) (s : string) : Prop :=
  contains (String c "") s = false.

End Anchors.

(** * Properties *)

(** ** Facts on strings *)

Module StrFacts.
Import PyStr Segments.

Lemma append_nil_r (s : string) : s ++ "" = s.
Proof. induction s as [|c s IH]; simpl; [reflexivity | now rewrite IH]. Qed.

Lemma append_assoc (a b c : string) : (a ++ b) ++ c = a ++ b ++ c.
Proof. induction a as [|x a IH]; simpl; [reflexivity | now rewrite IH]. Qed.

Lemma length_append (a b : string) :
  String.length (a ++ b) = String.length a + String.length b.
Proof. induction a as [|x a IH]; simpl; [reflexivity | now rewrite IH]. Qed.

Lemma prefix_nil (s : string) : prefix "" s = true.
Proof. destruct s; reflexivity. Qed.

Lemma prefix_cons (a b : ascii) (p s : string) :
  prefix (String a p) (String b s) = Ascii.eqb a b && prefix p s.
Proof.
  cbn [prefix].
  destruct (ascii_dec a b) as [e|n]; destruct (Ascii.eqb_spec a b);
    try contradiction; reflexivity.
Qed.

Lemma prefix_append (p s : string) : prefix p (p ++ s) = true.
Proof.
  induction p as [|c p IH]; simpl.
  - apply prefix_nil.
  - destruct (ascii_dec c c) as [_|n]; [exact IH | now elim n].
Qed.

Lemma startswith_append (p s : string) : startswith (p ++ s) p = true.
Proof. apply prefix_append. Qed.

Lemma drop_append (p s : string) : drop (String.length p) (p ++ s) = s.
Proof. induction p as [|c p IH]; simpl; [now destruct s | exact IH]. Qed.

Lemma drop_0 (s : string) : drop 0 s = s.
Proof. now destruct s. Qed.


Lemma endswith_append (s p : string) : endswith (s ++ p) p = true.
Proof.
  unfold endswith. rewrite length_append.
  replace (String.length s + String.length p - String.length p)
    with (String.length s) by lia.
  rewrite drop_append, String.eqb_refl, andb_true_r.
  apply Nat.leb_le; lia.
Qed.

Lemma endswith_char (c : ascii) (s : string) :
  endswith s (String c "") = last_is c s.
Proof.
  unfold endswith. induction s as [|a s IH]; [reflexivity|].
  destruct s as [|b s].
  - simpl. now destruct (Ascii.eqb a c).
  - change (last_is c (String a (String b s))) with (last_is c (String b s)).
    rewrite <- IH. cbn [String.length]. simpl Nat.leb.
    replace (S (S (String.length s)) - 1) with (S (S (String.length s) - 1)) by lia.
    reflexivity.
Qed.

Lemma last_is_append (c : ascii) (s y : string) :
  y <> "" -> last_is c (s ++ y) = last_is c y.
Proof.
  intros Hy. induction s as [|a s IH]; [reflexivity|].
  simpl. rewrite IH.
  destruct (s ++ y) eqn:E; [|reflexivity].
  destruct s; simpl in E; [contradiction | discriminate].
Qed.

Lemma contains_append (old a b : string) :
  contains old (a ++ b) = false -> contains old b = false.
Proof.
  induction a as [|c a IH]; simpl; [tauto|].
  intros Hc. apply orb_false_iff in Hc. tauto.
Qed.

(** ['/' in s], unfolded one character *)
Lemma contains_sep_cons (c : ascii) (s : string) :
  contains "/" (String c s) = Ascii.eqb c "/" || contains "/" s.
Proof.
  cbn [contains]. rewrite prefix_cons, prefix_nil, andb_true_r.
  now rewrite Ascii.eqb_sym.
Qed.

Lemma contains_sep_append (a b : string) :
  contains "/" (a ++ b) = contains "/" a || contains "/" b.
Proof.
  induction a as [|c a IH]; [reflexivity|].
  change (String c a ++ b) with (String c (a ++ b)).
  now rewrite !contains_sep_cons, IH, orb_assoc.
Qed.

Lemma no_sep_last (s : string) :
  contains "/" s = false -> last_is "/" s = false.
Proof.
  induction s as [|c s IH]; [reflexivity|].
  rewrite contains_sep_cons. intros Hc. apply orb_false_iff in Hc as [Hc Hs].
  destruct s; [exact Hc | now apply IH].
Qed.

Lemma no_sep_take (n : nat) (s : string) :
  contains "/" s = false -> contains "/" (take n s) = false.
Proof.
  revert s; induction n as [|n IH]; intros [|c s]; try reflexivity.
  cbn [take]. rewrite !contains_sep_cons. intros Hc.
  apply orb_false_iff in Hc as [Hc Hs]. now rewrite Hc, IH.
Qed.

(** [split] and [join] are inverse on separator-free parts *)
Lemma split_no_sep (s : string) :
  contains "/" s = false -> split "/" s = [s].
Proof.
  induction s as [|c s IH]; [reflexivity|].
  rewrite contains_sep_cons. intros Hc. apply orb_false_iff in Hc as [Hc Hs].
  cbn [split]. now rewrite Hc, (IH Hs).
Qed.

Lemma split_append_sep (a b : string) :
  contains "/" a = false ->
  split "/" (a ++ "/" ++ b) = a :: split "/" b.
Proof.
  induction a as [|c a IH].
  - reflexivity.
  - rewrite contains_sep_cons. intros Hc. apply orb_false_iff in Hc as [Hc Ha].
    change (String c a ++ "/" ++ b) with (String c (a ++ "/" ++ b)).
    cbn [split]. now rewrite Hc, (IH Ha).
Qed.

Lemma join_cons (x y : string) (l : list string) :
  join "/" (x :: y :: l) = x ++ "/" ++ join "/" (y :: l).
Proof. reflexivity. Qed.

Lemma split_join (l : list string) :
  l <> [] -> Forall (fun x => contains "/" x = false) l ->
  split "/" (join "/" l) = l.
Proof.
  induction l as [|x l IH]; [congruence|].
  intros _ Hl. inversion Hl as [|? ? Hx Hl']; subst.
  destruct l as [|y l].
  - now apply split_no_sep.
  - rewrite join_cons, (split_append_sep _ _ Hx). f_equal.
    apply IH; [discriminate | assumption].
Qed.

Lemma join_snoc (l : list string) (x : string) :
  l <> [] -> join "/" (l ++ [x]) = join "/" l ++ "/" ++ x.
Proof.
  induction l as [|a l IH]; [congruence|]. intros _.
  destruct l as [|b l].
  - reflexivity.
  - change ((a :: b :: l) ++ [x])%list with (a :: b :: (l ++ [x]))%list.
    rewrite !join_cons.
    change (b :: (l ++ [x]))%list with ((b :: l) ++ [x])%list.
    rewrite IH by discriminate. now rewrite !append_assoc.
Qed.

(** appending to the last part of a joined path *)
Lemma join_snoc_append (l : list string) (x e : string) :
  join "/" (l ++ [x ++ e]) = join "/" (l ++ [x]) ++ e.
Proof.
  destruct l as [|a l]; [reflexivity|].
  rewrite !join_snoc by discriminate. now rewrite !append_assoc.
Qed.

End StrFacts.

(** ** Facts on paths built from well-formed segments *)

Module PathFacts.
Import PyStr PosixPath Segments StrFacts.

Lemma segment_inv (x : string) :
  segment x = true -> x <> "" /\ x <> "." /\ contains "/" x = false.
Proof.
  unfold segment, kept. intros Hx.
  apply andb_true_iff in Hx as [Hk Hs].
  apply andb_true_iff in Hk as [H1 H2].
  apply negb_true_iff in H1, H2, Hs.
  apply String.eqb_neq in H1, H2. auto.
Qed.

Lemma segment_intro (x : string) :
  x <> "" -> x <> "." -> contains "/" x = false -> segment x = true.
Proof.
  intros H1 H2 H3. unfold segment, kept.
  apply String.eqb_neq in H1, H2. now rewrite H1, H2, H3.
Qed.

(** a separator-free name with a suffix of two characters or more *)
Lemma segment_append (x e : string) :
  contains "/" x = false -> contains "/" e = false ->
  2 <= String.length e -> segment (x ++ e) = true.
Proof.
  intros Hx He Hlen. apply segment_intro.
  - intros E. apply (f_equal String.length) in E.
    rewrite length_append in E. simpl in E. lia.
  - intros E. apply (f_equal String.length) in E.
    rewrite length_append in E. simpl in E. lia.
  - now rewrite contains_sep_append, Hx, He.
Qed.

Lemma segments_no_sep (l : list string) :
  segments l -> Forall (fun x => contains "/" x = false) l.
Proof.
  intros Hl. eapply Forall_impl; [|exact Hl].
  intros x Hx. now apply segment_inv in Hx.
Qed.

Lemma segments_app (l k : list string) :
  segments l -> segments k -> segments (l ++ k).
Proof. intros; now apply Forall_app. Qed.

Lemma startswith_sep_segment (x s : string) :
  segment x = true -> startswith (x ++ s) "/" = false.
Proof.
  intros Hx. apply segment_inv in Hx as (Hne & _ & Hs).
  destruct x as [|c x]; [congruence|].
  rewrite contains_sep_cons in Hs. apply orb_false_iff in Hs as [Hc _].
  unfold startswith. change (String c x ++ s) with (String c (x ++ s)).
  rewrite prefix_cons, Ascii.eqb_sym, Hc. reflexivity.
Qed.

Lemma startswith_sep_join (x : string) (l : list string) :
  segment x = true -> startswith (join "/" (x :: l)) "/" = false.
Proof.
  intros Hx. destruct l as [|y l].
  - rewrite <- (append_nil_r x). now apply startswith_sep_segment.
  - rewrite join_cons. now apply startswith_sep_segment.
Qed.

Lemma splitroot_relative (s : string) :
  startswith s "/" = false -> splitroot s = ("", s).
Proof.
  unfold splitroot, startswith. destruct s as [|c s]; [reflexivity|].
  rewrite prefix_cons, prefix_nil, andb_true_r. intros Hc.
  cbn [take]. cbn [String.eqb]. rewrite Ascii.eqb_sym, Hc. reflexivity.
Qed.

Lemma filter_kept (l : list string) : segments l -> filter kept l = l.
Proof.
  induction 1 as [|x l Hx _ IH]; [reflexivity|].
  cbn [filter]. unfold segment in Hx. apply andb_true_iff in Hx as [Hk _].
  now rewrite Hk, IH.
Qed.

(** parsing a path joined from segments gives the segments back *)
Lemma Path_join (l : list string) :
  l <> [] -> segments l -> Path (join "/" l) = mkPath "" l.
Proof.
  intros Hne Hl. unfold Path.
  destruct l as [|x l]; [congruence|].
  rewrite splitroot_relative
    by (apply startswith_sep_join; now inversion Hl).
  unfold sep. rewrite split_join; [|discriminate|now apply segments_no_sep].
  now rewrite filter_kept.
Qed.

Lemma join_nonempty (x : string) (l : list string) :
  segment x = true -> join "/" (x :: l) <> "".
Proof.
  intros Hx E. apply segment_inv in Hx as (Hne & _).
  destruct x as [|c x]; [congruence|].
  destruct l; discriminate.
Qed.

Lemma str_relative (l : list string) :
  l <> [] -> segments l -> str (mkPath "" l) = join "/" l.
Proof.
  intros Hne Hl. destruct l as [|x l]; [congruence|].
  unfold str. cbn [root tail]. change ("" ++ ?s) with s.
  destruct (String.eqb_spec (join "/" (x :: l)) ""); [|reflexivity].
  exfalso. eapply join_nonempty; [|eassumption]. now inversion Hl.
Qed.

Lemma parts_relative (l : list string) : parts (mkPath "" l) = l.
Proof. reflexivity. Qed.

Lemma join_last_not_sep (l : list string) :
  l <> [] -> segments l -> last_is "/" (join "/" l) = false.
Proof.
  induction l as [|x l IH]; [congruence|]. intros _ Hl.
  inversion Hl as [|? ? Hx Hl']; subst.
  destruct l as [|y l].
  - apply no_sep_last. now apply segment_inv in Hx.
  - rewrite join_cons, last_is_append.
    + rewrite last_is_append; [now apply IH|].
      eapply join_nonempty. now inversion Hl'.
    + discriminate.
Qed.

Lemma join_step_segments (k : list string) (b : string) :
  k <> [] -> segments k -> startswith b "/" = false ->
  join_step (join "/" k) b = join "/" k ++ "/" ++ b.
Proof.
  intros Hne Hk Hb. unfold join_step. rewrite Hb.
  rewrite endswith_char, (join_last_not_sep k Hne Hk), orb_false_r.
  destruct k as [|x k]; [congruence|].
  destruct (String.eqb_spec (join "/" (x :: k)) ""); [|reflexivity].
  exfalso. eapply join_nonempty; [|eassumption]. now inversion Hk.
Qed.

Lemma join2_onto (l k : list string) :
  k <> [] -> segments k -> segments l ->
  fold_left join_step l (join "/" k) = join "/" (k ++ l).
Proof.
  revert k. induction l as [|y l IH]; intros k Hne Hk Hl.
  - now rewrite app_nil_r.
  - inversion Hl as [|? ? Hy Hl']; subst. cbn [fold_left].
    rewrite join_step_segments; try assumption.
    + rewrite <- join_snoc by assumption.
      rewrite IH.
      * now rewrite <- app_assoc.
      * now destruct k.
      * apply segments_app; [assumption | now constructor].
      * assumption.
    + rewrite <- (append_nil_r y). now apply startswith_sep_segment.
Qed.

Lemma join2_segments (x : string) (l : list string) :
  segment x = true -> segments l -> join2 x l = join "/" (x :: l).
Proof.
  intros Hx Hl. unfold join2.
  change x with (join "/" [x]) at 1.
  rewrite join2_onto; [reflexivity | discriminate | now constructor | assumption].
Qed.

Lemma Path_of_segments (l : list string) :
  l <> [] -> segments l -> Path_of l = mkPath "" l.
Proof.
  intros Hne Hl. destruct l as [|x l]; [congruence|].
  inversion Hl; subst. cbn [Path_of].
  rewrite join2_segments by assumption. now apply Path_join.
Qed.

Lemma join_app (l k : list string) :
  l <> [] -> k <> [] ->
  join "/" (l ++ k) = join "/" l ++ "/" ++ join "/" k.
Proof.
  intros Hl Hk. induction l as [|a l IH]; [congruence|].
  destruct l as [|b l].
  - destruct k; [congruence | reflexivity].
  - change ((a :: b :: l) ++ k)%list with (a :: b :: (l ++ k))%list.
    rewrite !join_cons.
    change (b :: (l ++ k))%list with ((b :: l) ++ k)%list.
    rewrite IH by discriminate. now rewrite !append_assoc.
Qed.

(** [Path(a) / b] on paths of segments *)
Lemma div_segments (l k : list string) :
  l <> [] -> k <> [] -> segments l -> segments k ->
  str (div (Path (join "/" l)) (join "/" k)) = join "/" (l ++ k).
Proof.
  intros Hl Hk Sl Sk.
  unfold div. rewrite Path_join, str_relative by assumption.
  cbn [join2 fold_left].
  rewrite join_step_segments; try assumption.
  - rewrite <- join_app by assumption.
    rewrite Path_join.
    + apply str_relative; [now destruct l | now apply segments_app].
    + now destruct l.
    + now apply segments_app.
  - destruct k as [|y k]; [congruence|].
    apply startswith_sep_join. now inversion Sk.
Qed.

End PathFacts.

(** ** Facts on names, stems and the replacement of [.md] *)

Module NameFacts.
Import PyStr PosixPath Segments StrFacts PathFacts.




Lemma stem_no_sep (nm : string) :
  contains "/" nm = false -> contains "/" (stem_of nm) = false.
Proof.
  intros Hn. unfold stem_of. destruct (rfind "." nm) as [i|]; [|assumption].
  destruct ((0 <? i) && (i <? String.length nm - 1))%nat; [|assumption].
  now apply no_sep_take.
Qed.

Lemma stem_segment (nm e : string) :
  segment nm = true -> contains "/" e = false -> 2 <= String.length e ->
  segment (stem_of nm ++ e) = true.
Proof.
  intros Hn He Hl. apply segment_append; try assumption.
  apply stem_no_sep. now apply segment_inv in Hn.
Qed.

Lemma prefix_md_append (c : ascii) (r : string) :
  prefix ".md" (String c r) = false ->
  prefix ".md" (String c (r ++ ".md")) = false.
Proof.
  rewrite !prefix_cons.
  destruct (Ascii.eqb "." c); [|reflexivity]. cbn [andb].
  destruct r as [|d r]; [reflexivity|].
  change (String d r ++ ".md") with (String d (r ++ ".md")).
  rewrite !prefix_cons.
  destruct (Ascii.eqb "m" d); [|reflexivity]. cbn [andb].
  destruct r as [|e r]; [reflexivity|].
  change (String e r ++ ".md") with (String e (r ++ ".md")).
  now rewrite !prefix_cons, !prefix_nil.
Qed.

(** where [.md] occurs only at the end, [replace] swaps the ending *)
Lemma replace_md_suffix (r new : string) :
  contains ".md" r = false ->
  replace ".md" new (r ++ ".md") = r ++ new.
Proof.
  unfold replace. induction r as [|c r IH]; intros Hc.
  - cbn. now rewrite append_nil_r.
  - cbn [contains] in Hc. apply orb_false_iff in Hc as [Hp Hc].
    change (String c r ++ ".md") with (String c (r ++ ".md")).
    cbn [replace_from]. rewrite (prefix_md_append _ _ Hp).
    rewrite (IH Hc). reflexivity.
Qed.

End NameFacts.

(** ** The keys derived for a well-formed nested input key *)

Module KeyMapperFacts.
Import PyStr PosixPath Segments StrFacts PathFacts NameFacts KeyMapper.

Lemma relative_path_under (cfg : Config) (rel : string) :
  relative_path cfg (INPUT_FOLDER cfg ++ rel) = rel.
Proof.
  unfold relative_path. now rewrite startswith_append, drop_append.
Qed.

Section Nested.
Variables (first : string) (rest : list string) (fname : string).
Hypothesis Hfirst : segment first = true.
Hypothesis Hrest : segments rest.
Hypothesis Hname : segment fname = true.

Let rel : string := join "/" (first :: rest ++ [fname]).

Lemma rel_segments : segments ((first :: rest) ++ [fname]).
Proof.
  apply segments_app; [now constructor | now constructor].
Qed.

Lemma Path_rel : Path rel = mkPath "" ((first :: rest) ++ [fname]).
Proof. apply Path_join; [discriminate | apply rel_segments]. Qed.

Lemma subfolder_nested : subfolder rel = join "/" (first :: rest).
Proof.
  unfold subfolder. rewrite Path_rel. unfold parent. cbn [tail root].
  change ((first :: rest) ++ [fname])%list with (first :: (rest ++ [fname]))%list.
  cbv iota.
  change (first :: (rest ++ [fname]))%list with ((first :: rest) ++ [fname])%list.
  rewrite removelast_last.
  cbn. apply str_relative; [discriminate | now constructor].
Qed.

Lemma filename_nested : filename rel = fname.
Proof.
  unfold filename, name. rewrite Path_rel. cbn [tail]. apply last_last.
Qed.

Lemma filename_without_ext_nested : filename_without_ext rel = stem_of fname.
Proof.
  unfold filename_without_ext. rewrite filename_nested.
  change fname with (join "/" [fname]) at 1.
  rewrite Path_join; [reflexivity | discriminate | now constructor].
Qed.

Lemma subfolder_nested_truthy :
  truthy (join "/" (first :: rest)) && negb (join "/" (first :: rest) =? ".") = true.
Proof.
  apply andb_true_iff; split; apply negb_true_iff, String.eqb_neq.
  - now apply join_nonempty.
  - intros E. destruct rest as [|y l].
    + cbn in E. now apply segment_inv in Hfirst.
    + rewrite join_cons in E.
      apply (f_equal (contains "/")) in E.
      rewrite contains_sep_append in E.
      change ("/" ++ join "/" (y :: l)) with (String "/" (join "/" (y :: l))) in E.
      rewrite contains_sep_cons in E.
      change (Ascii.eqb "/" "/") with true in E.
      change (contains "/" ".") with false in E.
      cbn [orb] in E. rewrite orb_true_r in E. discriminate.
Qed.

Variables (cfg : Config) (o : string).
Hypothesis Hout : one_segment_folder (OUTPUT_FOLDER cfg) o.

Let stem_md : string := stem_of fname ++ ".md".

(** the markdown key, as a path of segments *)
Lemma output_key_nested :
  output_key cfg (INPUT_FOLDER cfg ++ rel)
  = join "/" ((o :: first :: rest) ++ [stem_md]).
Proof.
  unfold output_key, output_key_of. rewrite relative_path_under.
  rewrite subfolder_nested, filename_without_ext_nested, subfolder_nested_truthy.
  destruct Hout as [-> _].
  rewrite join_snoc by discriminate. rewrite join_cons.
  now rewrite !append_assoc.
Qed.

Lemma output_segments : segments ((o :: first :: rest) ++ [stem_md]).
Proof.
  destruct Hout as [_ Ho].
  apply segments_app.
  - constructor; [assumption|]. now constructor.
  - constructor; [|constructor].
    apply stem_segment; [assumption | reflexivity | simpl; lia].
Qed.

End Nested.

End KeyMapperFacts.

Module GroundingKeyFacts.
Import PyStr PosixPath Segments StrFacts PathFacts NameFacts KeyMapper.

(** right-nested appends, literal prefixes pushed inside *)
Ltac norm_append := rewrite ?append_assoc; cbn [append].

Section Nested.
Variables (o first : string) (rest : list string) (st : string).
Hypothesis Ho : segment o = true.
Hypothesis Hfirst : segment first = true.
Hypothesis Hrest : segments rest.
Hypothesis Hst : contains "/" st = false.
Hypothesis Hmd : contains ".md" (join "/" (rest ++ [st])) = false.

Lemma suffixed_segment (e : string) :
  contains "/" e = false -> 2 <= String.length e -> segment (st ++ e) = true.
Proof. intros; now apply segment_append. Qed.

Lemma below_segments (e : string) :
  contains "/" e = false -> 2 <= String.length e -> segments (rest ++ [st ++ e]).
Proof.
  intros He Hl. apply segments_app; [assumption|].
  constructor; [now apply suffixed_segment | constructor].
Qed.

Lemma grounding_keys_nested :
  grounding_keys (join "/" ((o :: first :: rest) ++ [st ++ ".md"]))
  = {| grounding_folder := Some ((o ++ "/" ++ first) ++ "_grounding");
       grounding_key :=
         ((o ++ "/" ++ first) ++ "_grounding") ++ "/"
           ++ join "/" (rest ++ [st]) ++ "_grounding.json";
       chunks_folder := (o ++ "/" ++ first) ++ "_chunks/" |}.
Proof.
  assert (Hmd_seg : segments (rest ++ [st ++ ".md"]))
    by (apply below_segments; [reflexivity | simpl; lia]).
  assert (Hjs_seg : segments (rest ++ [st ++ "_grounding.json"]))
    by (apply below_segments; [reflexivity | simpl; lia]).
  assert (Hbase : segments [o; first]) by (now repeat constructor).
  assert (Hfolder : segments [o; first ++ "_grounding"]).
  { constructor; [assumption|]. constructor; [|constructor].
    apply segment_append; [now apply segment_inv in Hfirst | reflexivity | simpl; lia]. }
  assert (Hall : segments ((o :: first :: rest) ++ [st ++ ".md"])).
  { change ((o :: first :: rest) ++ [(st ++ ".md")%string])%list
      with ([o; first] ++ (rest ++ [(st ++ ".md")%string]))%list.
    now apply segments_app. }
  unfold grounding_keys.
  rewrite Path_join by (assumption || discriminate).
  rewrite parts_relative.
  change ((o :: first :: rest) ++ [(st ++ ".md")%string])%list
    with (o :: first :: (rest ++ [(st ++ ".md")%string]))%list.
  assert (Hlen : (2 <? List.length (o :: first :: (rest ++ [st ++ ".md"])))%nat = true).
  { apply Nat.ltb_lt. cbn [List.length]. rewrite length_app. simpl. lia. }
  rewrite Hlen. cbn [List.length Nat.leb firstn skipn].
  rewrite (Path_of_segments [o; first]) by (discriminate || assumption).
  rewrite (Path_of_segments (rest ++ [st ++ ".md"]))
    by (assumption || (now destruct rest)).
  rewrite !str_relative by (assumption || discriminate || (now destruct rest)).
  change (join "/" [o; first]) with (o ++ "/" ++ first).
  rewrite join_snoc_append, (replace_md_suffix _ _ Hmd), <- join_snoc_append.
  replace ((o ++ "/" ++ first) ++ "_grounding")
    with (join "/" [o; first ++ "_grounding"])
    by (cbn [join concat]; now norm_append).
  rewrite div_segments by (assumption || discriminate || (now destruct rest)).
  rewrite join_app by (discriminate || (now destruct rest)).
  now rewrite join_snoc_append.
Qed.

End Nested.

End GroundingKeyFacts.

(** ** Facts on the parse of an arbitrary string *)

Module ParseFacts.
Import PyStr PosixPath Segments StrFacts PathFacts.

Lemma split_parts_no_sep (s : string) :
  Forall (fun x => contains "/" x = false) (split "/" s).
Proof.
  induction s as [|c s IH]; [now repeat constructor|].
  cbn [split]. destruct (Ascii.eqb_spec c "/") as [->|Hc].
  - constructor; [reflexivity | assumption].
  - destruct (split "/" s) as [|h t].
    + constructor; [|constructor]. rewrite contains_sep_cons.
      apply Ascii.eqb_neq in Hc. now rewrite Hc.
    + inversion IH as [|? ? Hh Ht]; subst. constructor; [|assumption].
      rewrite contains_sep_cons. apply Ascii.eqb_neq in Hc. now rewrite Hc, Hh.
Qed.

(** every segment of a parsed path is well formed *)
Lemma Path_tail_segments (s : string) : segments (tail (Path s)).
Proof.
  unfold Path. destruct (splitroot s) as [r rel]. cbn [tail].
  unfold segments. apply Forall_forall. intros x Hx.
  apply filter_In in Hx as [Hin Hk].
  unfold segment. rewrite Hk.
  pose proof (split_parts_no_sep rel) as Hall.
  rewrite Forall_forall in Hall. unfold sep in Hin. now rewrite (Hall x Hin).
Qed.



Lemma segment_last (l : list string) :
  segments l -> last l "" = "" \/ segment (last l "") = true.
Proof.
  induction 1 as [|x l Hx Hl IH]; [now left|].
  destruct l as [|y l]; [now right|].
  change (last (x :: y :: l) "") with (last (y :: l) ""). exact IH.
Qed.


Lemma eqb_dot_true (p : PurePath) :
  eqb p (Path ".") = true -> root p = "" /\ tail p = [].
Proof.
  unfold eqb. change (Path ".") with (mkPath "" []). cbn [root tail].
  intros Hp. apply andb_true_iff in Hp as [Hr Ht].
  apply String.eqb_eq in Hr. split; [assumption|].
  now destruct (tail p).
Qed.




(** [Path(name).stem] is the stem of the name *)
Lemma filename_without_ext_stem (rel : string) :
  KeyMapper.filename_without_ext rel = stem_of (KeyMapper.filename rel).
Proof.
  unfold KeyMapper.filename_without_ext, KeyMapper.filename, stem, name.
  destruct (segment_last _ (Path_tail_segments rel)) as [E|Hs].
  - rewrite E. reflexivity.
  - change (last (tail (Path rel)) "") with (join "/" [last (tail (Path rel)) ""]) at 1.
    rewrite Path_join; [reflexivity | discriminate | now constructor].
Qed.

End ParseFacts.

(** ** Exact rational arithmetic satisfies the order laws *)

Module RationalFacts.
Import BoxGeometry.

Lemma trunc_mono (a b : Q) :
  (a <= b)%Q -> (to_int a <= to_int b)%Z.
Proof.
  unfold Qle. cbn [to_int Q_ops]. destruct a as [na da], b as [nb db].
  cbn [Qnum Qden]. intros Hle.
  rewrite <- (Z.quot_mul_cancel_r na (Zpos da) (Zpos db)) by lia.
  rewrite <- (Z.quot_mul_cancel_r nb (Zpos db) (Zpos da)) by lia.
  rewrite (Z.mul_comm (Zpos db) (Zpos da)).
  apply Z.quot_le_mono; [apply Z.mul_pos_pos; lia | exact Hle].
Qed.

Lemma trunc_eq (a b : Q) : (a == b)%Q -> to_int a = to_int b.
Proof.
  intros E. apply Z.le_antisymm; apply trunc_mono; rewrite E; apply Qle_refl.
Qed.

Lemma trunc_inject (n : Z) : to_int (inject_Z n) = n.
Proof. cbn. apply Z.quot_1_r. Qed.

#[export] Instance Q_laws : FloatLaws Q.
Proof.
  constructor; cbn [fmul fdiv of_int fle flt Q_ops].
  - intros a b c Hc Hab. now apply Qmult_le_compat_r.
  - intros a c Ha Hc. now apply Qmult_le_0_compat.
  - intros a c Ha Hc.
    apply Qle_trans with (1 * c)%Q.
    + now apply Qmult_le_compat_r.
    + rewrite Qmult_1_l. apply Qle_refl.
  - intros a b Ha Hb. apply Qle_shift_div_l; [assumption|].
    now rewrite Qmult_0_l.
  - intros a b. apply Qlt_le_weak.
  - intros n Hn. now rewrite <- Zle_Qle.
  - apply trunc_mono.
  - intros a Ha. change 0%Z with (to_int (inject_Z 0)). now apply trunc_mono.
  - intros pw n Hpw Hn.
    rewrite (trunc_eq (pw * (inject_Z n / pw)) (inject_Z n)).
    + rewrite trunc_inject. lia.
    + apply Qmult_div_r. intros E. rewrite E in Hpw. now apply Qlt_irrefl in Hpw.
Qed.

End RationalFacts.

(** ** The crop box lies within the image *)

Module GeometryFacts.
Import BoxGeometry.

Section Axis.
Context {F : Type} `{FloatLaws F}.
Variables (lo hi page : F) (size padding : Z).
Hypothesis Hlo : fle (of_int 0) lo.
Hypothesis Hle : fle lo hi.
Hypothesis Hhi : fle hi (of_int 1).
Hypothesis Hpage : flt (of_int 0) page.
Hypothesis Hsize : (0 < size)%Z.

Let scale : F := fdiv (of_int size) page.
Let pixel (v : F) : Z := to_int (fmul (fmul v page) scale).




End Axis.

End GeometryFacts.

(** ** Facts on the handler monad *)

Module RunFacts.
Import Run.

Section Monad.
Context {W : Type}.

(** a [try] whose handler catches every exception and returns never raises *)
Lemma try_except_any_returns {A : Type} (m : @M W A) (h : exn -> A) (s : RunState W) :
  exists r s', try_except m any_exception (fun e => ret (h e)) s = (Ok r, s').
Proof.
  unfold try_except, any_exception, ret.
  destruct (m s) as [[a|e] s']; eauto.
Qed.

Lemma bind_ok {A B : Type} (m : @M W A) (k : A -> M B) (s s' : RunState W) (a : A) :
  m s = (Ok a, s') -> bind m k s = k a s'.
Proof. unfold bind. now intros ->. Qed.

Lemma bind_raise {A B : Type} (m : @M W A) (k : A -> M B) (s s' : RunState W) (e : exn) :
  m s = (Raise e, s') -> bind m k s = (Raise e, s').
Proof. unfold bind. now intros ->. Qed.

End Monad.
End RunFacts.

(** ** Facts on the colour table *)

Module ColorFacts.
Import PyStr VisualGrounding.

Lemma lower_ascii_idempotent (c : ascii) :
  lower_ascii (lower_ascii c) = lower_ascii c.
Proof.
  destruct c as [b0 b1 b2 b3 b4 b5 b6 b7].
  destruct b0, b1, b2, b3, b4, b5, b6, b7; reflexivity.
Qed.

Lemma lower_idempotent (s : string) : lower (lower s) = lower s.
Proof.
  induction s as [|c s IH]; [reflexivity|].
  cbn [lower]. now rewrite lower_ascii_idempotent, IH.
Qed.

Lemma lookup_none {A : Type} (k : string) (d : list (string * A)) :
  ~ In k (map fst d) -> lookup k d = None.
Proof.
  induction d as [|[k' v] d IH]; [reflexivity|].
  cbn [map fst In lookup]. intros Hn.
  destruct (String.eqb_spec k' k) as [->|_]; [tauto|].
  apply IH. tauto.
Qed.

Lemma lookup_in {A : Type} (k : string) (d : list (string * A)) (v : A) :
  lookup k d = Some v -> In (k, v) d.
Proof.
  induction d as [|[k' v'] d IH]; [discriminate|].
  cbn [lookup]. destruct (String.eqb_spec k' k) as [->|_].
  - intros [= ->]. now left.
  - intros Hl. right. now apply IH.
Qed.

Lemma table_channels :
  Forall (fun kv => let '(r, g, b) := snd kv in channel r /\ channel g /\ channel b)
         CHUNK_TYPE_COLORS.
Proof. repeat constructor; cbn; unfold channel; lia. Qed.

(** the colour chosen for a tag: its entry, or the entry of ["default"] *)
Lemma rgb_color_eq (chunk_type : string) :
  rgb_color chunk_type
  = Ok (match lookup (lower chunk_type) CHUNK_TYPE_COLORS with
        | Some c => c
        | None => (128, 128, 128)%Z
        end).
Proof. reflexivity. Qed.

End ColorFacts.

(** ** Facts on the record loop *)

Module HandlerFacts.
Import PyStr Py Run Handler Results.

Section WithCollaborators.
Context {W : Type}.
Variable C : Collaborators W.
Variable cfg : Config.

Lemma ensure_s3_folders_returns (bucket : string) (s : RunState W) :
  exists s', ensure_s3_folders C cfg bucket s = (Ok tt, s').
Proof.
  unfold ensure_s3_folders. cbn [fold_right].
  destruct (RunFacts.try_except_any_returns
              (put_object C bucket (INPUT_FOLDER cfg) None None) (fun _ => tt) s)
    as ([] & s1 & E1).
  rewrite (RunFacts.bind_ok _ _ _ _ _ E1).
  destruct (RunFacts.try_except_any_returns
              (put_object C bucket (OUTPUT_FOLDER cfg) None None) (fun _ => tt) s1)
    as ([] & s2 & E2).
  rewrite (RunFacts.bind_ok _ _ _ _ _ E2).
  now exists s2.
Qed.

Lemma already_processed_returns (bucket output_key : string) (s : RunState W) :
  FORCE_REPROCESS cfg = true \/ head_raises_client_errors_only C ->
  exists b s', already_processed C cfg bucket output_key s = (Ok b, s').
Proof.
  intros Hhead. unfold already_processed.
  destruct (FORCE_REPROCESS cfg) eqn:Hforce; cbn [negb].
  - unfold ret. eauto.
  - destruct Hhead as [Hf|Hhead]; [discriminate|].
    unfold try_except, bind, call, ret.
    destruct (s3_head_object C bucket output_key (world s)) as [[u|e] w'] eqn:E.
    + eauto.
    + rewrite (Hhead _ _ _ _ _ E). eauto.
Qed.

Lemma skipped_is_result (bucket key output_key : string) :
  result_record_for bucket key (skipped_result bucket key output_key).
Proof.
  split; [reflexivity|]. right. left. split; [reflexivity|].
  now exists "already_processed".
Qed.

Lemma success_is_result (bucket key output_key : string) :
  result_record_for bucket key (success_result bucket key output_key).
Proof. split; [reflexivity|]. now left. Qed.

Lemma failed_is_result (bucket key : string) (e : exn) :
  result_record_for bucket key (failed_result bucket key e).
Proof.
  split; [reflexivity|]. right. right. split; [reflexivity|].
  now exists (exn_msg e).
Qed.

(** one turn of the loop appends one record for a document key and none
    otherwise, and returns *)
Lemma handle_record_appends (record : S3Record) (results : list pyval)
    (s : RunState W) :
  FORCE_REPROCESS cfg = true \/ head_raises_client_errors_only C ->
  exists new s',
    handle_record C cfg record results s = (Ok (results ++ new)%list, s') /\
    if is_document_key cfg (rec_key record)
    then exists r, new = [r] /\ result_record_for (rec_bucket record) (rec_key record) r
    else new = [].
Proof.
  intros Hhead. unfold handle_record, is_document_key.
  destruct (endswith (rec_key record) "/").
  { exists [], s. now rewrite app_nil_r. }
  destruct (PyStr.truthy (PosixPath.basename (rec_key record))).
  2:{ exists [], s. now rewrite app_nil_r. }
  cbn [negb andb].
  destruct (ensure_s3_folders_returns (rec_bucket record) s) as (s1 & E1).
  rewrite (RunFacts.bind_ok _ _ _ _ _ E1).
  destruct (startswith (rec_key record) (INPUT_FOLDER cfg)).
  2:{ exists [], s1. now rewrite app_nil_r. }
  cbn [negb].
  set (output_key := KeyMapper.output_key_of cfg _ _).
  destruct (already_processed_returns (rec_bucket record) output_key s1 Hhead)
    as (skip & s2 & E2).
  rewrite (RunFacts.bind_ok _ _ _ _ _ E2).
  destruct skip.
  - eexists [_], s2. split; [reflexivity|].
    eexists. split; [reflexivity|]. apply skipped_is_result.
  - unfold try_except, any_exception.
    match goal with |- context [bind ?m ?k s2] => destruct (bind m k s2) as [[r|e] s3] eqn:E3 end.
    + unfold bind in E3.
      match type of E3 with context [process_document ?a ?b ?c ?d ?e ?f ?g ?h] =>
        destruct (process_document a b c d e f g h) as [[u|e'] s4] end;
        [|discriminate].
      injection E3 as <- <-.
      eexists [_], s4. split; [reflexivity|].
      eexists. split; [reflexivity|]. apply success_is_result.
    + eexists [_], s3. split; [reflexivity|].
      eexists. split; [reflexivity|]. apply failed_is_result.
Qed.

Lemma handle_records_appends (records : list S3Record) (results : list pyval)
    (s : RunState W) :
  FORCE_REPROCESS cfg = true \/ head_raises_client_errors_only C ->
  exists new s',
    handle_records C cfg records results s = (Ok (results ++ new)%list, s') /\
    Forall2 (fun record r =>
               result_record_for (rec_bucket record) (rec_key record) r)
            (filter (fun record => is_document_key cfg (rec_key record)) records)
            new.
Proof.
  intros Hhead. revert results s.
  induction records as [|record rest IH]; intros results s.
  - exists [], s. cbn. rewrite app_nil_r. split; [reflexivity | constructor].
  - destruct (handle_record_appends record results s Hhead) as (new1 & s1 & E1 & Hnew1).
    destruct (IH (results ++ new1)%list s1) as (new2 & s2 & E2 & Hnew2).
    exists (new1 ++ new2)%list, s2. split.
    + cbn [handle_records]. rewrite (RunFacts.bind_ok _ _ _ _ _ E1), E2.
      now rewrite app_assoc.
    + cbn [filter].
      destruct (is_document_key cfg (rec_key record)).
      * destruct Hnew1 as (r & -> & Hr). now constructor.
      * now subst new1.
Qed.

End WithCollaborators.
End HandlerFacts.

(** ** Facts on the chunk files *)

Module ChunkFacts.
Import PyStr Py Run Handler Results.

Section WithCollaborators.
Context {W : Type}.
Variable C : Collaborators W.
Variables (chunks_folder fwe : string).

Lemma skip_falsy_id (d : list (string * pyval)) :
  truthy (id_of d) = false ->
  chunk_file_of C chunks_folder fwe (VDict d) = Ok SkipChunk.
Proof.
  intros Hid. unfold chunk_file_of. cbn [dict_get].
  fold (id_of d). now rewrite Hid.
Qed.

(** the file of a chunk whose grounding is the dict [g] (the empty dict
    when the chunk has none) and has no box *)
Lemma file_without_box (d g : list (string * pyval)) :
  truthy (id_of d) = true ->
  dict_get (VDict d) "grounding" (VDict []) = Ok (VDict g) ->
  assoc "box" g = None ->
  chunk_file_of C chunks_folder fwe (VDict d)
  = Ok (ChunkFile
          (KeyMapper.chunk_key chunks_folder fwe (format C (id_of d)))
          (VDict [("chunk_id", id_of d);
                  ("chunk_type", match assoc "type" d with Some x => x | None => VStr "text" end);
                  ("text", match assoc "markdown" d with Some x => x | None => VStr "" end);
                  ("bbox", VList [VInt 0; VInt 0; VInt 1; VInt 1]);
                  ("page", match assoc "page" g with Some x => x | None => VInt 0 end);
                  ("source_document", VStr fwe)])).
Proof.
  intros Hid Hg Hbox. unfold chunk_file_of.
  rewrite Hg. cbn [dict_get]. fold (id_of d). rewrite Hid, Hbox.
  reflexivity.
Qed.

(** a chunk read from an object that lacks a grounding page or box has no
    grounding entry *)
Lemma object_chunk_without_grounding (chunk : pyval) :
  has_dict chunk = true ->
  (forall gr page box, attr chunk "grounding" = Some gr ->
                       attr gr "page" = Some page -> attr gr "box" = Some box -> False) ->
  exists d, chunk_to_dict chunk = VDict d
            /\ assoc "grounding" d = None
            /\ id_of d = getattr_default chunk "id" (VStr "").
Proof.
  intros Hobj Hno. unfold chunk_to_dict. rewrite Hobj.
  destruct (attr chunk "grounding") as [gr|] eqn:Eg.
  - destruct (attr gr "page") as [page|] eqn:Ep;
      [destruct (attr gr "box") as [box|] eqn:Eb|].
    + exfalso. exact (Hno gr page box eq_refl Ep Eb).
    + eexists. split; [reflexivity|]. split; reflexivity.
    + eexists. split; [reflexivity|]. split; reflexivity.
  - eexists. split; [reflexivity|]. split; reflexivity.
Qed.

End WithCollaborators.
End ChunkFacts.

(** ** Facts on the writes of the grounding data *)

Module GroundingFacts.
Import PyStr Py Run Handler Results.

Section WithCollaborators.
Context {W : Type}.
Variable C : Collaborators W.
Variable cfg : Config.

Lemma put_object_puts (bucket key : string) (body : option Body)
    (ctype : option string) (s : RunState W) :
  exists r accepted s',
    put_object C bucket key body ctype s = (r, s') /\
    puts s' = (puts s ++ [mkPut bucket key body ctype accepted])%list.
Proof.
  unfold put_object.
  destruct (s3_put_object C bucket key body ctype (world s)) as [r w'].
  now eexists r, _, _.
Qed.





End WithCollaborators.
End GroundingFacts.

(** ** The replacement of [.md] keeps a path of segments *)

Module ReplaceFacts.
Import PyStr PosixPath Segments StrFacts PathFacts.

Section Replace.
Variable new : string.
Hypothesis Hnew_sep : contains "/" new = false.
Hypothesis Hnew_len : 3 <= String.length new.

Local Abbreviation rep := (replace_from ".md" new).

(** a match that starts before a separator lies before it *)
Lemma prefix_md_before_sep (c : ascii) (a b : string) :
  prefix ".md" (String c (a ++ "/" ++ b)) = prefix ".md" (String c a).
Proof.
  rewrite !prefix_cons. destruct (Ascii.eqb "." c); [|reflexivity]. cbn [andb].
  destruct a as [|d a]; [reflexivity|].
  change (String d a ++ "/" ++ b) with (String d (a ++ "/" ++ b)).
  rewrite !prefix_cons. destruct (Ascii.eqb "m" d); [|reflexivity]. cbn [andb].
  destruct a as [|e a]; [reflexivity|].
  change (String e a ++ "/" ++ b) with (String e (a ++ "/" ++ b)).
  now rewrite !prefix_cons, !prefix_nil.
Qed.

Lemma prefix_md_length (c : ascii) (a : string) :
  prefix ".md" (String c a) = true -> 2 <= String.length a.
Proof.
  rewrite prefix_cons. destruct (Ascii.eqb "." c); [|discriminate]. cbn [andb].
  destruct a as [|d a]; [discriminate|].
  rewrite prefix_cons. destruct (Ascii.eqb "m" d); [|discriminate]. cbn [andb].
  destruct a as [|e a]; [discriminate|]. cbn. lia.
Qed.

Lemma rep_before_sep (a b : string) (skip : nat) :
  skip <= String.length a ->
  rep skip (a ++ "/" ++ b) = rep skip a ++ "/" ++ rep 0 b.
Proof.
  revert skip. induction a as [|c a IH]; intros skip Hskip.
  - cbn in Hskip. replace skip with 0 by lia. reflexivity.
  - change (String c a ++ "/" ++ b) with (String c (a ++ "/" ++ b)).
    cbn [replace_from]. destruct skip as [|k].
    + rewrite prefix_md_before_sep.
      destruct (prefix ".md" (String c a)) eqn:E.
      * apply prefix_md_length in E. cbn [String.length Nat.sub].
        rewrite IH by (cbn; lia). now rewrite append_assoc.
      * rewrite IH by lia. reflexivity.
    + apply IH. cbn in Hskip. lia.
Qed.

Lemma rep_no_sep (a : string) (skip : nat) :
  contains "/" a = false -> contains "/" (rep skip a) = false.
Proof.
  revert skip. induction a as [|c a IH]; intros skip Ha; [reflexivity|].
  rewrite contains_sep_cons in Ha. apply orb_false_iff in Ha as [Hc Ha].
  cbn [replace_from]. destruct skip as [|k]; [|now apply IH].
  destruct (prefix ".md" (String c a)).
  - rewrite contains_sep_append, Hnew_sep. now apply IH.
  - rewrite contains_sep_cons, Hc. now apply IH.
Qed.

Lemma rep_length (a : string) (skip : nat) :
  String.length a <= String.length (rep skip a) + skip.
Proof.
  revert skip. induction a as [|c a IH]; intros skip; [cbn; lia|].
  cbn [replace_from]. destruct skip as [|k].
  - destruct (prefix ".md" (String c a)).
    + rewrite length_append. specialize (IH 2). cbn [String.length Nat.sub] in *. lia.
    + specialize (IH 0). cbn [String.length]. lia.
  - specialize (IH k). cbn [String.length]. lia.
Qed.

Lemma rep_segment (a : string) : segment a = true -> segment (rep 0 a) = true.
Proof.
  intros Ha. apply segment_inv in Ha as (Hne & Hdot & Hsep).
  pose proof (rep_length a 0) as Hlen.
  apply segment_intro.
  - intros E. rewrite E in Hlen. destruct a; [congruence | cbn in Hlen; lia].
  - intros E. rewrite E in Hlen. cbn in Hlen.
    destruct a as [|c [|d a]]; [congruence | | cbn in Hlen; lia].
    cbn [replace_from] in E. rewrite prefix_cons in E.
    destruct (Ascii.eqb "." c); cbn in E; congruence.
  - now apply rep_no_sep.
Qed.

(** [replace] works segment by segment *)
Lemma rep_join (l : list string) :
  segments l -> rep 0 (join "/" l) = join "/" (map (rep 0) l).
Proof.
  induction 1 as [|x l Hx Hl IH]; [reflexivity|].
  destruct l as [|y l]; [reflexivity|].
  cbn [map]. rewrite !join_cons, rep_before_sep by lia.
  cbn [map] in IH. now rewrite IH.
Qed.

Lemma rep_segments (l : list string) : segments l -> segments (map (rep 0) l).
Proof.
  induction 1 as [|x l Hx Hl IH]; [constructor|].
  cbn [map]. constructor; [now apply rep_segment | assumption].
Qed.

End Replace.

End ReplaceFacts.

Module BaseFolderFacts.
Import PyStr PosixPath Segments StrFacts PathFacts NameFacts KeyMapper.

Section Nested.
Variables (o first : string) (rest : list string) (st : string).
Hypothesis Ho : segment o = true.
Hypothesis Hfirst : segment first = true.
Hypothesis Hrest : segments rest.
Hypothesis Hst : contains "/" st = false.

(** the grounding folder and the chunks folder stand on the first two
    parts of the markdown key, and the grounding key lies below the
    grounding folder *)
Lemma grounding_keys_base :
  let keys := grounding_keys (join "/" ((o :: first :: rest) ++ [(st ++ ".md")%string])) in
  grounding_folder keys = Some ((o ++ "/" ++ first) ++ "_grounding") /\
  chunks_folder keys = (o ++ "/" ++ first) ++ "_chunks/" /\
  exists below,
    below <> [] /\ segments below /\
    grounding_key keys = join "/" ([o; (first ++ "_grounding")%string] ++ below).
Proof.
  assert (Hmd_seg : segments (rest ++ [(st ++ ".md")%string])).
  { apply segments_app; [assumption|]. constructor; [|constructor].
    apply segment_append; [assumption | reflexivity | simpl; lia]. }
  assert (Hbase : segments [o; first]) by (now repeat constructor).
  assert (Hfolder : segments [o; (first ++ "_grounding")%string]).
  { constructor; [assumption|]. constructor; [|constructor].
    apply segment_append; [now apply segment_inv in Hfirst | reflexivity | simpl; lia]. }
  assert (Hall : segments ((o :: first :: rest) ++ [(st ++ ".md")%string])).
  { change ((o :: first :: rest) ++ [(st ++ ".md")%string])%list
      with ([o; first] ++ (rest ++ [(st ++ ".md")%string]))%list.
    now apply segments_app. }
  assert (Hne : (rest ++ [(st ++ ".md")%string])%list <> []) by (now destruct rest).
  unfold grounding_keys.
  rewrite Path_join by (assumption || discriminate).
  rewrite parts_relative.
  change ((o :: first :: rest) ++ [(st ++ ".md")%string])%list
    with (o :: first :: (rest ++ [(st ++ ".md")%string]))%list.
  assert (Hlen : (2 <? List.length (o :: first :: (rest ++ [(st ++ ".md")%string])))%nat = true).
  { apply Nat.ltb_lt. cbn [List.length]. rewrite length_app. simpl. lia. }
  rewrite Hlen. cbn [List.length Nat.leb firstn skipn].
  rewrite (Path_of_segments [o; first]) by (discriminate || assumption).
  rewrite (Path_of_segments (rest ++ [(st ++ ".md")%string])) by assumption.
  rewrite !str_relative by (assumption || discriminate).
  change (join "/" [o; first]) with (o ++ "/" ++ first).
  cbn [grounding_folder chunks_folder grounding_key].
  split; [reflexivity|]. split; [reflexivity|].
  assert (Hnew : 3 <= String.length "_grounding.json") by (simpl; lia).
  unfold replace.
  rewrite (ReplaceFacts.rep_join "_grounding.json" Hnew) by assumption.
  set (below := map (replace_from ".md" "_grounding.json" 0)
                    (rest ++ [(st ++ ".md")%string])).
  assert (Hbelow : segments below).
  { now apply (ReplaceFacts.rep_segments "_grounding.json" eq_refl Hnew). }
  assert (Hbelow_ne : below <> []).
  { subst below. intros E. apply map_eq_nil in E. contradiction. }
  exists below. split; [assumption|]. split; [assumption|].
  replace ((o ++ "/" ++ first) ++ "_grounding")
    with (join "/" [o; (first ++ "_grounding")%string])
    by (cbn [join concat]; rewrite ?append_assoc; reflexivity).
  now apply div_segments.
Qed.

End Nested.
End BaseFolderFacts.

(** ** A key directly under the input folder *)

Module FlatKeyFacts.
Import PyStr PosixPath Segments StrFacts PathFacts NameFacts KeyMapper.

Section Flat.
Variables (cfg : Config) (o fname : string).
Hypothesis Hout : one_segment_folder (OUTPUT_FOLDER cfg) o.
Hypothesis Hname : segment fname = true.

Lemma subfolder_flat : subfolder fname = "".
Proof.
  unfold subfolder. change fname with (join "/" [fname]).
  rewrite Path_join; [reflexivity | discriminate | now constructor].
Qed.

Lemma output_key_flat :
  output_key cfg (INPUT_FOLDER cfg ++ fname)
  = join "/" [o; (stem_of fname ++ ".md")%string].
Proof.
  unfold output_key, output_key_of.
  rewrite KeyMapperFacts.relative_path_under, subfolder_flat.
  rewrite ParseFacts.filename_without_ext_stem.
  unfold filename, name.
  replace (Path fname) with (mkPath "" [fname])
    by (symmetry; apply (Path_join [fname]); [discriminate | now constructor]).
  cbn [tail last truthy String.eqb negb andb join concat].
  destruct Hout as [-> _]. now rewrite append_assoc.
Qed.

(** the markdown key of a flat key has two parts, so the branch of line
    129 is the nested one and the base folder is the markdown key itself:
    the fallback of line 141 is not reached *)
Lemma flat_key_never_reaches_fallback :
  let markdownKey := output_key cfg (INPUT_FOLDER cfg ++ fname) in
  let keys := grounding_keys markdownKey in
  markdownKey = OUTPUT_FOLDER cfg ++ stem_of fname ++ ".md" /\
  grounding_folder keys = Some (markdownKey ++ "_grounding") /\
  chunks_folder keys = markdownKey ++ "_chunks/".
Proof.
  cbv zeta. rewrite output_key_flat.
  assert (Hseg : segments [o; (stem_of fname ++ ".md")%string]).
  { destruct Hout as [_ Ho]. constructor; [assumption|].
    constructor; [|constructor].
    apply stem_segment; [assumption | reflexivity | simpl; lia]. }
  split.
  - destruct Hout as [-> _]. cbn [join concat]. now rewrite append_assoc.
  - unfold grounding_keys.
    rewrite Path_join by (assumption || discriminate).
    rewrite parts_relative. cbn [List.length Nat.leb Nat.ltb firstn].
    rewrite (Path_of_segments [o; (stem_of fname ++ ".md")%string])
      by (assumption || discriminate).
    rewrite str_relative by (assumption || discriminate).
    cbn [grounding_folder chunks_folder]. split; reflexivity.
Qed.

End Flat.
End FlatKeyFacts.

(** ** Facts on the in-memory bucket *)

Module InMemoryFacts.
Import Results.

(** the in-memory store raises nothing but [ClientError], on a missing key *)
Lemma head_raises_client_errors_only (parser : string -> result pyval) :
  head_raises_client_errors_only (InMemory.collaborators parser).
Proof.
  intros bucket key w e w'. cbn [s3_head_object InMemory.collaborators].
  destruct (InMemory.find key w); intros [= <- _]; reflexivity.
Qed.

End InMemoryFacts.

(** * The claims *)

Import PyStr PosixPath Segments KeyMapper BoxGeometry RationalFacts.
Import VisualGrounding Handler Results Py.

(** C1 (amended).  For every input key [INPUT_FOLDER + subfolder + "/" +
    filename] whose sub-folder is a non-empty path of well-formed segments
    [first/rest...], with a well-formed file name, an output folder of one
    segment followed by ["/"], and no [".md"] inside the path below the
    first segment taken with the stem: the grounding folder is
    [OUTPUT_FOLDER + first + "_grounding"], the chunks folder is
    [OUTPUT_FOLDER + first + "_chunks/"], and the grounding key is the
    grounding folder, ["/"], the path below the first segment with the
    stem, and ["_grounding.json"]. *)
Theorem nested_subfolder_collapses_to_first_segment
    (cfg : Config) (o first : string) (rest : list string) (fname : string) :
  one_segment_folder (OUTPUT_FOLDER cfg) o ->
  segment first = true ->
  segments rest ->
  segment fname = true ->
  contains ".md" (join "/" (rest ++ [stem_of fname])) = false ->
  let key := INPUT_FOLDER cfg ++ join "/" (first :: rest) ++ "/" ++ fname in
  let keys := grounding_keys (output_key cfg key) in
  let groundingFolder := OUTPUT_FOLDER cfg ++ first ++ "_grounding" in
  grounding_folder keys = Some groundingFolder /\
  chunks_folder keys = OUTPUT_FOLDER cfg ++ first ++ "_chunks/" /\
  grounding_key keys
  = groundingFolder ++ "/" ++ join "/" (rest ++ [stem_of fname]) ++ "_grounding.json".
Proof.
  intros Hout Hfirst Hrest Hname Hmd key keys groundingFolder.
  subst key keys groundingFolder.
  rewrite <- StrFacts.join_snoc by discriminate.
  change ((first :: rest) ++ [fname])%list with (first :: (rest ++ [fname]))%list.
  rewrite (KeyMapperFacts.output_key_nested first rest fname Hfirst Hrest Hname cfg o Hout).
  destruct Hout as [HO Ho].
  rewrite GroundingKeyFacts.grounding_keys_nested; try assumption.
  - cbn [grounding_folder chunks_folder grounding_key]. rewrite HO.
    repeat split; now rewrite ?StrFacts.append_assoc.
  - apply NameFacts.stem_no_sep. now apply PathFacts.segment_inv in Hname.
Qed.

(** The scenario of the spec: [input/invoices/2024/acme.pdf] under the
    default folders. *)
Lemma nested_subfolder_scenario :
  one_segment_folder (OUTPUT_FOLDER default_config) "output" /\
  segment "invoices" = true /\
  segments ["2024"] /\
  segment "acme.pdf" = true /\
  contains ".md" (join "/" (["2024"] ++ [stem_of "acme.pdf"])) = false /\
  let keys := grounding_keys (output_key default_config "input/invoices/2024/acme.pdf") in
  grounding_folder keys = Some "output/invoices_grounding" /\
  chunks_folder keys = "output/invoices_chunks/" /\
  grounding_key keys = "output/invoices_grounding/2024/acme_grounding.json".
Proof.
  assert (H1 : one_segment_folder (OUTPUT_FOLDER default_config) "output")
    by (split; reflexivity).
  assert (H2 : segments ["2024"]) by (repeat constructor).
  split; [exact H1|]. split; [reflexivity|]. split; [exact H2|].
  split; [reflexivity|]. split; [reflexivity|].
  exact (nested_subfolder_collapses_to_first_segment
           default_config "output" "invoices" ["2024"] "acme.pdf"
           H1 eq_refl H2 eq_refl eq_refl).
Defined.

(** C1, as stated, fails where the output folder has two segments: the
    base folder is cut after the first two parts of the markdown key. *)
Lemma two_segment_output_folder_is_cut :
  let cfg := {| INPUT_FOLDER := "input/"; OUTPUT_FOLDER := "out/put/";
                FORCE_REPROCESS := false; ADE_MODEL := "dpt-2-latest" |} in
  let keys := grounding_keys (output_key cfg ("input/" ++ "a" ++ "/" ++ "x.pdf")) in
  grounding_folder keys = Some "out/put_grounding" /\
  grounding_folder keys <> Some (OUTPUT_FOLDER cfg ++ "a" ++ "_grounding") /\
  chunks_folder keys = "out/put_chunks/" /\
  chunks_folder keys <> OUTPUT_FOLDER cfg ++ "a" ++ "_chunks/" /\
  grounding_key keys = "out/put_grounding/a/x_grounding.json".
Proof. vm_compute. repeat split; discriminate. Qed.

(** A stem that holds [.md]: every occurrence is replaced, so the
    grounding key of [a.md.pdf] is not the stem followed by
    [_grounding.json]. *)
Example stem_with_md_is_replaced_twice :
  let keys := grounding_keys (output_key default_config "input/medical/a.md.pdf") in
  stem_of "a.md.pdf" = "a.md" /\
  grounding_key keys = "output/medical_grounding/a_grounding.json_grounding.json".
Proof. vm_compute. split; reflexivity. Qed.



(** C3 (the code at the failing input).  A key directly under the input
    folder gives a markdown key of two parts, so line 129 takes the branch
    of the nested layout: the grounding key and the chunks folder are
    built on the markdown key itself as base folder, not on the flat
    layout. *)
Theorem flat_key_takes_nested_branch :
  let keys := grounding_keys (output_key default_config "input/readme.txt") in
  output_key default_config "input/readme.txt" = "output/readme.md" /\
  List.length (parts (Path "output/readme.md")) = 2 /\
  grounding_folder keys = Some "output/readme.md_grounding" /\
  grounding_key keys = "output/readme.md_grounding/readme_grounding.json" /\
  chunks_folder keys = "output/readme.md_chunks/" /\
  grounding_key keys <> "output/readme_grounding.json" /\
  chunks_folder keys <> "output/chunks/".
Proof. vm_compute. repeat split; discriminate. Qed.








(** C7 (amended).  For every event record whose key does not end in
    ["/"], has a file name and lies under the input folder, the handler
    appends exactly one result record, with status ["success"],
    ["skipped"] (and a reason) or ["failed"] (and the error string); for
    any other record it appends none.  Where the existence check raises
    nothing but [ClientError] (or re-processing is forced), a failure
    while one document is processed never stops the batch: the handler
    returns the response with the records of all documents, in order. *)
Theorem one_result_per_document {W : Type} (C : Collaborators W) (cfg : Config)
    (records : list S3Record) (s : RunState W) :
  FORCE_REPROCESS cfg = true \/ head_raises_client_errors_only C ->
  exists results s',
    ade_handler C cfg records s = (Ok (handler_response results), s') /\
    Forall2 (fun record r =>
               result_record_for (rec_bucket record) (rec_key record) r)
            (filter (fun record => is_document_key cfg (rec_key record)) records)
            results.
Proof.
  intros Hhead.
  destruct (HandlerFacts.handle_records_appends C cfg records [] s Hhead)
    as (results & s' & E & Hall).
  exists results, s'. split; [|exact Hall].
  unfold ade_handler. rewrite (RunFacts.bind_ok _ _ _ _ _ E). reflexivity.
Qed.

(** A batch of a folder event, a document missing from the bucket, a
    document that parses, and a key outside the input folder. *)
Lemma one_result_per_document_batch :
  let C := InMemory.collaborators (fun _ => Ok (VObj [("markdown", VStr "# Report")])) in
  let records := [mkRecord "docs" "input/reports/";
                  mkRecord "docs" "input/reports/missing.pdf";
                  mkRecord "docs" "input/reports/q3.pdf";
                  mkRecord "docs" "archive/old.pdf"] in
  let s := InMemory.start [("input/reports/q3.pdf", Some (RawBody []))] in
  head_raises_client_errors_only C /\
  exists results s',
    ade_handler C default_config records s = (Ok (handler_response results), s') /\
    Forall2 (fun record r =>
               result_record_for (rec_bucket record) (rec_key record) r)
            [mkRecord "docs" "input/reports/missing.pdf";
             mkRecord "docs" "input/reports/q3.pdf"]
            results.
Proof.
  intros C records s.
  split; [apply InMemoryFacts.head_raises_client_errors_only|].
  exact (one_result_per_document C default_config records s
           (or_intror (InMemoryFacts.head_raises_client_errors_only _))).
Defined.

(** C7, as stated, fails on the records the loop passes over: a folder
    event and a document outside the input folder get no result record at
    all.  And an existence check that raises another exception than
    [ClientError] (a timeout) ends the batch: the handler raises. *)
Lemma passed_over_records_get_no_result :
  let parser := fun _ : string => Ok (VObj [("markdown", VStr "# Report")]) in
  fst (ade_handler (InMemory.collaborators parser) default_config
         [mkRecord "docs" "input/reports/"; mkRecord "docs" "archive/old.pdf"]
         (InMemory.start []))
  = Ok (handler_response []) /\
  fst (ade_handler (InMemory.timing_out parser) default_config
         [mkRecord "docs" "input/reports/a.pdf"; mkRecord "docs" "input/reports/b.pdf"]
         (InMemory.start [("input/reports/a.pdf", Some (RawBody []));
                          ("input/reports/b.pdf", Some (RawBody []))]))
  = Raise (mkExn OtherException "Connect timeout on endpoint URL").
Proof. vm_compute. split; reflexivity. Qed.

(** The same batch on a store that answers: the missing document fails,
    the next one is processed. *)
Example batch_continues_after_failure :
  let C := InMemory.collaborators (fun _ => Ok (VObj [("markdown", VStr "# Report")])) in
  fst (ade_handler C default_config
         [mkRecord "docs" "input/reports/missing.pdf";
          mkRecord "docs" "input/reports/q3.pdf"]
         (InMemory.start [("input/reports/q3.pdf", Some (RawBody []))]))
  = Ok (handler_response
          [VDict [("source", VStr "s3://docs/input/reports/missing.pdf");
                  ("error", VStr "An error occurred (404): Not Found");
                  ("status", VStr "failed")];
           VDict [("source", VStr "s3://docs/input/reports/q3.pdf");
                  ("output", VStr "s3://docs/output/reports/q3.md");
                  ("status", VStr "success")]]).
Proof. vm_compute. reflexivity. Qed.

(** C8 (amended).  For every input key with a non-empty sub-folder of
    well-formed segments, a well-formed file name and an output folder of
    one segment, the markdown key, the grounding folder, the grounding key
    and the chunks folder (with every chunk file in it) share the base
    folder [OUTPUT_FOLDER + first], where [first] is the first segment of
    the sub-folder: the markdown key lies under [base/] and ends in
    [".md"], the grounding folder is [base_grounding], the grounding key
    lies under it, and the chunks folder is [base_chunks/]. *)
Theorem derived_keys_share_first_segment_base
    (cfg : Config) (o first : string) (rest : list string) (fname : string) :
  one_segment_folder (OUTPUT_FOLDER cfg) o ->
  segment first = true ->
  segments rest ->
  segment fname = true ->
  let key := INPUT_FOLDER cfg ++ join "/" (first :: rest) ++ "/" ++ fname in
  let base := OUTPUT_FOLDER cfg ++ first in
  let markdownKey := output_key cfg key in
  let keys := grounding_keys markdownKey in
  startswith markdownKey (base ++ "/") = true /\
  endswith markdownKey ".md" = true /\
  grounding_folder keys = Some (base ++ "_grounding") /\
  startswith (grounding_key keys) ((base ++ "_grounding") ++ "/") = true /\
  chunks_folder keys = base ++ "_chunks/" /\
  (forall fwe chunk_id,
      startswith (chunk_key (chunks_folder keys) fwe chunk_id) (base ++ "_chunks/") = true).
Proof.
  intros Hout Hfirst Hrest Hname key base markdownKey keys.
  assert (Hkey : markdownKey
                 = join "/" ((o :: first :: rest) ++ [(stem_of fname ++ ".md")%string])).
  { subst markdownKey key.
    rewrite <- StrFacts.join_snoc by discriminate.
    change ((first :: rest) ++ [fname])%list with (first :: (rest ++ [fname]))%list.
    exact (KeyMapperFacts.output_key_nested first rest fname Hfirst Hrest Hname cfg o Hout). }
  destruct Hout as [HO Ho].
  assert (Hbase : base = o ++ "/" ++ first).
  { subst base. rewrite HO. now rewrite StrFacts.append_assoc. }
  assert (Hst : contains "/" (stem_of fname) = false).
  { apply NameFacts.stem_no_sep. now apply PathFacts.segment_inv in Hname. }
  destruct (BaseFolderFacts.grounding_keys_base o first rest (stem_of fname)
              Ho Hfirst Hrest Hst) as (Hgf & Hcf & below & Hne & Hbelow & Hgk).
  subst keys. rewrite Hkey, Hbase.
  split; [|split; [|split; [|split; [|split]]]].
  - change ((o :: first :: rest) ++ [(stem_of fname ++ ".md")%string])%list
      with ([o; first] ++ (rest ++ [(stem_of fname ++ ".md")%string]))%list.
    rewrite PathFacts.join_app by (discriminate || now destruct rest).
    change (join "/" [o; first]) with (o ++ "/" ++ first).
    rewrite <- StrFacts.append_assoc. apply StrFacts.startswith_append.
  - rewrite StrFacts.join_snoc_append. apply StrFacts.endswith_append.
  - exact Hgf.
  - rewrite Hgk, PathFacts.join_app by (discriminate || assumption).
    replace (join "/" [o; (first ++ "_grounding")%string])
      with ((o ++ "/" ++ first) ++ "_grounding")
      by (cbn [join concat]; rewrite ?StrFacts.append_assoc; reflexivity).
    rewrite <- StrFacts.append_assoc. apply StrFacts.startswith_append.
  - exact Hcf.
  - intros fwe chunk_id. rewrite Hcf. unfold chunk_key.
    apply StrFacts.startswith_append.
Qed.

(** The scenario of the spec, with a stem that holds [.md]. *)
Lemma derived_keys_share_base_example :
  one_segment_folder (OUTPUT_FOLDER default_config) "output" /\
  segment "invoices" = true /\
  segments ["2024"] /\
  segment "acme.md.pdf" = true /\
  let markdownKey := output_key default_config "input/invoices/2024/acme.md.pdf" in
  let keys := grounding_keys markdownKey in
  startswith markdownKey "output/invoices/" = true /\
  endswith markdownKey ".md" = true /\
  grounding_folder keys = Some "output/invoices_grounding" /\
  startswith (grounding_key keys) "output/invoices_grounding/" = true /\
  chunks_folder keys = "output/invoices_chunks/" /\
  (forall fwe chunk_id,
      startswith (chunk_key (chunks_folder keys) fwe chunk_id) "output/invoices_chunks/"
      = true).
Proof.
  assert (H1 : one_segment_folder (OUTPUT_FOLDER default_config) "output")
    by (split; reflexivity).
  assert (H2 : segments ["2024"]) by (repeat constructor).
  split; [exact H1|]. split; [reflexivity|]. split; [exact H2|]. split; [reflexivity|].
  exact (derived_keys_share_first_segment_base
           default_config "output" "invoices" ["2024"] "acme.md.pdf"
           H1 eq_refl H2 eq_refl).
Defined.

(** C8, as stated, fails on a nested sub-folder: the base folder is built
    on the first segment of the sub-folder, not on its leaf; and the chunk
    images go to one fixed folder whatever the document. *)
Lemma leaf_is_not_the_base_folder :
  let key := "input/invoices/2024/acme.pdf" in
  let sub := subfolder (relative_path default_config key) in
  let leaf := name (Path sub) in
  let base := OUTPUT_FOLDER default_config ++ leaf in
  let keys := grounding_keys (output_key default_config key) in
  sub = "invoices/2024" /\ leaf = "2024" /\
  startswith (output_key default_config key) (base ++ "/") = false /\
  grounding_folder keys = Some "output/invoices_grounding" /\
  grounding_folder keys <> Some (base ++ "_grounding") /\
  chunks_folder keys <> base ++ "_chunks/" /\
  image_key "acme" "c1" = "output/medical_chunk_images/acme_c1.png" /\
  startswith (image_key "acme" "c1") (base ++ "_chunk_images/") = false /\
  startswith (image_key "acme" "c1") ("output/invoices" ++ "_chunk_images/") = false.
Proof. vm_compute. repeat split; discriminate. Qed.

(** C9.  The colour of a chunk type is a total function of the tag: it
    always returns a triple of channels in [0..255], depends on the tag
    only up to case, returns green, blue and magenta for ["text"],
    ["table"] and ["figure"], and returns the default gray for every tag
    whose lower-case form is not a key of the table. *)
Theorem chunk_type_color_total (chunk_type : string) :
  (exists r g b, rgb_color chunk_type = Ok (r, g, b)
                 /\ channel r /\ channel g /\ channel b) /\
  (forall other, lower other = lower chunk_type ->
                 rgb_color other = rgb_color chunk_type) /\
  rgb_color (lower chunk_type) = rgb_color chunk_type /\
  (~ In (lower chunk_type) (map fst CHUNK_TYPE_COLORS) ->
   rgb_color chunk_type = Ok (128, 128, 128)%Z) /\
  rgb_color "text" = Ok (40, 167, 69)%Z /\
  rgb_color "table" = Ok (0, 123, 255)%Z /\
  rgb_color "figure" = Ok (255, 0, 255)%Z /\
  rgb_color "Table" = rgb_color "table" /\
  rgb_color "FIGURE" = rgb_color "figure".
Proof.
  split; [|split; [|split; [|split]]].
  - rewrite ColorFacts.rgb_color_eq.
    destruct (lookup (lower chunk_type) CHUNK_TYPE_COLORS) as [[[r g] b]|] eqn:E.
    + exists r, g, b. split; [reflexivity|].
      apply ColorFacts.lookup_in in E.
      pose proof ColorFacts.table_channels as Hall.
      rewrite Forall_forall in Hall. exact (Hall _ E).
    + exists 128%Z, 128%Z, 128%Z. unfold channel. repeat split; lia.
  - intros other Hother. rewrite !ColorFacts.rgb_color_eq. now rewrite Hother.
  - rewrite !ColorFacts.rgb_color_eq. now rewrite ColorFacts.lower_idempotent.
  - intros Hnot. rewrite ColorFacts.rgb_color_eq.
    now rewrite (ColorFacts.lookup_none _ _ Hnot).
  - repeat split; reflexivity.
Qed.

(** A tag outside the table, in mixed case. *)
Lemma unknown_chunk_type_is_gray :
  ~ In (lower "Heading") (map fst CHUNK_TYPE_COLORS) /\
  rgb_color "Heading" = Ok (128, 128, 128)%Z.
Proof.
  assert (Hnot : ~ In (lower "Heading") (map fst CHUNK_TYPE_COLORS)).
  { cbn. intros Hin.
    repeat (destruct Hin as [Hin|Hin]; [discriminate Hin|]). exact Hin. }
  split; [exact Hnot|].
  exact (proj1 (proj2 (proj2 (proj2 (chunk_type_color_total "Heading")))) Hnot).
Defined.

(** C10 (amended).  For every chunk record with a non-empty id: when it
    has no grounding entry, its file has [bbox = [0, 0, 1, 1]] and
    [page = 0]; when its grounding is a dict without a box, its file has
    [bbox = [0, 0, 1, 1]] and the page of that grounding ([0] when it has
    none).  A chunk record with an empty id is passed over: no file is
    written for it. *)
Theorem chunk_without_box_gets_full_page {W : Type} (C : Collaborators W)
    (chunks_folder fwe : string) (d : list (string * pyval)) :
  (truthy (id_of d) = false ->
   chunk_file_of C chunks_folder fwe (VDict d) = Ok SkipChunk /\
   forall bucket rest s,
     write_chunk_files C bucket chunks_folder fwe (VDict d :: rest) s
     = write_chunk_files C bucket chunks_folder fwe rest s) /\
  (truthy (id_of d) = true -> assoc "grounding" d = None ->
   exists chunk_json,
     chunk_file_of C chunks_folder fwe (VDict d)
     = Ok (ChunkFile (chunk_key chunks_folder fwe (format C (id_of d))) chunk_json) /\
     field chunk_json "bbox" = Some (VList [VInt 0; VInt 0; VInt 1; VInt 1]) /\
     field chunk_json "page" = Some (VInt 0)) /\
  (truthy (id_of d) = true ->
   forall g, assoc "grounding" d = Some (VDict g) -> assoc "box" g = None ->
   exists chunk_json,
     chunk_file_of C chunks_folder fwe (VDict d)
     = Ok (ChunkFile (chunk_key chunks_folder fwe (format C (id_of d))) chunk_json) /\
     field chunk_json "bbox" = Some (VList [VInt 0; VInt 0; VInt 1; VInt 1]) /\
     field chunk_json "page"
     = Some (match assoc "page" g with Some page => page | None => VInt 0 end)).
Proof.
  split; [|split].
  - intros Hid.
    pose proof (ChunkFacts.skip_falsy_id C chunks_folder fwe d Hid) as Hskip.
    split; [exact Hskip|].
    intros bucket rest s. cbn [write_chunk_files].
    unfold Run.bind, Run.lift. now rewrite Hskip.
  - intros Hid Hnone. eexists. split; [|split].
    + apply (ChunkFacts.file_without_box C chunks_folder fwe d []); try assumption.
      * cbn [dict_get]. now rewrite Hnone.
      * reflexivity.
    + reflexivity.
    + reflexivity.
  - intros Hid g Hg Hbox. eexists. split; [|split].
    + apply (ChunkFacts.file_without_box C chunks_folder fwe d g); try assumption.
      cbn [dict_get]. now rewrite Hg.
    + reflexivity.
    + reflexivity.
Qed.

(** A chunk of a response with an id, a type and a text, and no grounding. *)
Lemma chunk_without_grounding_example :
  let C := InMemory.collaborators (fun _ => Ok VNone) in
  let d := [("id", VStr "c1"); ("type", VStr "text"); ("markdown", VStr "Hello")] in
  truthy (id_of d) = true /\ assoc "grounding" d = None /\
  exists chunk_json,
    chunk_file_of C "output/reports_chunks/" "q3" (VDict d)
    = Ok (ChunkFile "output/reports_chunks/q3_c1.json" chunk_json) /\
    field chunk_json "bbox" = Some (VList [VInt 0; VInt 0; VInt 1; VInt 1]) /\
    field chunk_json "page" = Some (VInt 0).
Proof.
  intros C d. split; [reflexivity|]. split; [reflexivity|].
  exact (proj1 (proj2 (chunk_without_box_gets_full_page
                         C "output/reports_chunks/" "q3" d))
               eq_refl eq_refl).
Defined.

(** C10, as stated, fails on a chunk that the response gives as a dict
    whose grounding has a page and no box: the chunk is kept as it is, and
    its file has the page of the grounding, not [0]. *)
Lemma page_only_grounding_keeps_its_page :
  let C := InMemory.collaborators (fun _ => Ok VNone) in
  let chunk := VDict [("id", VStr "c1"); ("markdown", VStr "Hello");
                      ("grounding", VDict [("page", VInt 3)])] in
  extract_chunks (VObj [("markdown", VStr "Hello"); ("chunks", VList [chunk])])
  = Ok [chunk] /\
  chunk_file_of C "output/reports_chunks/" "q3" chunk
  = Ok (ChunkFile "output/reports_chunks/q3_c1.json"
          (VDict [("chunk_id", VStr "c1");
                  ("chunk_type", VStr "text");
                  ("text", VStr "Hello");
                  ("bbox", VList [VInt 0; VInt 0; VInt 1; VInt 1]);
                  ("page", VInt 3);
                  ("source_document", VStr "q3")])) /\
  VInt 3 <> VInt 0.
Proof. vm_compute. repeat split; discriminate. Qed.

(** * Further properties of the handler *)

Module RecordFacts.
Import PyStr Py Run Handler Results Variants.

Section WithCollaborators.
Context {W : Type}.
Variable C : Collaborators W.
Variable cfg : Config.

(** the turn of the loop for a document key, after the folders are ensured *)
Lemma handle_record_document (bucket key : string) (results : list pyval)
    (s s1 : RunState W) :
  is_document_key cfg key = true ->
  ensure_s3_folders C cfg bucket s = (Ok tt, s1) ->
  handle_record C cfg (mkRecord bucket key) results s
  = (skip <- already_processed C cfg bucket (KeyMapper.output_key cfg key) ;;
     if (skip : bool)
     then ret (results ++ [skipped_result bucket key (KeyMapper.output_key cfg key)])%list
     else
       try_except
         (process_document C cfg bucket key
            (KeyMapper.filename (KeyMapper.relative_path cfg key))
            (KeyMapper.filename_without_ext (KeyMapper.relative_path cfg key))
            (KeyMapper.output_key cfg key) ;;;
          ret (results ++ [success_result bucket key (KeyMapper.output_key cfg key)])%list)
         any_exception
         (fun e => ret (results ++ [failed_result bucket key e])%list)) s1.
Proof.
  unfold is_document_key. intros Hdoc Hens.
  apply andb_true_iff in Hdoc as [Hdoc Hstart].
  apply andb_true_iff in Hdoc as [Hend Hbase].
  apply negb_true_iff in Hend.
  unfold handle_record. cbn [rec_bucket rec_key].
  rewrite Hend, Hbase. cbn [negb].
  rewrite (RunFacts.bind_ok _ _ _ _ _ Hens), Hstart. reflexivity.
Qed.

Lemma already_processed_found (bucket output_key : string) (s : RunState W) (w' : W) :
  FORCE_REPROCESS cfg = false ->
  s3_head_object C bucket output_key (world s) = (Ok tt, w') ->
  already_processed C cfg bucket output_key s = (Ok true, mkRun w' (puts s)).
Proof.
  intros Hforce Hhead. unfold already_processed. rewrite Hforce. cbn [negb].
  unfold try_except, bind, call, ret. now rewrite Hhead.
Qed.

Lemma already_processed_forced (bucket output_key : string) (s : RunState W) :
  FORCE_REPROCESS cfg = true ->
  already_processed C cfg bucket output_key s = (Ok false, s).
Proof. intros Hforce. unfold already_processed. now rewrite Hforce. Qed.

End WithCollaborators.
End RecordFacts.

Import Variants.

(** X1.  [ensure_s3_folders] returns whatever the store answers, after
    exactly two [put_object] calls: the input folder key, then the output
    folder key, both without body and content type. *)
Theorem ensure_s3_folders_puts_both_keys {W : Type} (C : Collaborators W)
    (cfg : Config) (bucket : string) (s : RunState W) :
  exists accepted_in accepted_out w',
    ensure_s3_folders C cfg bucket s
    = (Ok tt,
       mkRun w' (puts s ++ [mkPut bucket (INPUT_FOLDER cfg) None None accepted_in;
                            mkPut bucket (OUTPUT_FOLDER cfg) None None accepted_out])%list).
Proof.
  unfold ensure_s3_folders. cbn [fold_right].
  unfold Run.bind, Run.try_except, Run.put_object, Run.ret, any_exception.
  destruct (s3_put_object C bucket (INPUT_FOLDER cfg) None None (world s))
    as [r1 w1].
  destruct r1 as [[]|e1]; cbn [world puts];
    destruct (s3_put_object C bucket (OUTPUT_FOLDER cfg) None None w1) as [r2 w2];
    destruct r2 as [[]|e2]; cbn [world puts]; rewrite <- app_assoc;
      do 3 eexists; reflexivity.
Qed.

(** X2.  Where re-processing is not forced and the existence check finds
    the markdown key, the turn of the loop ends there: the record is
    ["skipped"] with reason ["already_processed"], and after the two folder
    puts and the check no collaborator is called (nothing is fetched,
    parsed or put). *)
Theorem existing_output_is_skipped {W : Type} (C : Collaborators W) (cfg : Config)
    (bucket key : string) (results : list pyval) (s s1 : RunState W) (w2 : W) :
  is_document_key cfg key = true ->
  FORCE_REPROCESS cfg = false ->
  ensure_s3_folders C cfg bucket s = (Ok tt, s1) ->
  s3_head_object C bucket (output_key cfg key) (world s1) = (Ok tt, w2) ->
  handle_record C cfg (mkRecord bucket key) results s
  = (Ok (results ++ [skipped_result bucket key (output_key cfg key)])%list,
     mkRun w2 (puts s1)).
Proof.
  intros Hdoc Hforce Hens Hhead.
  rewrite (RecordFacts.handle_record_document C cfg bucket key results s s1 Hdoc Hens).
  rewrite (RunFacts.bind_ok _ _ _ _ _
             (RecordFacts.already_processed_found C cfg bucket _ s1 w2 Hforce Hhead)).
  reflexivity.
Qed.

(** A document whose markdown object is in the bucket already. *)
Lemma existing_output_example :
  let C := InMemory.collaborators (fun _ => Ok (VObj [("markdown", VStr "# Report")])) in
  let bucket_objects := [("output/reports/q3.md", Some (Utf8Body "# Report"));
                         ("input/reports/q3.pdf", Some (RawBody []))] in
  let s := InMemory.start bucket_objects in
  let w := (("output/", None) :: ("input/", None) :: bucket_objects)%list in
  handle_record C default_config (mkRecord "docs" "input/reports/q3.pdf") [] s
  = (Ok [skipped_result "docs" "input/reports/q3.pdf" "output/reports/q3.md"],
     mkRun w [mkPut "docs" "input/" None None true;
              mkPut "docs" "output/" None None true]).
Proof.
  intros C bucket_objects s w.
  exact (existing_output_is_skipped C default_config "docs" "input/reports/q3.pdf" []
           s (mkRun w [mkPut "docs" "input/" None None true;
                       mkPut "docs" "output/" None None true]) w
           eq_refl eq_refl eq_refl eq_refl).
Defined.

Module ForcedFacts.
Import PyStr Py Run Handler Results Variants.

Section WithCollaborators.
Context {W : Type}.
Variable C : Collaborators W.
Variable cfg : Config.
Hypothesis Hforce : FORCE_REPROCESS cfg = true.

Lemma success_not_skipped (bucket key output_key : string) :
  not_skipped (success_result bucket key output_key).
Proof. now left. Qed.

Lemma failed_not_skipped (bucket key : string) (e : exn) :
  not_skipped (failed_result bucket key e).
Proof. now right. Qed.

Lemma handle_record_forced (record : S3Record) (results : list pyval)
    (s : RunState W) :
  exists new s',
    handle_record C cfg record results s = (Ok (results ++ new)%list, s') /\
    Forall not_skipped new.
Proof.
  unfold handle_record.
  destruct (endswith (rec_key record) "/").
  { exists [], s. rewrite app_nil_r. now split. }
  destruct (PyStr.truthy (PosixPath.basename (rec_key record))).
  2:{ exists [], s. rewrite app_nil_r. now split. }
  cbn [negb].
  destruct (HandlerFacts.ensure_s3_folders_returns C cfg (rec_bucket record) s)
    as (s1 & E1).
  rewrite (RunFacts.bind_ok _ _ _ _ _ E1).
  destruct (startswith (rec_key record) (INPUT_FOLDER cfg)).
  2:{ exists [], s1. rewrite app_nil_r. now split. }
  cbn [negb].
  rewrite (RunFacts.bind_ok _ _ _ _ _
             (RecordFacts.already_processed_forced C cfg _ _ s1 Hforce)).
  unfold try_except, any_exception.
  match goal with |- context [bind ?m ?k s1] => destruct (bind m k s1) as [[r|e] s3] eqn:E3 end.
  - unfold bind in E3.
    match type of E3 with context [process_document ?a ?b ?c ?d ?e ?f ?g ?h] =>
      destruct (process_document a b c d e f g h) as [[u|e'] s4] end;
      [|discriminate].
    injection E3 as <- <-.
    eexists [_], s4. split; [reflexivity|].
    constructor; [apply success_not_skipped | constructor].
  - eexists [_], s3. split; [reflexivity|].
    constructor; [apply failed_not_skipped | constructor].
Qed.

Lemma handle_records_forced (records : list S3Record) (results : list pyval)
    (s : RunState W) :
  exists new s',
    handle_records C cfg records results s = (Ok (results ++ new)%list, s') /\
    Forall not_skipped new.
Proof.
  revert results s. induction records as [|record rest IH]; intros results s.
  - exists [], s. cbn. rewrite app_nil_r. now split.
  - destruct (handle_record_forced record results s) as (new1 & s1 & E1 & H1).
    destruct (IH (results ++ new1)%list s1) as (new2 & s2 & E2 & H2).
    exists (new1 ++ new2)%list, s2. split.
    + cbn [handle_records]. rewrite (RunFacts.bind_ok _ _ _ _ _ E1), E2.
      now rewrite app_assoc.
    + now apply Forall_app.
Qed.

(** the existence check is not called *)
Lemma handle_record_ignores_head (head : string -> string -> W -> result unit * W)
    (record : S3Record) (results : list pyval) (s : RunState W) :
  handle_record (with_head_object C head) cfg record results s
  = handle_record C cfg record results s.
Proof.
  unfold handle_record.
  destruct (endswith (rec_key record) "/"); [reflexivity|].
  destruct (PyStr.truthy (PosixPath.basename (rec_key record))); [|reflexivity].
  cbn [negb].
  change (ensure_s3_folders (with_head_object C head) cfg (rec_bucket record))
    with (ensure_s3_folders C cfg (rec_bucket record)).
  unfold bind at 1. unfold bind at 3.
  destruct (ensure_s3_folders C cfg (rec_bucket record) s) as [[[]|e] s1]; [|reflexivity].
  destruct (startswith (rec_key record) (INPUT_FOLDER cfg)); [|reflexivity].
  cbn [negb].
  rewrite !(RunFacts.bind_ok _ _ _ _ _
              (RecordFacts.already_processed_forced _ cfg _ _ s1 Hforce)).
  reflexivity.
Qed.

Lemma handle_records_ignores_head (head : string -> string -> W -> result unit * W)
    (records : list S3Record) (results : list pyval) (s : RunState W) :
  handle_records (with_head_object C head) cfg records results s
  = handle_records C cfg records results s.
Proof.
  revert results s. induction records as [|record rest IH]; intros results s;
    [reflexivity|].
  cbn [handle_records]. unfold bind. rewrite handle_record_ignores_head.
  destruct (handle_record C cfg record results s) as [[r|e] s1]; [apply IH | reflexivity].
Qed.

End WithCollaborators.
End ForcedFacts.

(** X3.  Where re-processing is forced, the handler never consults the
    existence check (any other check gives the same run), it returns, and
    no result record is ["skipped"]: every document is processed again. *)
Theorem forced_reprocess_never_skips {W : Type} (C : Collaborators W) (cfg : Config)
    (records : list S3Record) (s : RunState W) :
  FORCE_REPROCESS cfg = true ->
  (forall head,
      ade_handler (with_head_object C head) cfg records s
      = ade_handler C cfg records s) /\
  exists results s',
    ade_handler C cfg records s = (Ok (handler_response results), s') /\
    Forall not_skipped results.
Proof.
  intros Hforce. split.
  - intros head. unfold ade_handler, Run.bind.
    now rewrite (ForcedFacts.handle_records_ignores_head C cfg Hforce).
  - destruct (ForcedFacts.handle_records_forced C cfg Hforce records [] s)
      as (results & s' & E & Hall).
    exists results, s'. split; [|exact Hall].
    unfold ade_handler. now rewrite (RunFacts.bind_ok _ _ _ _ _ E).
Qed.

(** A forced run over a document whose markdown object exists. *)
Lemma forced_reprocess_example :
  let cfg := {| INPUT_FOLDER := "input/"; OUTPUT_FOLDER := "output/";
                FORCE_REPROCESS := true; ADE_MODEL := "dpt-2-latest" |} in
  let C := InMemory.collaborators (fun _ => Ok (VObj [("markdown", VStr "# Report")])) in
  let s := InMemory.start [("output/reports/q3.md", Some (Utf8Body "# Old"));
                           ("input/reports/q3.pdf", Some (RawBody []))] in
  FORCE_REPROCESS cfg = true /\
  exists results s',
    ade_handler C cfg [mkRecord "docs" "input/reports/q3.pdf"] s
    = (Ok (handler_response results), s') /\
    Forall not_skipped results.
Proof.
  intros cfg C s. split; [reflexivity|].
  exact (proj2 (forced_reprocess_never_skips C cfg
                  [mkRecord "docs" "input/reports/q3.pdf"] s eq_refl)).
Defined.

Module DocumentFacts.
Import PyStr Py Run Handler Results Variants.

Section WithCollaborators.
Context {W : Type}.
Variable C : Collaborators W.
Variable cfg : Config.
Variables (bucket key : string) (results : list pyval).
Variables (s s1 s2 : RunState W).
Hypothesis Hdoc : is_document_key cfg key = true.
Hypothesis Hens : ensure_s3_folders C cfg bucket s = (Ok tt, s1).
Hypothesis Hnew :
  already_processed C cfg bucket (KeyMapper.output_key cfg key) s1 = (Ok false, s2).

Local Abbreviation filename := (KeyMapper.filename (KeyMapper.relative_path cfg key)).
Local Abbreviation fwe :=
  (KeyMapper.filename_without_ext (KeyMapper.relative_path cfg key)).
Local Abbreviation tmp_path :=
  (PosixPath.str (PosixPath.div (PosixPath.Path "/tmp") filename)).

(** what the turn of the loop appends, by the outcome of the document *)
Lemma handle_record_failed (e : exn) (s3 : RunState W) :
  process_document C cfg bucket key filename fwe (KeyMapper.output_key cfg key) s2
  = (Raise e, s3) ->
  handle_record C cfg (mkRecord bucket key) results s
  = (Ok (results ++ [failed_result bucket key e])%list, s3).
Proof.
  intros Hproc.
  rewrite (RecordFacts.handle_record_document C cfg bucket key results s s1 Hdoc Hens).
  rewrite (RunFacts.bind_ok _ _ _ _ _ Hnew).
  unfold try_except, any_exception, bind, ret. now rewrite Hproc.
Qed.

Lemma handle_record_succeeded (s3 : RunState W) :
  process_document C cfg bucket key filename fwe (KeyMapper.output_key cfg key) s2
  = (Ok tt, s3) ->
  handle_record C cfg (mkRecord bucket key) results s
  = (Ok (results ++ [success_result bucket key (KeyMapper.output_key cfg key)])%list, s3).
Proof.
  intros Hproc.
  rewrite (RecordFacts.handle_record_document C cfg bucket key results s s1 Hdoc Hens).
  rewrite (RunFacts.bind_ok _ _ _ _ _ Hnew).
  unfold try_except, any_exception, bind, ret. now rewrite Hproc.
Qed.

Lemma fetch_failure (e : exn) (w1 : W) (output_key : string) :
  s3_get_object C bucket key (world s2) = (Raise e, w1) ->
  process_document C cfg bucket key filename fwe output_key s2
  = (Raise e, mkRun w1 (puts s2)).
Proof.
  intros Hget. unfold process_document, bind, call. now rewrite Hget.
Qed.

Lemma temp_write_failure (e : exn) (file_bytes : bytes) (w1 w2 : W)
    (output_key : string) :
  s3_get_object C bucket key (world s2) = (Ok file_bytes, w1) ->
  write_bytes C tmp_path file_bytes w1 = (Raise e, w2) ->
  process_document C cfg bucket key filename fwe output_key s2
  = (Raise e, mkRun w2 (puts s2)).
Proof.
  intros Hget Hwrite. unfold process_document, bind, call.
  rewrite Hget. cbn [world puts]. now rewrite Hwrite.
Qed.

Lemma parse_failure (e : exn) (file_bytes : bytes) (w1 w2 w3 : W)
    (output_key : string) :
  s3_get_object C bucket key (world s2) = (Ok file_bytes, w1) ->
  write_bytes C tmp_path file_bytes w1 = (Ok tt, w2) ->
  ade_parse C tmp_path (ADE_MODEL cfg) w2 = (Raise e, w3) ->
  process_document C cfg bucket key filename fwe output_key s2
  = (Raise e, mkRun w3 (puts s2)).
Proof.
  intros Hget Hwrite Hparse. unfold process_document, bind, call.
  rewrite Hget. cbn [world puts]. rewrite Hwrite. cbn [world puts].
  now rewrite Hparse.
Qed.

(** once the markdown object is put, the document succeeds *)
Lemma markdown_put_succeeds (file_bytes : bytes) (w1 w2 w3 w4 : W)
    (response : pyval) (markdown output_key : string) :
  s3_get_object C bucket key (world s2) = (Ok file_bytes, w1) ->
  write_bytes C tmp_path file_bytes w1 = (Ok tt, w2) ->
  ade_parse C tmp_path (ADE_MODEL cfg) w2 = (Ok response, w3) ->
  attr response "markdown" = Some (VStr markdown) ->
  s3_put_object C bucket output_key (Some (Utf8Body markdown)) (Some "text/markdown") w3
  = (Ok tt, w4) ->
  exists s3,
    process_document C cfg bucket key filename fwe output_key s2 = (Ok tt, s3).
Proof.
  intros Hget Hwrite Hparse Hmd Hput.
  unfold process_document.
  unfold bind at 1, call at 1. rewrite Hget.
  unfold bind at 1, call at 1. cbn [world]. rewrite Hwrite.
  unfold bind at 1, call at 1. cbn [world]. rewrite Hparse.
  unfold bind at 1, lift at 1, getattr. rewrite Hmd.
  unfold bind at 1, lift at 1. cbn [encode].
  unfold bind at 1, put_object. cbn [world puts]. rewrite Hput.
  unfold save_grounding.
  destruct (RunFacts.try_except_any_returns
              (grounding_data <- lift (grounding_record response) ;;
               if truthy (VList (chunks_of grounding_data)) then
                 body <- lift (json_dumps grounding_data) ;;
                 Run.put_object C bucket
                   (KeyMapper.grounding_key (KeyMapper.grounding_keys output_key))
                   (Some body) (Some "application/json") ;;;
                 write_chunk_files C bucket
                   (KeyMapper.chunks_folder (KeyMapper.grounding_keys output_key))
                   fwe (chunks_of grounding_data)
               else ret tt)
              (fun _ => tt)
              (mkRun w4 (puts s2 ++ [mkPut bucket output_key (Some (Utf8Body markdown))
                                           (Some "text/markdown") true])))
    as ([] & s3 & E).
  exists s3. exact E.
Qed.

End WithCollaborators.
End DocumentFacts.

(** X4.  When the fetch of the document, the write of its temporary file
    or the parser raises, the record of the document is ["failed"] with
    the message of that exception, and nothing is put for the document:
    the calls logged are those made before. *)
Theorem early_failure_writes_nothing {W : Type} (C : Collaborators W) (cfg : Config)
    (bucket key : string) (results : list pyval) (s s1 s2 : RunState W) (e : exn) :
  is_document_key cfg key = true ->
  ensure_s3_folders C cfg bucket s = (Ok tt, s1) ->
  already_processed C cfg bucket (output_key cfg key) s1 = (Ok false, s2) ->
  let tmp_path := str (div (Path "/tmp") (filename (relative_path cfg key))) in
  let failed w :=
    handle_record C cfg (mkRecord bucket key) results s
    = (Ok (results ++ [failed_result bucket key e])%list, mkRun w (puts s2)) in
  (forall w1, s3_get_object C bucket key (world s2) = (Raise e, w1) -> failed w1) /\
  (forall file_bytes w1 w2,
      s3_get_object C bucket key (world s2) = (Ok file_bytes, w1) ->
      write_bytes C tmp_path file_bytes w1 = (Raise e, w2) -> failed w2) /\
  (forall file_bytes w1 w2 w3,
      s3_get_object C bucket key (world s2) = (Ok file_bytes, w1) ->
      write_bytes C tmp_path file_bytes w1 = (Ok tt, w2) ->
      ade_parse C tmp_path (ADE_MODEL cfg) w2 = (Raise e, w3) -> failed w3).
Proof.
  intros Hdoc Hens Hnew tmp_path failed. subst failed tmp_path. cbv beta.
  split; [|split].
  - intros w1 Hget.
    apply (DocumentFacts.handle_record_failed C cfg bucket key results s s1 s2
             Hdoc Hens Hnew).
    now apply DocumentFacts.fetch_failure.
  - intros file_bytes w1 w2 Hget Hwrite.
    apply (DocumentFacts.handle_record_failed C cfg bucket key results s s1 s2
             Hdoc Hens Hnew).
    now apply (DocumentFacts.temp_write_failure C cfg bucket key s2 e file_bytes w1 w2).
  - intros file_bytes w1 w2 w3 Hget Hwrite Hparse.
    apply (DocumentFacts.handle_record_failed C cfg bucket key results s s1 s2
             Hdoc Hens Hnew).
    now apply (DocumentFacts.parse_failure C cfg bucket key s2 e file_bytes w1 w2 w3).
Qed.

(** A document that is not in the bucket: the fetch raises. *)
Lemma missing_document_example :
  let C := InMemory.collaborators (fun _ => Ok (VObj [("markdown", VStr "# Report")])) in
  let s := InMemory.start [] in
  let w := [("output/", None); ("input/", None)] in
  let folders := [mkPut "docs" "input/" None None true;
                  mkPut "docs" "output/" None None true] in
  handle_record C default_config (mkRecord "docs" "input/reports/q3.pdf") [] s
  = (Ok [failed_result "docs" "input/reports/q3.pdf" InMemory.not_found],
     mkRun w folders).
Proof.
  intros C s w folders.
  exact (proj1 (early_failure_writes_nothing C default_config "docs"
                  "input/reports/q3.pdf" [] s (mkRun w folders) (mkRun w folders)
                  InMemory.not_found eq_refl eq_refl eq_refl)
               w eq_refl).
Defined.

(** X5.  Once the markdown object is put, the document succeeds: whatever
    the response holds beside the markdown and whatever the store answers
    afterwards, the record of the document is ["success"] - a failure while
    the grounding data is saved is not reported. *)
Theorem grounding_failure_is_not_reported {W : Type} (C : Collaborators W)
    (cfg : Config) (bucket key : string) (results : list pyval)
    (s s1 s2 : RunState W) (file_bytes : bytes) (w1 w2 w3 w4 : W)
    (response : pyval) (markdown : string) :
  is_document_key cfg key = true ->
  ensure_s3_folders C cfg bucket s = (Ok tt, s1) ->
  already_processed C cfg bucket (output_key cfg key) s1 = (Ok false, s2) ->
  let tmp_path := str (div (Path "/tmp") (filename (relative_path cfg key))) in
  s3_get_object C bucket key (world s2) = (Ok file_bytes, w1) ->
  write_bytes C tmp_path file_bytes w1 = (Ok tt, w2) ->
  ade_parse C tmp_path (ADE_MODEL cfg) w2 = (Ok response, w3) ->
  attr response "markdown" = Some (VStr markdown) ->
  s3_put_object C bucket (output_key cfg key) (Some (Utf8Body markdown))
                (Some "text/markdown") w3 = (Ok tt, w4) ->
  exists s3,
    handle_record C cfg (mkRecord bucket key) results s
    = (Ok (results ++ [success_result bucket key (output_key cfg key)])%list, s3).
Proof.
  intros Hdoc Hens Hnew tmp_path Hget Hwrite Hparse Hmd Hput.
  destruct (DocumentFacts.markdown_put_succeeds C cfg bucket key s2 file_bytes
              w1 w2 w3 w4 response markdown (output_key cfg key)
              Hget Hwrite Hparse Hmd Hput) as (s3 & Hproc).
  exists s3.
  now apply (DocumentFacts.handle_record_succeeded C cfg bucket key results s s1 s2).
Qed.

(** A store that refuses every JSON object, and a response with one chunk:
    the grounding JSON is refused and the document is a success. *)
Lemma refused_grounding_example :
  let chunk := VObj [("id", VStr "c1"); ("type", VStr "text"); ("markdown", VStr "Hello")] in
  let response := VObj [("markdown", VStr "# Report"); ("chunks", VList [chunk])] in
  let C := json_refusing (fun _ => Ok response) in
  let s := InMemory.start [("input/reports/q3.pdf", Some (RawBody []))] in
  (exists s3,
      handle_record C default_config (mkRecord "docs" "input/reports/q3.pdf") [] s
      = (Ok [success_result "docs" "input/reports/q3.pdf" "output/reports/q3.md"], s3)) /\
  map (fun p => (put_key p, put_accepted p))
      (puts (snd (handle_record C default_config
                    (mkRecord "docs" "input/reports/q3.pdf") [] s)))
  = [("input/", true); ("output/", true); ("output/reports/q3.md", true);
     ("output/reports_grounding/q3_grounding.json", false)].
Proof.
  intros chunk response C s. split; [|reflexivity].
  set (w := [("output/", None); ("input/", None);
             ("input/reports/q3.pdf", Some (RawBody []))]).
  set (folders := [mkPut "docs" "input/" None None true;
                   mkPut "docs" "output/" None None true]).
  exact (grounding_failure_is_not_reported C default_config "docs"
           "input/reports/q3.pdf" [] s (mkRun w folders) (mkRun w folders)
           [] w w w (("output/reports/q3.md", Some (Utf8Body "# Report")) :: w)
           response "# Report"
           eq_refl eq_refl eq_refl eq_refl eq_refl eq_refl eq_refl eq_refl).
Defined.

Module WriteFacts.
Import PyStr Py Run Handler Results Writes.

Section WithCollaborators.
Context {W : Type}.
Variable C : Collaborators W.
Variable cfg : Config.
Variables (bucket output_key fwe : string) (keys : KeyMapper.GroundingKeys).

Local Abbreviation doc_put := (document_put bucket output_key fwe keys).

(** the key of a chunk file is in the chunks folder, named after the
    document *)
Lemma chunk_file_key (chunks_folder : string) (chunk : pyval) (k : string) (j : pyval) :
  chunk_file_of C chunks_folder fwe chunk = Ok (ChunkFile k j) ->
  startswith k (chunks_folder ++ fwe ++ "_") = true.
Proof.
  unfold chunk_file_of.
  destruct (dict_get chunk "id" (VStr "")) as [chunk_id|]; [|discriminate].
  destruct (negb (truthy chunk_id)); [discriminate|].
  destruct (dict_get chunk "grounding" (VDict [])) as [grounding|]; [|discriminate].
  destruct (dict_get grounding "box" (VDict [])) as [box|]; [|discriminate].
  destruct (dict_get box "left" (VInt 0)); [|discriminate].
  destruct (dict_get box "top" (VInt 0)); [|discriminate].
  destruct (dict_get box "right" (VInt 1)); [|discriminate].
  destruct (dict_get box "bottom" (VInt 1)); [|discriminate].
  destruct (dict_get chunk "type" (VStr "text")); [|discriminate].
  destruct (dict_get chunk "markdown" (VStr "")); [|discriminate].
  destruct (dict_get grounding "page" (VInt 0)); [|discriminate].
  intros [= <- _]. unfold KeyMapper.chunk_key.
  rewrite <- !StrFacts.append_assoc.
  rewrite (StrFacts.append_assoc _ (format C chunk_id) ".json").
  apply StrFacts.startswith_append.
Qed.

Lemma write_chunk_files_targets (chunks_data : list pyval) (s : RunState W) :
  exists new,
    puts (snd (write_chunk_files C bucket (KeyMapper.chunks_folder keys) fwe
                 chunks_data s))
    = (puts s ++ new)%list /\
    Forall doc_put new.
Proof.
  revert s. induction chunks_data as [|chunk more IH]; intros s.
  - exists []. cbn. rewrite app_nil_r. now split.
  - cbn [write_chunk_files]. unfold bind at 1, lift.
    destruct (chunk_file_of C (KeyMapper.chunks_folder keys) fwe chunk)
      as [[|chunk_key chunk_json]|e] eqn:Efile.
    + apply IH.
    + unfold bind at 1.
      destruct (json_dumps chunk_json) as [body|e].
      * unfold bind at 1.
        destruct (GroundingFacts.put_object_puts C bucket chunk_key (Some body)
                    (Some "application/json") s) as (r & accepted & s1 & E1 & Hp1).
        rewrite E1.
        assert (Hput : doc_put (mkPut bucket chunk_key (Some body)
                                      (Some "application/json") accepted)).
        { split; [reflexivity|]. right. right. split; [|reflexivity].
          cbn [put_key]. eapply chunk_file_key. exact Efile. }
        destruct r as [u|e].
        -- destruct (IH s1) as (rest & Hrest & Hall).
           exists (mkPut bucket chunk_key (Some body) (Some "application/json") accepted
                     :: rest).
           split; [|now constructor].
           rewrite Hrest, Hp1, <- app_assoc. reflexivity.
        -- eexists [_]. split; [exact Hp1 | now constructor].
      * exists []. cbn. rewrite app_nil_r. now split.
    + exists []. cbn. rewrite app_nil_r. now split.
Qed.

Lemma save_grounding_targets (response : pyval) (s : RunState W) :
  exists new,
    puts (snd (save_grounding C bucket fwe keys response s)) = (puts s ++ new)%list /\
    Forall doc_put new.
Proof.
  unfold save_grounding, try_except, any_exception.
  unfold bind at 1, lift.
  destruct (grounding_record response) as [grounding_data|e].
  2:{ exists []. cbn. rewrite app_nil_r. now split. }
  destruct (truthy (VList (chunks_of grounding_data))).
  2:{ exists []. cbn. rewrite app_nil_r. now split. }
  unfold bind at 1.
  destruct (json_dumps grounding_data) as [body|e].
  2:{ exists []. cbn. rewrite app_nil_r. now split. }
  unfold bind at 1.
  destruct (GroundingFacts.put_object_puts C bucket (KeyMapper.grounding_key keys)
              (Some body) (Some "application/json") s)
    as (r & accepted & s1 & E1 & Hp1).
  rewrite E1.
  assert (Hput : doc_put (mkPut bucket (KeyMapper.grounding_key keys) (Some body)
                                (Some "application/json") accepted)).
  { split; [reflexivity|]. right. left. now split. }
  destruct r as [u|e].
  - destruct (write_chunk_files_targets (chunks_of grounding_data) s1)
      as (rest & Hrest & Hall).
    exists (mkPut bucket (KeyMapper.grounding_key keys) (Some body)
                  (Some "application/json") accepted :: rest).
    split; [|now constructor].
    destruct (write_chunk_files C bucket (KeyMapper.chunks_folder keys) fwe
                (chunks_of grounding_data) s1) as [[u'|e'] s2];
      cbn [snd] in Hrest; unfold ret; cbn [snd];
      rewrite Hrest, Hp1, <- app_assoc; reflexivity.
  - eexists [_]. split; [exact Hp1 | now constructor].
Qed.

End WithCollaborators.
End WriteFacts.

Import Writes.

(** X6.  The writes of one document are confined: every [put_object] call
    that [process_document] makes goes to the bucket of the event and is
    the markdown object at the markdown key, the grounding JSON at the
    grounding key, or a JSON chunk file in the chunks folder whose name
    starts with the name of the document. *)
Theorem document_writes_are_confined {W : Type} (C : Collaborators W) (cfg : Config)
    (bucket key filename fwe output_key : string) (s : RunState W) :
  exists new,
    puts (snd (process_document C cfg bucket key filename fwe output_key s))
    = (puts s ++ new)%list /\
    Forall (document_put bucket output_key fwe (grounding_keys output_key)) new.
Proof.
  unfold process_document.
  unfold Run.bind at 1, Run.call at 1.
  destruct (s3_get_object C bucket key (world s)) as [[file_bytes|e] w1].
  2:{ exists []. cbn. rewrite app_nil_r. now split. }
  unfold Run.bind at 1, Run.call at 1. cbn [world puts].
  destruct (write_bytes C _ file_bytes w1) as [[[]|e] w2].
  2:{ exists []. cbn. rewrite app_nil_r. now split. }
  unfold Run.bind at 1, Run.call at 1. cbn [world puts].
  destruct (ade_parse C _ (ADE_MODEL cfg) w2) as [[response|e] w3].
  2:{ exists []. cbn. rewrite app_nil_r. now split. }
  unfold Run.bind at 1, Run.lift at 1.
  destruct (getattr response "markdown") as [markdown|e].
  2:{ exists []. cbn. rewrite app_nil_r. now split. }
  unfold Run.bind at 1, Run.lift at 1.
  destruct (encode markdown) as [body|e].
  2:{ exists []. cbn. rewrite app_nil_r. now split. }
  unfold Run.bind at 1.
  destruct (GroundingFacts.put_object_puts C bucket output_key (Some body)
              (Some "text/markdown") (mkRun w3 (puts s)))
    as (r & accepted & s1 & E1 & Hp1).
  rewrite E1. cbn [puts] in Hp1.
  assert (Hput : document_put bucket output_key fwe (grounding_keys output_key)
                   (mkPut bucket output_key (Some body) (Some "text/markdown") accepted)).
  { split; [reflexivity|]. left. now split. }
  destruct r as [u|e].
  - destruct (WriteFacts.save_grounding_targets C bucket output_key fwe
                (grounding_keys output_key) response s1) as (rest & Hrest & Hall).
    exists (mkPut bucket output_key (Some body) (Some "text/markdown") accepted :: rest).
    split; [|now constructor].
    rewrite Hrest, Hp1, <- app_assoc. reflexivity.
  - eexists [_]. split; [exact Hp1 | now constructor].
Qed.

Module ChunkLoopFacts.
Import PyStr Py Run Handler.

Section WithCollaborators.
Context {W : Type}.
Variable C : Collaborators W.
Variables (bucket chunks_folder fwe : string).

(** the loop over two lists in a row *)
Lemma write_chunk_files_app (pre post : list pyval) (s : RunState W) :
  write_chunk_files C bucket chunks_folder fwe (pre ++ post) s
  = (write_chunk_files C bucket chunks_folder fwe pre ;;;
     write_chunk_files C bucket chunks_folder fwe post) s.
Proof.
  revert s. induction pre as [|chunk pre IH]; intros s.
  - cbn. reflexivity.
  - cbn [app write_chunk_files]. unfold bind, lift in *.
    destruct (chunk_file_of C chunks_folder fwe chunk) as [[|chunk_key chunk_json]|e];
      [apply IH| |reflexivity].
    destruct (json_dumps chunk_json) as [body|e]; [|reflexivity].
    destruct (put_object C bucket chunk_key (Some body) (Some "application/json") s)
      as [[u|e] s1]; [apply IH | reflexivity].
Qed.

Lemma not_a_dict_raises (chunk : pyval) :
  (forall d, chunk <> VDict d) ->
  chunk_file_of C chunks_folder fwe chunk
  = Raise (mkExn AttributeError "object has no attribute 'get'").
Proof.
  intros Hnot. unfold chunk_file_of.
  destruct chunk; try reflexivity. now elim (Hnot d).
Qed.

End WithCollaborators.
End ChunkLoopFacts.

(** X7.  The loop over the chunk files stops at the first chunk record
    that is not a dict: the files of the chunks before it are written, the
    loop raises [AttributeError], and no chunk after it gets a file. *)
Theorem chunk_files_stop_at_bad_chunk {W : Type} (C : Collaborators W)
    (bucket chunks_folder fwe : string) (pre post : list pyval) (bad : pyval)
    (s s1 : RunState W) :
  (forall d, bad <> VDict d) ->
  write_chunk_files C bucket chunks_folder fwe pre s = (Ok tt, s1) ->
  write_chunk_files C bucket chunks_folder fwe (pre ++ bad :: post) s
  = (Raise (mkExn AttributeError "object has no attribute 'get'"), s1).
Proof.
  intros Hbad Hpre.
  rewrite ChunkLoopFacts.write_chunk_files_app.
  rewrite (RunFacts.bind_ok _ _ _ _ _ Hpre).
  cbn [write_chunk_files]. unfold Run.bind, Run.lift.
  now rewrite (ChunkLoopFacts.not_a_dict_raises C chunks_folder fwe bad Hbad).
Qed.

(** Three chunk records, the second a string: only the first gets a file. *)
Lemma chunk_files_stop_example :
  let C := InMemory.collaborators (fun _ => Ok VNone) in
  let c1 := VDict [("id", VStr "c1"); ("markdown", VStr "Hello")] in
  let c3 := VDict [("id", VStr "c3"); ("markdown", VStr "World")] in
  (forall d, VStr "c2" <> VDict d) /\
  map put_key
      (puts (snd (write_chunk_files C "docs" "output/reports_chunks/" "q3"
                    ([c1] ++ VStr "c2" :: [c3]) (InMemory.start []))))
  = ["output/reports_chunks/q3_c1.json"].
Proof.
  intros C c1 c3.
  assert (Hbad : forall d, VStr "c2" <> VDict d) by discriminate.
  split; [exact Hbad|].
  rewrite (chunk_files_stop_at_bad_chunk C "docs" "output/reports_chunks/" "q3"
             [c1] [c3] (VStr "c2") (InMemory.start [])
             (snd (write_chunk_files C "docs" "output/reports_chunks/" "q3" [c1]
                     (InMemory.start [])))
             Hbad eq_refl).
  reflexivity.
Defined.

(** * Further properties of the key derivation *)

Module AppendFacts.
Import PyStr StrFacts.

Lemma append_cancel_l (a b c : string) : a ++ b = a ++ c -> b = c.
Proof.
  induction a as [|x a IH]; [tauto|]. cbn [append]. intros [= E]. now apply IH.
Qed.

Lemma append_cancel_r (a b c : string) : a ++ c = b ++ c -> a = b.
Proof.
  revert b. induction a as [|x a IH]; intros [|y b] E.
  - reflexivity.
  - apply (f_equal String.length) in E. cbn [append String.length] in E.
    rewrite length_append in E. lia.
  - apply (f_equal String.length) in E. cbn [append String.length] in E.
    rewrite length_append in E. lia.
  - cbn [append] in E. injection E as -> E. f_equal. now apply IH.
Qed.

Lemma take_append (a b : string) : take (String.length a) (a ++ b) = a.
Proof. induction a as [|x a IH]; [now destruct b | cbn; now rewrite IH]. Qed.

(** the last occurrence of a character followed by a part without it *)
Lemma rfind_append (c : ascii) (a e : string) :
  rfind c e = None -> rfind c (a ++ String c e) = Some (String.length a).
Proof.
  intros He. induction a as [|x a IH].
  - cbn [append rfind String.length]. now rewrite He, Ascii.eqb_refl.
  - cbn [append rfind String.length]. now rewrite IH.
Qed.

(** the stem of [st.e] is [st] *)
Lemma stem_of_dotted (st e : string) :
  st <> "" -> e <> "" -> rfind "." e = None ->
  PosixPath.stem_of (st ++ "." ++ e) = st.
Proof.
  intros Hst He Hdot. unfold PosixPath.stem_of.
  change ("." ++ e) with (String "." e).
  rewrite (rfind_append "." st e Hdot), length_append.
  assert (H1 : (0 <? String.length st)%nat = true)
    by (apply Nat.ltb_lt; destruct st; [congruence | cbn; lia]).
  assert (H2 : (String.length st <? String.length st + String.length (String "." e) - 1)%nat
               = true)
    by (apply Nat.ltb_lt; destruct e; [congruence | cbn; lia]).
  rewrite H1, H2. cbn [andb]. apply take_append.
Qed.

End AppendFacts.

(** X8.  Within one document the key of a chunk file determines the chunk
    id: two chunk ids never share a file.  Across documents of one chunks
    folder it does not: the document [a_b] with chunk [c] and the document
    [a] with chunk [b_c] share the key. *)
Theorem chunk_key_unique_within_document (chunks_folder : string) :
  (forall fwe id1 id2,
      chunk_key chunks_folder fwe id1 = chunk_key chunks_folder fwe id2 -> id1 = id2) /\
  (forall a b c,
      chunk_key chunks_folder (a ++ "_" ++ b) c = chunk_key chunks_folder a (b ++ "_" ++ c)).
Proof.
  split.
  - intros fwe id1 id2 E. unfold chunk_key in E.
    apply AppendFacts.append_cancel_l in E.
    apply AppendFacts.append_cancel_l in E.
    apply (AppendFacts.append_cancel_l "_") in E.
    now apply AppendFacts.append_cancel_r in E.
  - intros a b c. unfold chunk_key. now rewrite !StrFacts.append_assoc.
Qed.

(** Two chunk ids of the document [q3]. *)
Lemma chunk_key_unique_example :
  chunk_key "output/reports_chunks/" "q3" "c1"
  = chunk_key "output/reports_chunks/" "q3" ("c" ++ "1") /\
  "c1" = "c" ++ "1".
Proof.
  split; [reflexivity|].
  exact (proj1 (chunk_key_unique_within_document "output/reports_chunks/")
               "q3" "c1" ("c" ++ "1") eq_refl).
Defined.

(** X9.  The markdown key ignores the extension of the document: two
    documents of one folder that differ in their extension only ([st.e1],
    [st.e2]) derive the same markdown key [OUTPUT_FOLDER + folder + "/" +
    st + ".md"]. *)
Theorem extension_is_ignored (cfg : Config) (first : string) (rest : list string)
    (st e1 e2 : string) :
  segment first = true -> segments rest ->
  st <> "" -> contains "/" st = false ->
  e1 <> "" -> contains "/" e1 = false -> rfind "." e1 = None ->
  e2 <> "" -> contains "/" e2 = false -> rfind "." e2 = None ->
  let folder := join "/" (first :: rest) in
  let markdownKey := OUTPUT_FOLDER cfg ++ folder ++ "/" ++ st ++ ".md" in
  output_key cfg (INPUT_FOLDER cfg ++ folder ++ "/" ++ st ++ "." ++ e1) = markdownKey /\
  output_key cfg (INPUT_FOLDER cfg ++ folder ++ "/" ++ st ++ "." ++ e2) = markdownKey.
Proof.
  intros Hfirst Hrest Hst Hsts He1 Hs1 Hd1 He2 Hs2 Hd2 folder markdownKey.
  assert (Hone : forall e, e <> "" -> contains "/" e = false -> rfind "." e = None ->
                 output_key cfg (INPUT_FOLDER cfg ++ folder ++ "/" ++ st ++ "." ++ e)
                 = markdownKey).
  { intros e He Hs Hd. subst folder markdownKey.
    assert (Hname : segment (st ++ "." ++ e) = true).
    { apply PathFacts.segment_append; [assumption| |cbn; destruct e; [congruence | cbn; lia]].
      change ("." ++ e) with (String "." e).
      rewrite StrFacts.contains_sep_cons. now rewrite Hs. }
    rewrite <- StrFacts.join_snoc by discriminate.
    change ((first :: rest) ++ [(st ++ "." ++ e)%string])%list
      with (first :: (rest ++ [(st ++ "." ++ e)%string]))%list.
    unfold output_key, output_key_of.
    rewrite KeyMapperFacts.relative_path_under.
    rewrite (KeyMapperFacts.subfolder_nested first rest _ Hfirst Hrest Hname).
    rewrite (KeyMapperFacts.filename_without_ext_nested first rest _ Hfirst Hrest Hname).
    rewrite (KeyMapperFacts.subfolder_nested_truthy first rest "" Hfirst Hrest).
    now rewrite (AppendFacts.stem_of_dotted st e Hst He Hd). }
  split; now apply Hone.
Qed.

(** A PDF and a text file of one name. *)
Lemma extension_is_ignored_example :
  output_key default_config "input/reports/2024/q3.pdf" = "output/reports/2024/q3.md" /\
  output_key default_config "input/reports/2024/q3.txt" = "output/reports/2024/q3.md".
Proof.
  assert (Hrest : segments ["2024"]) by (repeat constructor).
  exact (extension_is_ignored default_config "reports" ["2024"] "q3" "pdf" "txt"
           eq_refl Hrest ltac:(discriminate) eq_refl
           ltac:(discriminate) eq_refl eq_refl
           ltac:(discriminate) eq_refl eq_refl).
Defined.

Module NormalFacts.
Import PyStr PosixPath Segments StrFacts PathFacts.

Lemma split_nonempty (s : string) : split "/" s <> [].
Proof.
  destruct s as [|c s]; [discriminate|].
  cbn [split]. destruct (Ascii.eqb c "/"); [discriminate|].
  destruct (split "/" s); discriminate.
Qed.

(** [split] of two parts joined by a separator *)
Lemma split_append (a b : string) :
  split "/" (a ++ "/" ++ b) = (split "/" a ++ split "/" b)%list.
Proof.
  induction a as [|c a IH]; [reflexivity|].
  change (String c a ++ "/" ++ b) with (String c (a ++ "/" ++ b)).
  cbn [split]. rewrite IH. destruct (Ascii.eqb c "/"); [reflexivity|].
  pose proof (split_nonempty a) as Hne.
  destruct (split "/" a) as [|h t]; [congruence | reflexivity].
Qed.

Lemma startswith_sep_append (a x : string) :
  a <> "" -> startswith a "/" = false -> startswith (a ++ x) "/" = false.
Proof.
  intros Hne Ha. destruct a as [|c a]; [congruence|].
  unfold startswith in *. change (String c a ++ x) with (String c (a ++ x)).
  rewrite prefix_cons in *. now rewrite prefix_nil in *.
Qed.

(** the parse of a relative path, by its parts around a separator *)
Lemma Path_append (a b : string) :
  a <> "" -> startswith a "/" = false ->
  Path (a ++ "/" ++ b)
  = mkPath "" (filter kept (split "/" a) ++ filter kept (split "/" b)).
Proof.
  intros Hne Ha. unfold Path.
  rewrite splitroot_relative by (now apply startswith_sep_append).
  unfold sep. now rewrite split_append, filter_app.
Qed.

Lemma Path_double_sep (a b : string) :
  a <> "" -> startswith a "/" = false ->
  Path (a ++ "//" ++ b) = Path (a ++ "/" ++ b).
Proof.
  intros Hne Ha. change ("//" ++ b) with ("/" ++ "" ++ "/" ++ b).
  rewrite !Path_append by assumption.
  now rewrite (split_append "" b).
Qed.

Lemma Path_dot_segment (a b : string) :
  a <> "" -> startswith a "/" = false ->
  Path (a ++ "/./" ++ b) = Path (a ++ "/" ++ b).
Proof.
  intros Hne Ha. change ("/./" ++ b) with ("/" ++ "." ++ "/" ++ b).
  rewrite !Path_append by assumption.
  now rewrite (split_append "." b).
Qed.

(** the markdown key depends on the parse of the relative path only *)
Lemma output_key_by_parse (cfg : Config) (rel1 rel2 : string) :
  Path rel1 = Path rel2 ->
  KeyMapper.output_key cfg (INPUT_FOLDER cfg ++ rel1)
  = KeyMapper.output_key cfg (INPUT_FOLDER cfg ++ rel2).
Proof.
  intros E. unfold KeyMapper.output_key.
  rewrite !KeyMapperFacts.relative_path_under.
  unfold KeyMapper.subfolder, KeyMapper.filename_without_ext, KeyMapper.filename.
  now rewrite E.
Qed.

End NormalFacts.

(** X10.  The markdown key does not tell apart input keys that differ by a
    doubled separator or by a ["."] segment inside the path: below the
    input folder, [a//b], [a/./b] and [a/b] derive the same markdown key,
    although they are distinct keys of the bucket. *)
Theorem doubled_separator_is_collapsed (cfg : Config) (a b : string) :
  a <> "" -> startswith a "/" = false ->
  output_key cfg (INPUT_FOLDER cfg ++ a ++ "//" ++ b)
  = output_key cfg (INPUT_FOLDER cfg ++ a ++ "/" ++ b) /\
  output_key cfg (INPUT_FOLDER cfg ++ a ++ "/./" ++ b)
  = output_key cfg (INPUT_FOLDER cfg ++ a ++ "/" ++ b) /\
  INPUT_FOLDER cfg ++ a ++ "//" ++ b <> INPUT_FOLDER cfg ++ a ++ "/" ++ b.
Proof.
  intros Hne Ha. split; [|split].
  - apply NormalFacts.output_key_by_parse. now apply NormalFacts.Path_double_sep.
  - apply NormalFacts.output_key_by_parse. now apply NormalFacts.Path_dot_segment.
  - intros E. apply AppendFacts.append_cancel_l in E.
    apply AppendFacts.append_cancel_l in E.
    apply (f_equal String.length) in E. cbn [append String.length] in E. lia.
Qed.

(** Two keys of one document name. *)
Lemma doubled_separator_example :
  output_key default_config "input/reports//q3.pdf" = "output/reports/q3.md" /\
  output_key default_config "input/reports/q3.pdf" = "output/reports/q3.md".
Proof.
  split; [|reflexivity].
  exact (eq_trans
           (proj1 (doubled_separator_is_collapsed default_config "reports" "q3.pdf"
                     ltac:(discriminate) eq_refl))
           eq_refl).
Defined.

(** * Further properties of the chunk images *)

Module CaseTactics.

(** case analysis on a scrutinee that holds no other case analysis *)
Ltac destruct_innermost :=
  match goal with
  | |- context [match ?x with _ => _ end] =>
      lazymatch x with
      | context [match _ with _ => _ end] => fail
      | _ => destruct x
      end
  end.

End CaseTactics.

Import Highlight.

(** X11.  Where a chunk image exists under the image key and the URL can
    be signed, [extract_chunk_image] returns that URL at once, whatever
    the source PDF, the box, the page, the highlight and the padding it is
    asked for: nothing is fetched, rendered or put. *)
Theorem cached_chunk_image_is_returned {W F Image : Type} `{FloatOps F}
    (C : Collaborators W) (I : Imaging F Image)
    (bucket chunk_id source_document url : string) (s : RunState W) (w1 w2 : W) :
  DYNAMIC_CROPPING_ENABLED I = true ->
  s3_head_object C bucket (image_key source_document chunk_id) (world s) = (Ok tt, w1) ->
  s3_generate_presigned_url C bucket (image_key source_document chunk_id) w1
  = (Ok url, w2) ->
  forall source_pdf_key bbox page_num highlight padding,
    extract_chunk_image C I bucket source_pdf_key bbox page_num chunk_id
                        source_document highlight padding s
    = (Ok (Some url), mkRun w2 (puts s)).
Proof.
  intros Hdyn Hhead Hurl source_pdf_key bbox page_num highlight padding.
  unfold extract_chunk_image. rewrite Hdyn. cbn [negb].
  unfold Run.try_except, Run.bind, Run.call, Run.ret, any_exception.
  rewrite Hhead. cbn [world puts]. now rewrite Hurl.
Qed.

(** A chunk image left in the bucket by an earlier call. *)
Lemma cached_chunk_image_example :
  let C := InMemory.collaborators (fun _ => Ok VNone) in
  let w := [("output/medical_chunk_images/q3_c1.png", Some (RawBody []))] in
  extract_chunk_image C InMemoryImaging.imaging "docs" "input/other/q3.pdf"
                      [(1 # 10)%Q; (1 # 5)%Q; (3 # 10)%Q; (2 # 5)%Q] 7 "c1" "q3" true 10
                      (InMemory.start w)
  = (Ok (Some "https://docs.s3.amazonaws.com/output/medical_chunk_images/q3_c1.png"),
     mkRun w []).
Proof.
  intros C w.
  exact (cached_chunk_image_is_returned C InMemoryImaging.imaging "docs" "c1" "q3"
           "https://docs.s3.amazonaws.com/output/medical_chunk_images/q3_c1.png"
           (InMemory.start w) w w eq_refl eq_refl eq_refl
           "input/other/q3.pdf" [(1 # 10)%Q; (1 # 5)%Q; (3 # 10)%Q; (2 # 5)%Q]
           7%Z true 10%Z).
Defined.

(** X12.  [extract_chunk_image] puts at most one object: a PNG at the
    image key of the chunk, in the bucket it was given. *)
Theorem chunk_image_put_is_single {W F Image : Type} `{FloatOps F}
    (C : Collaborators W) (I : Imaging F Image)
    (bucket source_pdf_key : string) (bbox : list F) (page_num : Z)
    (chunk_id source_document : string) (highlight : bool) (padding : Z)
    (s : RunState W) :
  let s' := snd (extract_chunk_image C I bucket source_pdf_key bbox page_num chunk_id
                                     source_document highlight padding s) in
  puts s' = puts s \/
  exists image_data accepted,
    puts s' = (puts s ++ [mkPut bucket (image_key source_document chunk_id)
                                (Some (RawBody image_data)) (Some "image/png")
                                accepted])%list.
Proof.
  cbv zeta. unfold extract_chunk_image.
  destruct (negb (DYNAMIC_CROPPING_ENABLED I)); [now left|].
  unfold Run.try_except, Run.bind, Run.call, Run.ret, Run.lift, Run.put_object,
    any_exception.
  repeat (CaseTactics.destruct_innermost; cbn [world puts snd]);
    first [ now left | right; do 2 eexists; reflexivity ].
Qed.

(** X13.  The highlight of a cropped chunk is drawn [padding] pixels
    inside the crop.  Where the padded box lies within the page (nothing
    is clamped), that rectangle is, on the page, the pixel box of the
    chunk (its right and lower edges one pixel inside).  Where the left
    edge is clamped (the chunk starts less than [padding] pixels from the
    left of the page), the rectangle starts at pixel [padding], right of
    the left edge of the chunk. *)
Theorem highlight_frames_unclamped_chunk {F Image : Type} `{FloatOps F}
    (I : Imaging F Image) (img chunk_img : Image)
    (norm_x0 norm_y0 norm_x1 norm_y1 page_width page_height : F) (padding : Z) :
  let crop := crop_box norm_x0 norm_y0 norm_x1 norm_y1 page_width page_height
                       (image_width I img) (image_height I img) padding in
  let rectangle := highlight_rectangle padding (image_width I chunk_img)
                                       (image_height I chunk_img) in
  let left := pixel norm_x0 page_width (image_width I img) in
  let top := pixel norm_y0 page_height (image_height I img) in
  let right := pixel norm_x1 page_width (image_width I img) in
  let bottom := pixel norm_y1 page_height (image_height I img) in
  image_crop I img crop = Ok chunk_img ->
  (let '(x0, y0, x1, y1) := crop in
   image_width I chunk_img = x1 - x0 /\ image_height I chunk_img = y1 - y0)%Z ->
  chunk_image_data I img page_width page_height
                   [norm_x0; norm_y0; norm_x1; norm_y1] true padding
  = match draw_rectangle I chunk_img rectangle "red" 3 with
    | Raise e => Raise e
    | Ok drawn => save_png I drawn
    end /\
  ((padding <= left)%Z -> (padding <= top)%Z ->
   (right + padding <= image_width I img)%Z ->
   (bottom + padding <= image_height I img)%Z ->
   on_page crop rectangle = (left, top, right - 1, bottom - 1)%Z) /\
  ((0 <= left < padding)%Z ->
   let '(l, _, _, _) := on_page crop rectangle in (l = padding /\ left < l)%Z).
Proof.
  intros crop rectangle left top right bottom Hcrop Hsize.
  split; [|split].
  - unfold chunk_image_data, plan_crop. cbn [use_full_page List.length Nat.eqb negb orb].
    fold crop. rewrite Hcrop. reflexivity.
  - intros Hl Ht Hr Hb. subst rectangle crop left top right bottom.
    unfold crop_box, pixel in *. cbv beta iota zeta in Hsize.
    destruct Hsize as [-> ->]. unfold on_page, highlight_rectangle.
    f_equal; [f_equal; [f_equal|]|]; lia.
  - intros Hl. subst rectangle crop left top right bottom.
    unfold crop_box, pixel in *. cbv beta iota zeta in Hsize.
    destruct Hsize as [-> ->]. unfold on_page, highlight_rectangle.
    cbv beta iota zeta. lia.
Qed.

(** A chunk in the middle of the page, and a chunk at its left edge. *)
Lemma highlight_example :
  let I := InMemoryImaging.imaging in
  let crop := crop_box (1 # 2)%Q (1 # 2)%Q (3 # 4)%Q (3 # 4)%Q 612%Q 792%Q 1275 1650 10 in
  crop = (627, 815, 966, 1247)%Z /\
  on_page crop (highlight_rectangle 10 339 432) = (637, 825, 955, 1236)%Z.
Proof.
  intros I crop. split; [reflexivity|].
  assert (Hreal : image_crop I (1275, 1650)%Z crop = Ok (339, 432)%Z) by reflexivity.
  exact (proj1 (proj2 (highlight_frames_unclamped_chunk I (1275, 1650)%Z (339, 432)%Z
                         (1 # 2)%Q (1 # 2)%Q (3 # 4)%Q (3 # 4)%Q 612%Q 792%Q 10
                         Hreal (conj eq_refl eq_refl)))
               ltac:(vm_compute; discriminate) ltac:(vm_compute; discriminate)
               ltac:(vm_compute; discriminate) ltac:(vm_compute; discriminate)).
Defined.

(** * Further properties of the annotated images *)

Module ClampFacts.
Import BoxGeometry Annotation.

Section Clamp.
Context {F : Type} {ops : FloatOps F} {tests : FloatTests F}.
Context {laws : FloatLaws F} {test_laws : FloatTestLaws F}.



End Clamp.

#[export] Instance Q_test_laws : FloatTestLaws Q.
Proof.
  constructor. intros a b. cbn [fltb Q_tests flt Q_ops].
  rewrite Qlt_alt. now destruct (a ?= b)%Q.
Qed.

End ClampFacts.

Import Annotation ClampFacts.



Module DrawFacts.
Import BoxGeometry Annotation.

Section WithCollaborators.
Context {F Doc Page Image : Type} `{FloatOps F} `{FloatTests F}.
Variable A : Annotator Doc Page Image.

(** a box that is not drawable leaves the drawing as it is *)
Lemma draw_box_skipped (img_width img_height : Z) (rgb : Z * Z * Z) (bbox : Box F)
    (d : Drawing Image) :
  drawable bbox = false -> draw_box A img_width img_height rgb bbox d = Ok d.
Proof. unfold draw_box. now intros ->. Qed.

Lemma not_drawable (bbox : Box F) :
  VisualGrounding.lookup "left" bbox = None -> drawable bbox = false.
Proof. unfold drawable. intros ->. apply andb_false_r. Qed.

Lemma draw_boxes_skipped (img_width img_height : Z) (rgb : Z * Z * Z)
    (boxes : list (Box F)) (d : Drawing Image) :
  Forall (fun bbox => VisualGrounding.lookup "left" bbox = None) boxes ->
  draw_boxes A img_width img_height rgb boxes d = Ok d.
Proof.
  induction 1 as [|bbox rest Hb _ IH]; [reflexivity|].
  cbn [draw_boxes]. now rewrite draw_box_skipped by now apply not_drawable.
Qed.

(** once [img] names an image of its own, the rest of the loop composes
    overlays onto it and nothing else *)
Lemma draw_boxes_rebound (img_width img_height : Z) (rgb : Z * Z * Z)
    (boxes : list (Box F)) :
  forall (d d' : Drawing Image) (img : Image),
    rebound d = Some img ->
    draw_boxes A img_width img_height rgb boxes d = Ok d' ->
    overlays_only A img_width img_height rgb boxes img = Ok (img_of d').
Proof.
  induction boxes as [|bbox rest IH]; intros d d' img Hd.
  - cbn [draw_boxes overlays_only]. intros [= <-]. unfold img_of. now rewrite Hd.
  - cbn [draw_boxes overlays_only]. unfold draw_box.
    destruct (drawable bbox); [|now apply IH].
    destruct (outline_rectangle A (canvas d) _ rgb 3) as [outlined|e]; [|discriminate].
    unfold img_of at 1 2. cbn [rebound]. rewrite Hd.
    destruct rgb as [[r g] b].
    destruct (filled_overlay A _ _ _) as [overlay|e]; [|discriminate].
    destruct (alpha_composite A img overlay) as [composed|e]; [|discriminate].
    now apply IH.
Qed.

End WithCollaborators.
End DrawFacts.

(** X15.  Of several boxes only the first gets its outline into the saved
    image: the outlines are drawn on the image opened from the page, and
    from the first overlay on [img] names another image.  The image saved
    is the page with the outline of the first box, and on it the overlays
    of all the boxes. *)
Theorem only_first_outline_is_saved {F Doc Page Image : Type} `{FloatOps F}
    `{FloatTests F} (A : Annotator Doc Page Image) (img_width img_height : Z)
    (rgb : Z * Z * Z) (first : Box F) (rest : list (Box F)) (img : Image)
    (d : Drawing Image) :
  drawable first = true ->
  draw_boxes A img_width img_height rgb (first :: rest) (mkDrawing img None) = Ok d ->
  exists outlined,
    outline_rectangle A img (annotation_box first img_width img_height) rgb 3
    = Ok outlined /\
    overlays_only A img_width img_height rgb (first :: rest) outlined = Ok (img_of d).
Proof.
  intros Hfirst. cbn [draw_boxes overlays_only]. unfold draw_box.
  rewrite Hfirst. cbn [canvas].
  destruct (outline_rectangle A img _ rgb 3) as [outlined|e]; [|discriminate].
  unfold img_of at 1 2. cbn [rebound canvas].
  destruct rgb as [[r g] b].
  destruct (filled_overlay A _ _ _) as [overlay|e] eqn:Hoverlay; [|discriminate].
  destruct (alpha_composite A outlined overlay) as [composed|e] eqn:Hcomposed;
    [|discriminate].
  intros Hrest. exists outlined. split; [reflexivity|].
  rewrite Hoverlay, Hcomposed.
  now apply (DrawFacts.draw_boxes_rebound A _ _ _ rest (mkDrawing outlined (Some composed))).
Qed.

Lemma two_boxes_one_outline :
  let A := InMemoryAnnotator.annotator in
  let b1 := InMemoryAnnotator.upper_box in
  let b2 := InMemoryAnnotator.lower_box in
  let page := InMemoryAnnotator.mkImage (1275, 1650)%Z [] in
  let r1 := (127, 165, 637, 330)%Z in
  let r2 := (637, 825, 1147, 990)%Z in
  let green := (40, 167, 69)%Z in
  let saved := InMemoryAnnotator.mkImage (1275, 1650)%Z
                 [InMemoryAnnotator.Outlined r1 green;
                  InMemoryAnnotator.Filled r1 (40, 167, 69, 30)%Z;
                  InMemoryAnnotator.Filled r2 (40, 167, 69, 30)%Z] in
  let d := mkDrawing
             (InMemoryAnnotator.mkImage (1275, 1650)%Z
                [InMemoryAnnotator.Outlined r1 green;
                 InMemoryAnnotator.Outlined r2 green])
             (Some saved) in
  draw_boxes A 1275 1650 green [b1; b2] (mkDrawing page None) = Ok d
  /\ exists outlined,
       outline_rectangle A page (annotation_box b1 1275 1650) green 3 = Ok outlined
       /\ overlays_only A 1275 1650 green [b1; b2] outlined = Ok saved.
Proof.
  cbv zeta. split; [reflexivity|].
  exact (only_first_outline_is_saved
           InMemoryAnnotator.annotator 1275 1650 (40, 167, 69)%Z
           InMemoryAnnotator.upper_box [InMemoryAnnotator.lower_box]
           (InMemoryAnnotator.mkImage (1275, 1650)%Z []) _ eq_refl eq_refl).
Defined.

(** X16.  Boxes without a ['left'] entry are passed over without an error,
    the empty box of a grounding without ['box'] among them: the image
    saved is the page as it was rendered, whatever the chunk type. *)
Theorem box_without_left_gives_plain_page {F Doc Page Image : Type} `{FloatOps F}
    `{FloatTests F} (A : Annotator Doc Page Image) (pdf_document : Doc)
    (page_num dpi : Z) (bounding_boxes : list (Box F)) (chunk_type : string)
    (page : Page) (img_data : bytes) (img : Image) :
  Forall (fun bbox => lookup "left" bbox = None) bounding_boxes ->
  load_page A pdf_document (page_index page_num) = Ok page ->
  page_png A page dpi = Ok img_data ->
  image_open A img_data = Ok img ->
  annotated_image A pdf_document page_num bounding_boxes dpi chunk_type = Ok img.
Proof.
  intros Hboxes Hpage Hpng Himg. unfold annotated_image.
  rewrite Hpage, Hpng, Himg. destruct (image_size A img) as [img_width img_height].
  rewrite ColorFacts.rgb_color_eq.
  now rewrite DrawFacts.draw_boxes_skipped.
Qed.

Lemma grounding_without_box_example :
  let no_box := [] : Box Q in
  let corners := [("x0", NFloat (1 # 10)%Q); ("y0", NFloat (1 # 10)%Q);
                  ("x1", NFloat (1 # 2)%Q); ("y1", NFloat (1 # 5)%Q)] : Box Q in
  Forall (fun bbox => lookup "left" bbox = None) [no_box; corners]
  /\ annotated_image InMemoryAnnotator.annotator 3%Z 1 [no_box; corners] 150 "table"
     = Ok (InMemoryAnnotator.mkImage (1275, 1650)%Z []).
Proof.
  cbv zeta.
  assert (Hboxes : Forall (fun bbox : Box Q => lookup "left" bbox = None)
                          [[]; [("x0", NFloat (1 # 10)%Q); ("y0", NFloat (1 # 10)%Q);
                                ("x1", NFloat (1 # 2)%Q); ("y1", NFloat (1 # 5)%Q)]])
    by (repeat constructor).
  split; [exact Hboxes|].
  exact (box_without_left_gives_plain_page
           InMemoryAnnotator.annotator 3%Z 1 150 _ "table" 0%Z []
           (InMemoryAnnotator.mkImage (1275, 1650)%Z []) Hboxes eq_refl eq_refl eq_refl).
Defined.

(** X17.  [get_or_create_annotated_image] does not raise, and it puts at
    most one object: a PNG at the annotation key, in the bucket it was
    given. *)
Theorem annotation_put_is_single {W F Doc Page Image : Type} `{FloatOps F}
    `{FloatTests F} (C : Collaborators W) (A : Annotator Doc Page Image)
    (bucket source_pdf_key chunk_id : string) (grounding_info : GroundingInfo F)
    (chunk_type : string) (force_recreate : bool) (s : RunState W) :
  let page_num := match page grounding_info with Some p => p | None => 1%Z end in
  exists url s',
    get_or_create_annotated_image C A bucket source_pdf_key chunk_id grounding_info
                                  chunk_type force_recreate s
    = (Ok url, s') /\
    (puts s' = puts s \/
     exists img_bytes accepted,
       puts s' = (puts s ++ [mkPut bucket
                                   (annotation_key source_pdf_key page_num chunk_id)
                                   (Some (RawBody img_bytes)) (Some "image/png")
                                   accepted])%list).
Proof.
  cbv zeta.
  unfold get_or_create_annotated_image, create_annotated_image_from_pdf.
  unfold Run.bind, Run.try_except, Run.call, Run.lift, Run.ret, Run.put_object,
    any_exception.
  repeat (CaseTactics.destruct_innermost; cbn [world puts snd]);
    do 2 eexists; (split; [reflexivity|]); cbn [puts];
    first [ now left | right; do 2 eexists; reflexivity ].
Qed.

(** X18.  Where an annotation exists under the annotation key and the URL
    can be signed, [get_or_create_annotated_image] returns that URL at
    once, whatever box and chunk type it is asked for: nothing is fetched,
    rendered or put, so a changed box or colour does not reach an
    annotation that is stored already. *)
Theorem cached_annotation_is_returned {W F Doc Page Image : Type} `{FloatOps F}
    `{FloatTests F} (C : Collaborators W) (A : Annotator Doc Page Image)
    (bucket source_pdf_key chunk_id url : string) (page_num : Z)
    (s : RunState W) (w1 w2 : W) :
  s3_head_object C bucket (annotation_key source_pdf_key page_num chunk_id) (world s)
  = (Ok tt, w1) ->
  s3_generate_presigned_url C bucket (annotation_key source_pdf_key page_num chunk_id) w1
  = (Ok url, w2) ->
  forall bbox chunk_type,
    get_or_create_annotated_image C A bucket source_pdf_key chunk_id
                                  (mkGrounding (Some page_num) bbox) chunk_type false s
    = (Ok (Some url), mkRun w2 (puts s)).
Proof.
  intros Hhead Hurl bbox chunk_type.
  unfold get_or_create_annotated_image. cbn [page negb].
  unfold Run.bind, Run.try_except, Run.call, Run.ret.
  rewrite Hhead. cbn [world puts]. now rewrite Hurl.
Qed.

Lemma cached_annotation_example :
  let C := InMemory.collaborators (fun _ => Ok VNone) in
  let key := "annotations/report_p2_c1.png" in
  let stored := InMemory.start [(key, None)] in
  annotation_key "input/medical/report.pdf" 2 "c1" = key /\
  get_or_create_annotated_image C InMemoryAnnotator.annotator "docs"
    "input/medical/report.pdf" "c1"
    (mkGrounding (Some 2%Z) (Some InMemoryAnnotator.upper_box)) "table" false stored
  = (Ok (Some "https://docs.s3.amazonaws.com/annotations/report_p2_c1.png"), stored).
Proof.
  cbv zeta. split; [reflexivity|].
  exact (cached_annotation_is_returned
           (InMemory.collaborators (fun _ => Ok VNone)) InMemoryAnnotator.annotator
           "docs" "input/medical/report.pdf" "c1"
           "https://docs.s3.amazonaws.com/annotations/report_p2_c1.png" 2
           (InMemory.start [("annotations/report_p2_c1.png", None)]) _ _
           eq_refl eq_refl (Some InMemoryAnnotator.upper_box) "table").
Defined.



Module AnchorFacts.
Import PyStr StrFacts Annotation Anchors.

Lemma without_cons (c a : ascii) (s : string) :
  without c (String a s) <-> Ascii.eqb c a = false /\ without c s.
Proof.
  unfold without. cbn [contains]. rewrite prefix_cons, prefix_nil, andb_true_r.
  apply orb_false_iff.
Qed.

Lemma without_append (c : ascii) (a b : string) :
  without c a -> without c b -> without c (a ++ b).
Proof.
  induction a as [|x a IH]; [trivial|].
  cbn [append]. rewrite !without_cons. intros [Hx Ha] Hb. split; [assumption|].
  now apply IH.
Qed.

(** the characters passed over after a match *)
Lemma replace_from_skip (old new p s : string) :
  replace_from old new (String.length p) (p ++ s) = replace_from old new 0 s.
Proof.
  induction p as [|c p IH]; [now destruct s|].
  cbn [String.length append replace_from]. exact IH.
Qed.

(** an occurrence at the start is replaced *)
Lemma replace_from_match (c : ascii) (old new s : string) :
  replace_from (String c old) new 0 (String c old ++ s)
  = new ++ replace_from (String c old) new 0 s.
Proof.
  cbn [append replace_from].
  change (String c (old ++ s)) with (String c old ++ s).
  rewrite prefix_append.
  replace (String.length (String c old) - 1) with (String.length old)
    by (cbn [String.length]; lia).
  now rewrite replace_from_skip.
Qed.

(** nothing is replaced before the first character of [old] occurs *)
Lemma replace_from_without (c : ascii) (old new s t : string) :
  without c s ->
  replace_from (String c old) new 0 (s ++ t)
  = s ++ replace_from (String c old) new 0 t.
Proof.
  induction s as [|a s IH]; [reflexivity|].
  rewrite without_cons. intros [Ha Hs].
  cbn [append replace_from]. rewrite prefix_cons, Ha. cbn [andb].
  now rewrite IH.
Qed.

Lemma replace_without (c : ascii) (old new s : string) :
  without c s -> replace (String c old) new s = s.
Proof.
  intros Hs. unfold replace.
  rewrite <- (append_nil_r s) at 1. rewrite replace_from_without by assumption.
  cbn [replace_from]. apply append_nil_r.
Qed.

Lemma lstrip_without (c : ascii) (s : string) : without c s -> lstrip c s = s.
Proof.
  destruct s as [|a s]; [reflexivity|].
  rewrite without_cons. intros [Ha _]. cbn [lstrip].
  rewrite Ascii.eqb_sym in Ha. now rewrite Ha.
Qed.

Lemma rstrip_without (c : ascii) (s : string) : without c s -> rstrip c s = s.
Proof.
  induction s as [|a s IH]; [reflexivity|].
  rewrite without_cons. intros [Ha Hs]. cbn [rstrip].
  rewrite IH by assumption. rewrite Ascii.eqb_sym in Ha. rewrite Ha.
  now destruct s.
Qed.

Lemma rstrip_closing (c : ascii) (s : string) :
  without c s -> rstrip c (s ++ String c "") = s.
Proof.
  induction s as [|a s IH].
  - intros _. cbn [append rstrip]. now rewrite Ascii.eqb_refl.
  - rewrite without_cons. intros [Ha Hs]. cbn [append rstrip].
    rewrite IH by assumption. rewrite Ascii.eqb_sym in Ha. rewrite Ha.
    now destruct s.
Qed.

Lemma strip_without (c : ascii) (s : string) : without c s -> strip c s = s.
Proof.
  intros Hs. unfold strip. rewrite lstrip_without by assumption.
  now apply rstrip_without.
Qed.

Lemma strip_quoted (c : ascii) (s : string) :
  without c s -> strip c (String c (s ++ String c "")) = s.
Proof.
  intros Hs. unfold strip. cbn [lstrip]. rewrite Ascii.eqb_refl.
  destruct s as [|a s].
  - cbn [append lstrip rstrip]. now rewrite Ascii.eqb_refl.
  - pose proof Hs as Hs'. apply without_cons in Hs' as [Ha _].
    cbn [append lstrip]. rewrite Ascii.eqb_sym in Ha. rewrite Ha.
    now apply (rstrip_closing c (String a s)).
Qed.

End AnchorFacts.

Module ExtractFacts.
Import PyStr StrFacts Annotation Anchors AnchorFacts.

Lemma extract_eq (s : string) :
  extract_chunk_id_from_markdown s
  = match match_here s with
    | Some g => Some g
    | None =>
        match s with
        | EmptyString => None
        | String _ s' => extract_chunk_id_from_markdown s'
        end
    end.
Proof. now destruct s. Qed.

(** no match starts before the first [<] *)
Lemma extract_skip (pre t : string) :
  without "<" pre ->
  extract_chunk_id_from_markdown (pre ++ t) = extract_chunk_id_from_markdown t.
Proof.
  induction pre as [|a pre IH]; [reflexivity|].
  rewrite without_cons. intros [Ha Hpre].
  rewrite extract_eq. cbn [append]. unfold match_here.
  rewrite prefix_cons, Ha. cbn [andb]. now apply IH.
Qed.

Lemma match_here_anchor (q : ascii) (rest : string) :
  is_quote q = true -> match_here ("<a id=" ++ String q rest) = match_group rest.
Proof.
  intros Hq. unfold match_here. rewrite prefix_append.
  change 6 with (String.length "<a id="). rewrite drop_append. now rewrite Hq.
Qed.

Lemma not_quote (a : ascii) :
  Ascii.eqb quote a = false -> Ascii.eqb "'" a = false -> is_quote a = false.
Proof.
  unfold is_quote. rewrite (Ascii.eqb_sym a quote), (Ascii.eqb_sym a "'").
  now intros -> ->.
Qed.

(** the group stops at the first quote that [></a>] follows *)
Lemma match_group_id (id post : string) (closing : ascii) :
  without quote id -> without "'" id -> without "010" id ->
  is_quote closing = true ->
  match_group (id ++ String closing ("></a>" ++ post)) = Some id.
Proof.
  intros Hq Ha Hn Hclosing. induction id as [|c id IH].
  - change (match_group (String closing ("></a>" ++ post)) = Some "").
    cbn [match_group]. now rewrite Hclosing, prefix_append.
  - apply without_cons in Hq as [Hq1 Hq]. apply without_cons in Ha as [Ha1 Ha].
    apply without_cons in Hn as [Hn1 Hn].
    change (String c id ++ String closing ("></a>" ++ post))
      with (String c (id ++ String closing ("></a>" ++ post))).
    cbn [match_group]. rewrite (not_quote c Hq1 Ha1). cbn [andb].
    rewrite Ascii.eqb_sym in Hn1. rewrite Hn1.
    now rewrite IH.
Qed.

(** the steps of line 338 on a tag *)
Lemma replace_opening (q1 q2 : ascii) (id : string) :
  without "<" id -> Ascii.eqb "<" q1 = false -> Ascii.eqb "<" q2 = false ->
  replace "<a id=" "" (anchor q1 q2 id) = String q1 (id ++ String q2 "></a>").
Proof.
  intros Hid H1 H2. unfold replace, anchor.
  rewrite replace_from_match. cbn [append].
  change (String q1 (id ++ String q2 "></a>"))
    with (String q1 (id ++ String q2 ("" ++ "></a>"))).
  replace (String q1 (id ++ String q2 ("" ++ "></a>")))
    with (String q1 (id ++ String q2 "") ++ "></a>")
    by (cbn [append]; now rewrite append_assoc).
  rewrite replace_from_without.
  - reflexivity.
  - apply without_cons. split; [assumption|].
    apply without_append; [assumption|]. now apply without_cons.
Qed.

Lemma replace_closing (q1 q2 : ascii) (id : string) :
  without ">" id -> Ascii.eqb ">" q1 = false -> Ascii.eqb ">" q2 = false ->
  replace "></a>" "" (String q1 (id ++ String q2 "></a>"))
  = String q1 (id ++ String q2 "").
Proof.
  intros Hid H1 H2. unfold replace.
  replace (String q1 (id ++ String q2 "></a>"))
    with (String q1 (id ++ String q2 "") ++ "></a>")
    by (cbn [append]; now rewrite append_assoc).
  rewrite replace_from_without.
  - change (replace_from "></a>" "" 0 "></a>") with "". apply append_nil_r.
  - apply without_cons. split; [assumption|].
    apply without_append; [assumption|]. now apply without_cons.
Qed.

Lemma clean_anchor (id : string) :
  without "<" id -> without ">" id -> without quote id ->
  clean_chunk_id (anchor quote quote id) = id.
Proof.
  intros Hlt Hgt Hq. unfold clean_chunk_id.
  rewrite replace_opening, replace_closing by (assumption || reflexivity).
  now apply strip_quoted.
Qed.

Lemma clean_bare (id : string) :
  without "<" id -> without ">" id -> without quote id ->
  clean_chunk_id id = id.
Proof.
  intros Hlt Hgt Hq. unfold clean_chunk_id.
  rewrite (replace_without "<" "a id=" "" id) by assumption.
  rewrite (replace_without ">" "</a>" "" id) by assumption.
  now apply strip_without.
Qed.

Lemma strip_apostrophes (s : string) :
  strip quote (String "'" (s ++ "'")) = String "'" (s ++ "'").
Proof.
  unfold strip. cbn [lstrip]. change (Ascii.eqb "'" quote) with false. cbv iota.
  change (String "'" (s ++ "'")) with (String "'" s ++ "'").
  generalize (String "'" s). intros t. induction t as [|a t IH]; [reflexivity|].
  cbn [append rstrip]. rewrite IH. now destruct t.
Qed.

Lemma clean_apostrophes (id : string) :
  without "<" id -> without ">" id ->
  clean_chunk_id (anchor "'" "'" id) = String "'" (id ++ "'").
Proof.
  intros Hlt Hgt. unfold clean_chunk_id.
  rewrite replace_opening, replace_closing by (assumption || reflexivity).
  apply strip_apostrophes.
Qed.

End ExtractFacts.

Import Anchors.

(** X20.  The id that names an annotation is the same for a chunk given
    by its anchor tag and for a chunk given by its bare id, so both find
    the same annotation; this holds for a tag written with double quotes
    only - the apostrophes of a tag written with them stay in the id. *)
Theorem anchor_and_bare_id_share_annotation (source_pdf_key : string) (page_num : Z)
    (id : string) :
  without "<" id -> without ">" id -> without quote id ->
  annotation_key source_pdf_key page_num (anchor quote quote id)
  = annotation_key source_pdf_key page_num id /\
  clean_chunk_id (anchor quote quote id) = id /\
  clean_chunk_id (anchor "'" "'" id) = String "'" (id ++ "'").
Proof.
  intros Hlt Hgt Hq. unfold annotation_key.
  rewrite ExtractFacts.clean_anchor, ExtractFacts.clean_bare by assumption.
  repeat split. now apply ExtractFacts.clean_apostrophes.
Qed.

Lemma anchor_and_bare_id_example :
  let tag := anchor quote quote "c1-7f3a" in
  (without "<" "c1-7f3a" /\ without ">" "c1-7f3a" /\ without quote "c1-7f3a") /\
  annotation_key "input/medical/report.pdf" 2 tag = "annotations/report_p2_c1-7f3a.png" /\
  annotation_key "input/medical/report.pdf" 2 "c1-7f3a"
  = "annotations/report_p2_c1-7f3a.png" /\
  annotation_key "input/medical/report.pdf" 2 (anchor "'" "'" "c1-7f3a")
  = "annotations/report_p2_'c1-7f3a'.png".
Proof.
  cbv zeta. split; [repeat split|].
  pose proof (anchor_and_bare_id_share_annotation
                "input/medical/report.pdf" 2 "c1-7f3a" eq_refl eq_refl eq_refl)
    as (Hkey & _ & _).
  split; [exact (eq_trans Hkey eq_refl)|]. split; reflexivity.
Defined.

(** X21.  [extract_chunk_id_from_markdown] returns the id of the first
    anchor tag of the text, for both kinds of quotes: what precedes the
    tag (without [<]) and what follows it (further tags included) do not
    matter.  For a tag in double quotes it is the id under which
    [get_or_create_annotated_image] stores the annotation of that tag. *)
Theorem first_anchor_id_is_extracted (pre post id : string) (opening closing : ascii) :
  without "<" pre ->
  without quote id -> without "'" id -> without "010" id ->
  is_quote opening = true -> is_quote closing = true ->
  extract_chunk_id_from_markdown (pre ++ anchor opening closing id ++ post) = Some id /\
  (without "<" id -> without ">" id ->
   extract_chunk_id_from_markdown (pre ++ anchor quote quote id ++ post)
   = Some (clean_chunk_id (anchor quote quote id))).
Proof.
  intros Hpre Hq Ha Hn Hopening Hclosing.
  assert (Hfirst : forall q1 q2, is_quote q1 = true -> is_quote q2 = true ->
            extract_chunk_id_from_markdown (pre ++ anchor q1 q2 id ++ post) = Some id).
  { intros q1 q2 H1 H2. rewrite ExtractFacts.extract_skip by assumption.
    rewrite ExtractFacts.extract_eq. unfold anchor.
    rewrite StrFacts.append_assoc. cbn [append].
    change (String "<" (String "a" (String " " (String "i" (String "d" (String "="
              (String q1 ((id ++ String q2 "></a>") ++ post))))))))
      with ("<a id=" ++ String q1 ((id ++ String q2 "></a>") ++ post)).
    rewrite ExtractFacts.match_here_anchor by assumption.
    rewrite StrFacts.append_assoc.
    change (String q2 "></a>" ++ post) with (String q2 ("></a>" ++ post)).
    now rewrite ExtractFacts.match_group_id. }
  split; [now apply Hfirst|].
  intros Hlt Hgt. rewrite ExtractFacts.clean_anchor by assumption.
  now apply Hfirst.
Qed.

Lemma first_anchor_example :
  let text := "Table 2 " ++ anchor quote "'" "c1-7f3a"
              ++ " Totals " ++ anchor quote quote "c2" in
  extract_chunk_id_from_markdown text = Some "c1-7f3a".
Proof.
  cbv zeta.
  exact (proj1 (first_anchor_id_is_extracted
                  "Table 2 " (" Totals " ++ anchor quote quote "c2") "c1-7f3a"
                  quote "'" eq_refl eq_refl eq_refl eq_refl eq_refl eq_refl)).
Defined.

(** * Further properties of the chunk files and the record loop *)

(** X22.  A chunk that the response gives as an object gets, in its chunk
    file, the defaults of the copy to a dict and not those of the chunk
    file.  With a grounding that has a page and a box: the page, and for
    a missing coordinate [0] (also for ['right'] and ['bottom'], where the
    chunk file defaults to [1]); with a grounding that lacks its page or
    its box: [bbox = [0, 0, 1, 1]] and [page = 0], the page of the
    grounding being dropped.  A missing type is [''], not ['text']. *)
Theorem object_chunk_file_defaults {W : Type} (C : Collaborators W)
    (chunks_folder fwe : string) (attrs : list (string * pyval)) :
  let chunk := VObj attrs in
  let id := getattr_default chunk "id" (VStr "") in
  truthy id = true ->
  exists chunk_json,
    chunk_file_of C chunks_folder fwe (chunk_to_dict chunk)
    = Ok (ChunkFile (chunk_key chunks_folder fwe (format C id)) chunk_json) /\
    field chunk_json "chunk_type" = Some (getattr_default chunk "type" (VStr "")) /\
    (forall grounding page box,
        attr chunk "grounding" = Some grounding ->
        attr grounding "page" = Some page -> attr grounding "box" = Some box ->
        field chunk_json "page" = Some page /\
        field chunk_json "bbox"
        = Some (VList [getattr_default box "left" (VInt 0);
                       getattr_default box "top" (VInt 0);
                       getattr_default box "right" (VInt 0);
                       getattr_default box "bottom" (VInt 0)])) /\
    (forall grounding,
        attr chunk "grounding" = Some grounding ->
        attr grounding "page" = None \/ attr grounding "box" = None ->
        field chunk_json "page" = Some (VInt 0) /\
        field chunk_json "bbox" = Some (VList [VInt 0; VInt 0; VInt 1; VInt 1])).
Proof.
  cbv zeta. intros Hid.
  unfold chunk_to_dict. cbn [has_dict].
  destruct (attr (VObj attrs) "grounding") as [grounding|] eqn:Hg.
  - destruct (attr grounding "page") as [page|] eqn:Hp;
      [destruct (attr grounding "box") as [box|] eqn:Hb|].
    + unfold chunk_file_of. cbn [dict_get app assoc String.eqb Ascii.eqb Bool.eqb].
      rewrite Hid. cbn [negb].
      eexists. split; [reflexivity|]. split; [reflexivity|]. split.
      * intros g p b [= <-]. rewrite Hp, Hb. intros [= <-] [= <-].
        split; reflexivity.
      * intros g [= <-] [Hn|Hn]; congruence.
    + unfold chunk_file_of. cbn [dict_get app assoc String.eqb Ascii.eqb Bool.eqb].
      rewrite Hid. cbn [negb].
      eexists. split; [reflexivity|]. split; [reflexivity|]. split.
      * intros g p b [= <-]. rewrite Hb. discriminate.
      * intros _ _ _. split; reflexivity.
    + unfold chunk_file_of. cbn [dict_get app assoc String.eqb Ascii.eqb Bool.eqb].
      rewrite Hid. cbn [negb].
      eexists. split; [reflexivity|]. split; [reflexivity|]. split.
      * intros g p b [= <-]. rewrite Hp. discriminate.
      * intros _ _ _. split; reflexivity.
  - unfold chunk_file_of. cbn [dict_get app assoc String.eqb Ascii.eqb Bool.eqb].
    rewrite Hid. cbn [negb].
    eexists. split; [reflexivity|]. split; [reflexivity|]. split.
    + intros g p b. discriminate.
    + intros g. discriminate.
Qed.

Lemma object_chunk_example :
  let C := InMemory.collaborators (fun _ => Ok VNone) in
  let box := VObj [("left", VFloat (1 # 10)); ("top", VFloat (1 # 5))] in
  let chunk := VObj [("id", VStr "c1"); ("markdown", VStr "Hello");
                     ("grounding", VObj [("page", VInt 3); ("box", box)])] in
  truthy (getattr_default chunk "id" (VStr "")) = true /\
  exists chunk_json,
    chunk_file_of C "output/reports_chunks/" "q3" (chunk_to_dict chunk)
    = Ok (ChunkFile "output/reports_chunks/q3_c1.json" chunk_json) /\
    field chunk_json "chunk_type" = Some (VStr "") /\
    field chunk_json "page" = Some (VInt 3) /\
    field chunk_json "bbox"
    = Some (VList [VFloat (1 # 10); VFloat (1 # 5); VInt 0; VInt 0]).
Proof.
  cbv zeta. split; [reflexivity|].
  destruct (object_chunk_file_defaults
              (InMemory.collaborators (fun _ => Ok VNone)) "output/reports_chunks/" "q3"
              [("id", VStr "c1"); ("markdown", VStr "Hello");
               ("grounding",
                VObj [("page", VInt 3);
                      ("box", VObj [("left", VFloat (1 # 10)); ("top", VFloat (1 # 5))])])]
              eq_refl) as (chunk_json & Hfile & Htype & Hbox & _).
  exists chunk_json. split; [exact Hfile|]. split; [exact Htype|].
  exact (Hbox _ _ _ eq_refl eq_refl eq_refl).
Defined.

(** X23.  The folder markers are put before the input folder is checked:
    an upload outside the input folder gets no result record, and yet the
    two folder keys are put for it; a folder event ends before that and
    puts nothing. *)
Theorem stray_upload_still_puts_folders {W : Type} (C : Collaborators W) (cfg : Config)
    (bucket key : string) (results : list pyval) (s : RunState W) :
  (endswith key "/" = true ->
   handle_record C cfg (mkRecord bucket key) results s = (Ok results, s)) /\
  (endswith key "/" = false -> PyStr.truthy (basename key) = true ->
   startswith key (INPUT_FOLDER cfg) = false ->
   exists accepted_in accepted_out w',
     handle_record C cfg (mkRecord bucket key) results s
     = (Ok results,
        mkRun w' (puts s ++ [mkPut bucket (INPUT_FOLDER cfg) None None accepted_in;
                             mkPut bucket (OUTPUT_FOLDER cfg) None None accepted_out])%list)).
Proof.
  split.
  - intros Hfolder. unfold handle_record. cbn [rec_bucket rec_key].
    now rewrite Hfolder.
  - intros Hfile Hname Hstray. unfold handle_record. cbn [rec_bucket rec_key].
    rewrite Hfile, Hname, Hstray. cbn [negb].
    unfold ensure_s3_folders. cbn [fold_right].
    unfold Run.bind, Run.try_except, Run.put_object, Run.ret, any_exception.
    destruct (s3_put_object C bucket (INPUT_FOLDER cfg) None None (world s))
      as [[[]|e1] w1]; cbn [world puts];
      destruct (s3_put_object C bucket (OUTPUT_FOLDER cfg) None None w1)
        as [[[]|e2] w2]; cbn [world puts];
      do 3 eexists; rewrite <- app_assoc; reflexivity.
Qed.

Lemma stray_upload_example :
  let C := InMemory.collaborators (fun _ => Ok VNone) in
  (endswith "uploads/scan.pdf" "/" = false
   /\ PyStr.truthy (basename "uploads/scan.pdf") = true
   /\ startswith "uploads/scan.pdf" (INPUT_FOLDER default_config) = false) /\
  exists accepted_in accepted_out w',
    handle_record C default_config (mkRecord "docs" "uploads/scan.pdf") []
                  (InMemory.start [])
    = (Ok [],
       mkRun w' [mkPut "docs" "input/" None None accepted_in;
                 mkPut "docs" "output/" None None accepted_out]).
Proof.
  cbv zeta. split; [repeat split|].
  exact (proj2 (stray_upload_still_puts_folders
                  (InMemory.collaborators (fun _ => Ok VNone)) default_config
                  "docs" "uploads/scan.pdf" [] (InMemory.start []))
               eq_refl eq_refl eq_refl).
Defined.
